(** * Tool execution pipeline: a shallow embedding of the Python sources

    The development follows the layout of [src/tool_executor]:

    - [PyStr]: the [str] methods the sources call ([strip], [lower],
      [isdigit], [replace], substring test, [repr]);
    - [Py]: the values of JSON documents and schemas, with truth value,
      equality, order, membership, indexing and rendering;
    - [DependencyParser]: [dependency_parser.py];
    - [SchemaValidator]: [schema_validator.py];
    - [GitHubDownloader]: [download_tool_from_github] of
      [github_downloader.py];
    - [Pipeline]: [virtual_env_manager.py] and [tool_executor.py];
    - [Samples]: concrete documents, schemas and worlds;
    - the properties, one section per component.

    A Python [str] is modelled as a [string] whose characters are the code
    points below 256; integers are [Z] and floats the primitive binary64
    floats; a [dict] is an association list in insertion order;
    exceptions are values of [exn] carried by the [pyresult] monad.  What
    lies outside the process (the regex engine, [json], [ast], [pathlib],
    the repository, the file system, the children it spawns) is a record
    of functions that the definitions take as an argument.

    CPython neither reads nor prints an integer of more than 4300 digits.
    The limit is modelled where a value is converted ([int_of_str],
    [_convert_to_string]); the text of a message prints the integers it
    mentions in full, [json] bringing none beyond the limit. *)

From Stdlib Require Import ZArith String Ascii List Bool Lia Floats.
From Stdlib Require OrderedTypeEx.
From stdpp Require Import gmap strings sorting pretty.

Set Warnings "-register-all".

Local Open Scope string_scope.
Local Open Scope list_scope.
Local Open Scope Z_scope.

(** ** Exceptions *)

Inductive exn_class :=
| ValueError | JSONDecodeError | TypeError | KeyError | IndexError
| AttributeError | UnboundLocalError | OverflowError | OSError
| TimeoutExpired | SyntaxError | ReError | RecursionError | PlainException.

#[global] Instance exn_class_eq_dec : EqDecision exn_class.
Proof. solve_decision. Defined.

(** Every class above derives from [Exception], so [except Exception]
    catches all of them; interrupts that derive from [BaseException] alone
    are outside the model.  [except ValueError] catches
    [json.JSONDecodeError] too, which derives from it. *)
Definition is_ValueError (c : exn_class) : bool :=
  match c with ValueError | JSONDecodeError => true | _ => false end.

Definition is_TypeError (c : exn_class) : bool :=
  match c with TypeError => true | _ => false end.

Record exn := Exn { exn_cls : exn_class; exn_msg : string }.

Inductive pyresult (A : Type) :=
| Ok (a : A)
| Raise (e : exn).
Arguments Ok {A} a.
Arguments Raise {A} e.

(** Sequencing: an exception skips the rest of the block.  The instances
    give the notation [x ← m; k]. *)
#[global] Instance pyresult_ret : MRet pyresult := fun A a => Ok a.
#[global] Instance pyresult_bind : MBind pyresult := fun A B k m =>
  match m with Ok a => k a | Raise e => Raise e end.

(** ** Python [str] methods *)

Module PyStr.

Definition dquote : ascii := "034"%char.
Definition squote : ascii := "039"%char.
Definition newline : ascii := "010"%char.
Definition backslash : ascii := "092"%char.

Definition code (c : ascii) : N := N_of_ascii c.

Definition between (lo hi : N) (c : ascii) : bool :=
  ((lo <=? code c) && (code c <=? hi))%N.

(** [str.isspace] on the code points below 256. *)
Definition is_space (c : ascii) : bool :=
  between 9 13 c || between 28 32 c || (code c =? 133)%N || (code c =? 160)%N.

Definition is_ascii_digit (c : ascii) : bool := between 48 57 c.
Definition is_ascii_upper (c : ascii) : bool := between 65 90 c.
Definition is_ascii_lower (c : ascii) : bool := between 97 122 c.
Definition is_ascii_alnum (c : ascii) : bool :=
  is_ascii_digit c || is_ascii_upper c || is_ascii_lower c.

(** [str.isdigit] also holds of the superscript digits U+00B2, U+00B3 and
    U+00B9. *)
Definition is_unicode_digit (c : ascii) : bool :=
  is_ascii_digit c || (code c =? 178)%N || (code c =? 179)%N || (code c =? 185)%N.

Definition is_empty (s : string) : bool :=
  match s with EmptyString => true | _ => false end.

Fixpoint all_chars (p : ascii → bool) (s : string) : bool :=
  match s with
  | EmptyString => true
  | String c r => p c && all_chars p r
  end.

Fixpoint lstrip_by (p : ascii → bool) (s : string) : string :=
  match s with
  | EmptyString => EmptyString
  | String c r => if p c then lstrip_by p r else s
  end.

Fixpoint rstrip_by (p : ascii → bool) (s : string) : string :=
  match s with
  | EmptyString => EmptyString
  | String c r =>
      let r' := rstrip_by p r in
      if is_empty r' && p c then EmptyString else String c r'
  end.

Definition strip_by (p : ascii → bool) (s : string) : string :=
  rstrip_by p (lstrip_by p s).

(** [s.strip()] *)
Definition strip (s : string) : string := strip_by is_space s.

Definition is_quote (c : ascii) : bool :=
  Ascii.eqb c squote || Ascii.eqb c dquote.

(** [s.isdigit()] *)
Definition isdigit (s : string) : bool :=
  negb (is_empty s) && all_chars is_unicode_digit s.

Definition lower_char (c : ascii) : ascii :=
  if is_ascii_upper c || (between 192 222 c && negb (code c =? 215)%N)
  then ascii_of_N (code c + 32) else c.

(** [s.lower()] *)
Fixpoint lower (s : string) : string :=
  match s with
  | EmptyString => EmptyString
  | String c r => String (lower_char c) (lower r)
  end.

Fixpoint startswith (p s : string) : bool :=
  match p, s with
  | EmptyString, _ => true
  | String a p', String b s' => Ascii.eqb a b && startswith p' s'
  | String _ _, EmptyString => false
  end.

(** [sub in s] *)
Fixpoint contains (sub s : string) : bool :=
  startswith sub s ||
  match s with
  | EmptyString => false
  | String _ r => contains sub r
  end.

Fixpoint endswith (suffix s : string) : bool :=
  String.eqb suffix s ||
  match s with
  | EmptyString => false
  | String _ r => endswith suffix r
  end.

(** [s.replace(old, new)] for a non-empty [old]: the occurrences are
    replaced from the left and do not overlap.  [skip] counts the characters
    of an occurrence still to be dropped. *)
Fixpoint replace_go (old new : string) (skip : nat) (s : string) : string :=
  match s with
  | EmptyString => EmptyString
  | String c r =>
      match skip with
      | S k => replace_go old new k r
      | O =>
          if startswith old s
          then new +:+ replace_go old new (String.length old - 1) r
          else String c (replace_go old new O r)
      end
  end.

Definition replace (old new s : string) : string := replace_go old new O s.

Fixpoint join (sep : string) (l : list string) : string :=
  match l with
  | [] => EmptyString
  | [x] => x
  | x :: r => x +:+ sep +:+ join sep r
  end.

Definition hex_digit (n : N) : ascii :=
  if (n <? 10)%N then ascii_of_N (48 + n) else ascii_of_N (87 + n).

(** [str.isprintable] on the code points below 256. *)
Definition is_printable (c : ascii) : bool :=
  between 32 126 c || (between 161 255 c && negb (code c =? 173)%N).

Definition repr_char (quote c : ascii) : string :=
  if Ascii.eqb c backslash then String backslash (String backslash "")
  else if Ascii.eqb c quote then String backslash (String quote "")
  else if (code c =? 9)%N then String backslash "t"
  else if (code c =? 10)%N then String backslash "n"
  else if (code c =? 13)%N then String backslash "r"
  else if is_printable c then String c ""
  else String backslash
         (String "x" (String (hex_digit (code c / 16)) (String (hex_digit (code c mod 16)) ""))).

Fixpoint repr_chars (quote : ascii) (s : string) : string :=
  match s with
  | EmptyString => EmptyString
  | String c r => repr_char quote c +:+ repr_chars quote r
  end.

Definition has_char (c : ascii) (s : string) : bool :=
  negb (all_chars (fun c' => negb (Ascii.eqb c c')) s).

(** [repr(s)]: single quotes, unless the text has a single quote and no
    double quote. *)
Definition repr (s : string) : string :=
  let quote := if has_char squote s && negb (has_char dquote s) then dquote else squote in
  String quote (repr_chars quote s) +:+ String quote "".

(** [s.split(',')] *)
Fixpoint split_on (sep : ascii) (s : string) : list string :=
  match s with
  | EmptyString => [EmptyString]
  | String c r =>
      if Ascii.eqb c sep then EmptyString :: split_on sep r
      else match split_on sep r with
           | first :: others => String c first :: others
           | [] => [String c ""]
           end
  end.

(** Whether the last character satisfies [p]. *)
Fixpoint ends_with (p : ascii → bool) (s : string) : bool :=
  match s with
  | EmptyString => false
  | String c EmptyString => p c
  | String _ r => ends_with p r
  end.

End PyStr.

(** ** Python values

    The values a JSON document or a schema is made of. *)

Module Py.
Import PyStr.

Inductive pyval :=
| VNone
| VBool (b : bool)
| VInt (n : Z)
| VFloat (x : float)
| VStr (s : string)
| VList (items : list pyval)
| VDict (entries : list (string * pyval)).

Definition dict := list (string * pyval).

(** The interpreter and library functions the sources call and the model
    takes as given: [repr] of a float, [float(s)] ([None] for
    [ValueError]), [re.match(pattern, s) is not None], and [json.loads]. *)
Record runtime := Runtime {
  float_repr : float → string;
  float_of_str : string → option float;
  re_match : string → string → pyresult bool;
  json_loads : string → pyresult pyval
}.

Definition type_name (v : pyval) : string :=
  match v with
  | VNone => "NoneType"
  | VBool _ => "bool"
  | VInt _ => "int"
  | VFloat _ => "float"
  | VStr _ => "str"
  | VList _ => "list"
  | VDict _ => "dict"
  end.

Definition raise {A} (c : exn_class) (msg : string) : pyresult A := Raise (Exn c msg).

(** *** Dictionaries in insertion order *)

Fixpoint dict_get (k : string) (d : dict) : option pyval :=
  match d with
  | [] => None
  | (k', v) :: r => if String.eqb k k' then Some v else dict_get k r
  end.

Definition dict_has (k : string) (d : dict) : bool :=
  match dict_get k d with Some _ => true | None => false end.

(** [d[k] = v]: an existing key keeps its place. *)
Fixpoint dict_set (k : string) (v : pyval) (d : dict) : dict :=
  match d with
  | [] => [(k, v)]
  | (k', v') :: r =>
      if String.eqb k k' then (k, v) :: r else (k', v') :: dict_set k v r
  end.

(** *** Floats *)

Definition float_is_zero (x : float) : bool := PrimFloat.eqb x 0%float.

(** [int(x)]: truncation toward zero. *)
Definition float_to_int (x : float) : pyresult Z :=
  match Prim2SF x with
  | S754_zero _ => Ok 0
  | S754_finite neg m e =>
      let magnitude := if 0 <=? e then Z.pos m * 2 ^ e else Z.pos m / 2 ^ (- e) in
      Ok (if neg then - magnitude else magnitude)
  | S754_infinity _ => raise OverflowError "cannot convert float infinity to integer"
  | S754_nan => raise ValueError "cannot convert float NaN to integer"
  end.

(** The exact comparison of an integer with a float; [None] for NaN. *)
Definition int_float_compare (n : Z) (x : float) : option comparison :=
  match Prim2SF x with
  | S754_nan => None
  | S754_infinity neg => Some (if neg then Gt else Lt)
  | S754_zero _ => Some (n ?= 0)
  | S754_finite neg m e =>
      let m' := if neg then Z.neg m else Z.pos m in
      Some (if 0 <=? e then n ?= m' * 2 ^ e else n * 2 ^ (- e) ?= m')
  end.

(** *** Truth value, equality and order *)

Definition truthy (v : pyval) : bool :=
  match v with
  | VNone => false
  | VBool b => b
  | VInt n => negb (n =? 0)
  | VFloat x => negb (float_is_zero x)
  | VStr s => negb (is_empty s)
  | VList items => match items with [] => false | _ => true end
  | VDict entries => match entries with [] => false | _ => true end
  end.

(** [isinstance(v, int)] holds of [bool] too. *)
Definition as_int (v : pyval) : option Z :=
  match v with
  | VInt n => Some n
  | VBool b => Some (if b then 1 else 0)
  | _ => None
  end.

Definition is_number (v : pyval) : bool :=
  match v with VInt _ | VBool _ | VFloat _ => true | _ => false end.

(** [a < b] on numbers; [None] when an operand is no number. *)
Definition num_lt (a b : pyval) : option bool :=
  match as_int a, as_int b, a, b with
  | Some m, Some n, _, _ => Some (m <? n)
  | Some m, None, _, VFloat y =>
      Some (match int_float_compare m y with Some Lt => true | _ => false end)
  | None, Some n, VFloat x, _ =>
      Some (match int_float_compare n x with Some Gt => true | _ => false end)
  | None, None, VFloat x, VFloat y => Some (PrimFloat.ltb x y)
  | _, _, _, _ => None
  end.

Definition num_eq (a b : pyval) : option bool :=
  match as_int a, as_int b, a, b with
  | Some m, Some n, _, _ => Some (m =? n)
  | Some m, None, _, VFloat y =>
      Some (match int_float_compare m y with Some Eq => true | _ => false end)
  | None, Some n, VFloat x, _ =>
      Some (match int_float_compare n x with Some Eq => true | _ => false end)
  | None, None, VFloat x, VFloat y => Some (PrimFloat.eqb x y)
  | _, _, _, _ => None
  end.

(** [a == b] *)
Fixpoint py_eq (a b : pyval) {struct a} : bool :=
  match a, b with
  | VNone, VNone => true
  | VStr s, VStr t => String.eqb s t
  | VList xs, VList ys =>
      (fix all2 (xs ys : list pyval) {struct xs} : bool :=
         match xs, ys with
         | [], [] => true
         | x :: xs', y :: ys' => py_eq x y && all2 xs' ys'
         | _, _ => false
         end) xs ys
  | VDict d, VDict e =>
      (length d =? length e)%nat &&
      (fix all_in (d : dict) {struct d} : bool :=
         match d with
         | [] => true
         | (k, v) :: d' =>
             match dict_get k e with
             | Some w => py_eq v w && all_in d'
             | None => false
             end
         end) d
  | _, _ => match num_eq a b with Some r => r | None => false end
  end.

(** [a < b], as the constraint checks use it. *)
Definition py_lt (a b : pyval) : pyresult bool :=
  match num_lt a b with
  | Some r => Ok r
  | None =>
      raise TypeError ("'<' not supported between instances of '" +:+ type_name a
                       +:+ "' and '" +:+ type_name b +:+ "'")
  end.

Definition py_gt (a b : pyval) : pyresult bool :=
  match num_lt b a with
  | Some r => Ok r
  | None =>
      raise TypeError ("'>' not supported between instances of '" +:+ type_name a
                       +:+ "' and '" +:+ type_name b +:+ "'")
  end.

Definition is_hashable (v : pyval) : bool :=
  match v with VList _ | VDict _ => false | _ => true end.

Definition unhashable {A} (v : pyval) : pyresult A :=
  raise TypeError ("unhashable type: '" +:+ type_name v +:+ "'").

(** [x in container] *)
Definition py_contains (container x : pyval) : pyresult bool :=
  match container with
  | VDict entries =>
      match x with
      | VStr k => Ok (dict_has k entries)
      | _ => if is_hashable x then Ok false else unhashable x
      end
  | VList items => Ok (existsb (py_eq x) items)
  | VStr s =>
      match x with
      | VStr sub => Ok (contains sub s)
      | _ => raise TypeError ("'in <string>' requires string as left operand, not "
                              +:+ type_name x)
      end
  | _ => raise TypeError ("argument of type '" +:+ type_name container
                          +:+ "' is not iterable")
  end.

(** [container[key]] *)
Definition py_getitem (rep : pyval → string) (container key : pyval) : pyresult pyval :=
  match container with
  | VDict entries =>
      match key with
      | VStr k =>
          match dict_get k entries with
          | Some v => Ok v
          | None => raise KeyError (repr k)
          end
      | _ => if is_hashable key then raise KeyError (rep key) else unhashable key
      end
  | VList items =>
      match as_int key with
      | Some i =>
          let i' := if i <? 0 then i + Z.of_nat (length items) else i in
          match (if i' <? 0 then None else items !! Z.to_nat i') with
          | Some v => Ok v
          | None => raise IndexError "list index out of range"
          end
      | None => raise TypeError ("list indices must be integers or slices, not "
                                 +:+ type_name key)
      end
  | VStr s =>
      match as_int key with
      | Some i =>
          let i' := if i <? 0 then i + Z.of_nat (String.length s) else i in
          match (if i' <? 0 then None else String.get (Z.to_nat i') s) with
          | Some c => Ok (VStr (String c ""))
          | None => raise IndexError "string index out of range"
          end
      | None => raise TypeError ("string indices must be integers, not '"
                                 +:+ type_name key +:+ "'")
      end
  | _ => raise TypeError ("'" +:+ type_name container +:+ "' object is not subscriptable")
  end.

Definition no_attribute {A} (v : pyval) (attr : string) : pyresult A :=
  raise AttributeError ("'" +:+ type_name v +:+ "' object has no attribute '" +:+ attr +:+ "'").

(** [d.get(k, default)] *)
Definition py_get (d : pyval) (k : string) (default : pyval) : pyresult pyval :=
  match d with
  | VDict entries => Ok (match dict_get k entries with Some v => v | None => default end)
  | _ => no_attribute d "get"
  end.

(** [d.items()] *)
Definition py_items (d : pyval) : pyresult dict :=
  match d with
  | VDict entries => Ok entries
  | _ => no_attribute d "items"
  end.

(** [len(v)] *)
Definition py_len (v : pyval) : pyresult nat :=
  match v with
  | VStr s => Ok (String.length s)
  | VList items => Ok (length items)
  | VDict entries => Ok (length entries)
  | _ => raise TypeError ("object of type '" +:+ type_name v +:+ "' has no len()")
  end.

Fixpoint chars_of (s : string) : list pyval :=
  match s with
  | EmptyString => []
  | String c r => VStr (String c "") :: chars_of r
  end.

(** [for x in v] *)
Definition py_iter (v : pyval) : pyresult (list pyval) :=
  match v with
  | VList items => Ok items
  | VDict entries => Ok (map (fun kv => VStr (fst kv)) entries)
  | VStr s => Ok (chars_of s)
  | _ => raise TypeError ("'" +:+ type_name v +:+ "' object is not iterable")
  end.

(** *** [repr] and [str] *)

Section Rendering.
Context (rt : runtime).

Fixpoint py_repr (v : pyval) : string :=
  match v with
  | VNone => "None"
  | VBool b => if b then "True" else "False"
  | VInt n => pretty n
  | VFloat x => float_repr rt x
  | VStr s => repr s
  | VList items => "[" +:+ join ", " (map py_repr items) +:+ "]"
  | VDict entries =>
      "{" +:+ join ", " (map (fun kv => repr (fst kv) +:+ ": " +:+ py_repr (snd kv)) entries)
      +:+ "}"
  end.

Definition py_str (v : pyval) : string :=
  match v with
  | VStr s => s
  | _ => py_repr v
  end.

(** [str(l)] for a list of strings, as the messages print it. *)
Definition str_of_list (l : list string) : string := py_repr (VList (map VStr l)).

End Rendering.

(** *** The limit on the digits of an integer

    CPython prints no integer of more than 4300 digits: [str] raises
    [ValueError] on one, and on a list or a dictionary that holds one. *)
Fixpoint printable (v : pyval) : bool :=
  match v with
  | VInt n => Z.abs n <? 10 ^ 4300
  | VList items => forallb printable items
  | VDict entries => forallb (fun kv => printable (snd kv)) entries
  | _ => true
  end.

Definition unprintable {A} : pyresult A :=
  raise ValueError
    ("Exceeds the limit (4300 digits) for integer string conversion; "
     +:+ "use sys.set_int_max_str_digits() to increase the limit").

(** *** [int(s)] *)

Definition digit_value (c : ascii) : Z := Z.of_N (code c) - 48.

(** Decimal digits, where single underscores may separate digits.
    [prev_digit] tells whether the previous character was a digit. *)
Fixpoint parse_digits (s : string) (prev_digit : bool) (acc : Z) : option Z :=
  match s with
  | EmptyString => if prev_digit then Some acc else None
  | String c r =>
      if is_ascii_digit c then parse_digits r true (10 * acc + digit_value c)
      else if Ascii.eqb c "_" && prev_digit then
        match r with
        | String c' _ => if is_ascii_digit c' then parse_digits r false acc else None
        | EmptyString => None
        end
      else None
  end.

Definition count_digits (s : string) : nat :=
  length (filter (fun c => is_ascii_digit c = true) (list_ascii_of_string s)).

(** The whitespace [int(s)] skips around the literal: that of [str.strip]
    without the separators U+001C to U+001F. *)
Definition is_int_space (c : ascii) : bool :=
  between 9 13 c || (code c =? 32)%N || (code c =? 133)%N || (code c =? 160)%N.

(** The leading run of digits and underscores, and what follows it. *)
Fixpoint digit_run (s : string) : string * string :=
  match s with
  | EmptyString => (EmptyString, EmptyString)
  | String c r =>
      if is_ascii_digit c || Ascii.eqb c "_" then
        let '(run, rest) := digit_run r in (String c run, rest)
      else (EmptyString, s)
  end.

Definition exceeds_limit (digits : nat) : string :=
  "Exceeds the limit (4300 digits) for integer string conversion: value has "
  +:+ pretty digits +:+ " digits; use sys.set_int_max_str_digits() to increase the limit".

(** [int(s)] in base 10.  The interpreter reads the run of digits after
    the sign, refuses one of more than 4300 digits, and only then looks at
    what follows it. *)
Definition int_of_str (s : string) : pyresult Z :=
  let invalid := raise ValueError ("invalid literal for int() with base 10: " +:+ repr s) in
  let body := strip_by is_int_space s in
  let '(neg, literal) :=
    match body with
    | String c r =>
        if Ascii.eqb c "-" then (true, r)
        else if Ascii.eqb c "+" then (false, r)
        else (false, body)
    | EmptyString => (false, body)
    end in
  let '(run, rest) := digit_run literal in
  match parse_digits run false 0 with
  | Some n =>
      if (4300 <? count_digits run)%nat then raise ValueError (exceeds_limit (count_digits run))
      else if is_empty rest then Ok (if neg then - n else n)
      else invalid
  | None => invalid
  end.

End Py.

(** ** dependency_parser.py *)

Module DependencyParser.
Import PyStr.

(** The value found on the right of [dependencies =], as the parser
    inspects it: a string, a list or tuple, or any other object, of which
    only the truth value and the [str()] rendering are used. *)
Inductive pyobj :=
| PStr (s : string)
| PSeq (items : list pyobj)
| POther (truth : bool) (rendered : string).

Definition truthy (o : pyobj) : bool :=
  match o with
  | PStr s => negb (is_empty s)
  | PSeq items => match items with [] => false | _ => true end
  | POther t _ => t
  end.

(** [self.package_mappings] *)
Definition package_mappings : gmap string string :=
  list_to_map
    [ ("cv2", "opencv-python");
      ("PIL", "Pillow");
      ("sklearn", "scikit-learn");
      ("yaml", "PyYAML");
      ("dotenv", "python-dotenv") ].

Definition is_version_op (c : ascii) : bool :=
  Ascii.eqb c ">" || Ascii.eqb c "<" || Ascii.eqb c "=" || Ascii.eqb c "!".

(** [.*$] at the start of [s]: [.] matches no newline, and [$] holds at the
    end of the string or before a newline that ends it.  The result is what
    stays unmatched. *)
Fixpoint dot_star_eol (s : string) : option string :=
  match s with
  | EmptyString => Some EmptyString
  | String c r =>
      if Ascii.eqb c newline
      then (if is_empty r then Some s else None)
      else dot_star_eol r
  end.

(** [re.sub(r'[><=!]+.*$', '', s)] *)
Fixpoint strip_version_spec (s : string) : string :=
  match s with
  | EmptyString => EmptyString
  | String c r =>
      if is_version_op c then
        match dot_star_eol r with
        | Some rest => rest
        | None => String c (strip_version_spec r)
        end
      else String c (strip_version_spec r)
  end.

Definition is_name_char (c : ascii) : bool :=
  is_ascii_alnum c || Ascii.eqb c "-" || Ascii.eqb c "_" || Ascii.eqb c ".".

(** [[a-zA-Z0-9\-_.]*$] *)
Fixpoint name_tail_matches (s : string) : bool :=
  match s with
  | EmptyString => true
  | String c r =>
      (is_name_char c && name_tail_matches r)
      || (Ascii.eqb c newline && is_empty r)
  end.

(** [re.match(r'^[a-zA-Z0-9][a-zA-Z0-9\-_.]*$', s)] *)
Definition name_regex_matches (s : string) : bool :=
  match s with
  | EmptyString => false
  | String c r => is_ascii_alnum c && name_tail_matches r
  end.

Definition _clean_package_name (package_name : string) : string :=
  if is_empty package_name then "" else
  let package := strip (strip_by is_quote (strip package_name)) in
  if is_empty package then "" else
  let package := strip (strip_version_spec package) in
  let package :=
    match package_mappings !! package with
    | Some mapped => mapped
    | None => package
    end in
  if name_regex_matches package then package else "".

(** [packages.add(package)] guarded by [if package:] *)
Definition add_package (package : string) (packages : gset string) : gset string :=
  if is_empty package then packages else {[package]} ∪ packages.

Definition _process_dependency_item (item : pyobj) : gset string :=
  match item with
  | PStr s => add_package (_clean_package_name s) ∅
  | PSeq sub_items =>
      fold_left
        (fun packages sub_item =>
           match sub_item with
           | PStr s => add_package (_clean_package_name s) packages
           | _ => packages
           end)
        sub_items ∅
  | POther _ rendered =>
      let item_str := strip rendered in
      if negb (is_empty item_str) && negb (String.eqb item_str "None")
      then add_package (_clean_package_name item_str) ∅
      else ∅
  end.

(** Code-point order on [str], the order [sorted] uses. *)
Definition str_le (s1 s2 : string) : Prop := String.leb s1 s2 = true.
Definition str_lt (s1 s2 : string) : Prop := String.compare s1 s2 = Lt.

#[global] Instance str_le_dec : RelDecision str_le.
Proof. intros s1 s2. unfold str_le. apply _. Defined.

Definition sorted (l : list string) : list string := merge_sort str_le l.

Definition unique_packages_of (dependencies_raw : pyobj) : gset string :=
  match dependencies_raw with
  | PStr s => add_package (_clean_package_name s) ∅
  | PSeq items =>
      fold_left (fun unique_packages item =>
                   unique_packages ∪ _process_dependency_item item)
                items ∅
  | POther _ _ => ∅
  end.

(** The library calls of the parser: [re.findall(pattern, content, flags)],
    which returns the captured groups ([multiline] tells whether
    [re.MULTILINE] is set besides [re.DOTALL]); [ast.literal_eval]; and the
    order in which a [set] of strings is iterated, which varies from one
    interpreter run to the next. *)
Record library := Library {
  re_findall : string → bool → string → list string;
  literal_eval : string → pyresult pyobj;
  set_iter : gset string → list string
}.

(** An iteration visits every member of the set once. *)
Definition enumerates (iter : gset string → list string) : Prop :=
  ∀ s, iter s ≡ₚ elements s.

Definition with_order (iter : gset string → list string) (lib : library) : library :=
  Library (re_findall lib) (literal_eval lib) iter.

Definition _parse_dependencies (lib : library) (dependencies_raw : pyobj) : list string :=
  if negb (truthy dependencies_raw) then [] else
  let unique_packages := unique_packages_of dependencies_raw in
  let clean_packages :=
    filter (fun pkg => negb (is_empty pkg) && negb (is_empty (strip pkg)) = true)
           (set_iter lib unique_packages) in
  sorted clean_packages.

(** *** The manual splitter *)

Record split_state := SplitState {
  dependencies : list string;
  current_item : string;
  paren_count : Z;
  bracket_count : Z;
  in_quotes : bool;
  quote_char : option ascii
}.

Definition append_char (s : string) (c : ascii) : string := s +:+ String c "".

Definition push_char (st : split_state) (c : ascii) : split_state :=
  SplitState (dependencies st) (append_char (current_item st) c)
             (paren_count st) (bracket_count st) (in_quotes st) (quote_char st).

Definition split_step (st : split_state) (char : ascii) : split_state :=
  if is_quote char && negb (in_quotes st) then
    SplitState (dependencies st) (append_char (current_item st) char)
               (paren_count st) (bracket_count st) true (Some char)
  else if bool_decide (quote_char st = Some char) && in_quotes st then
    SplitState (dependencies st) (append_char (current_item st) char)
               (paren_count st) (bracket_count st) false None
  else if negb (in_quotes st) then
    if Ascii.eqb char "(" then
      SplitState (dependencies st) (append_char (current_item st) char)
                 (paren_count st + 1) (bracket_count st) (in_quotes st) (quote_char st)
    else if Ascii.eqb char ")" then
      SplitState (dependencies st) (append_char (current_item st) char)
                 (paren_count st - 1) (bracket_count st) (in_quotes st) (quote_char st)
    else if Ascii.eqb char "[" then
      SplitState (dependencies st) (append_char (current_item st) char)
                 (paren_count st) (bracket_count st + 1) (in_quotes st) (quote_char st)
    else if Ascii.eqb char "]" then
      SplitState (dependencies st) (append_char (current_item st) char)
                 (paren_count st) (bracket_count st - 1) (in_quotes st) (quote_char st)
    else if Ascii.eqb char "," && (paren_count st =? 0) && (bracket_count st =? 0) then
      SplitState
        (if is_empty (strip (current_item st)) then dependencies st
         else dependencies st ++ [strip (current_item st)])
        "" (paren_count st) (bracket_count st) (in_quotes st) (quote_char st)
    else push_char st char
  else push_char st char.

Definition is_delimiter (c : ascii) : bool :=
  Ascii.eqb c "[" || Ascii.eqb c "]" || Ascii.eqb c "(" || Ascii.eqb c ")".

Definition _manual_parse_dependencies (deps_str : string) : list string :=
  let deps_str := strip (strip_by is_delimiter deps_str) in
  if is_empty deps_str then [] else
  let st := fold_left split_step (list_ascii_of_string deps_str)
                      (SplitState [] "" 0 0 false None) in
  if is_empty (strip (current_item st)) then dependencies st
  else dependencies st ++ [strip (current_item st)].

(** *** Reading the file *)

Definition patterns : list string :=
  [ "dependencies\s*=\s*(\[.*?\])";
    "dependencies\s*:\s*List.*?=\s*(\[.*?\])";
    "dependencies\s*=\s*(\(.*?\))" ].

Definition class_pattern : string :=
  "class\s+\w+.*?dependencies\s*=\s*(\[.*?\])".

(** The body shared by both methods: evaluate the first match, and fall
    back on the manual splitter when [ast.literal_eval] raises
    [ValueError] or [SyntaxError]. *)
Definition eval_first_match (lib : library) (first_match : string) : pyresult pyobj :=
  let deps_str := strip first_match in
  match literal_eval lib deps_str with
  | Ok dependencies => Ok dependencies
  | Raise e =>
      match exn_cls e with
      | ValueError | JSONDecodeError | SyntaxError =>
          Ok (PSeq (map PStr (_manual_parse_dependencies deps_str)))
      | _ => Raise e
      end
  end.

Fixpoint find_in_patterns (lib : library) (ps : list string) (content : string)
  : option (pyresult pyobj) :=
  match ps with
  | [] => None
  | pattern :: rest =>
      match re_findall lib pattern true content with
      | first_match :: _ => Some (eval_first_match lib first_match)
      | [] => find_in_patterns lib rest content
      end
  end.

Definition _find_dependencies_variable (lib : library) (content : string)
  : pyresult (option pyobj) :=
  match find_in_patterns lib patterns content with
  | Some r => dependencies ← r; Ok (Some dependencies)
  | None =>
      match re_findall lib class_pattern false content with
      | first_match :: _ =>
          dependencies ← eval_first_match lib first_match; Ok (Some dependencies)
      | [] => Ok None
      end
  end.

(** What the parser sees of a path: nothing there, or a file whose reading
    either fails or gives its text. *)
Definition filesystem := string → option (pyresult string).

(** The [try] block of [extract_dependencies_from_file]. *)
Definition extract_dependencies_body (lib : library) (fs : filesystem)
    (file_path : string) : pyresult (list string) :=
  match fs file_path with
  | None => Ok []
  | Some read =>
      content ← read;
      dependencies_raw ← _find_dependencies_variable lib content;
      match dependencies_raw with
      | None => Ok []
      | Some dependencies_raw => Ok (_parse_dependencies lib dependencies_raw)
      end
  end.

(** [except Exception: return []] *)
Definition extract_dependencies_from_file (lib : library) (fs : filesystem)
    (file_path : string) : list string :=
  match extract_dependencies_body lib fs file_path with
  | Ok clean_dependencies => clean_dependencies
  | Raise _ => []
  end.

(** *** The dependency set, in the words of the specification *)

(** Invariant I4: a name matches [^[A-Za-z0-9][A-Za-z0-9._-]*$] as a
    whole. *)
Definition matches_I4 (s : string) : bool :=
  match s with
  | EmptyString => false
  | String c r => is_ascii_alnum c && all_chars is_name_char r
  end.

(** The alias table; unknown names pass through. *)
Definition alias (package : string) : string :=
  if String.eqb package "cv2" then "opencv-python"
  else if String.eqb package "PIL" then "Pillow"
  else if String.eqb package "sklearn" then "scikit-learn"
  else if String.eqb package "yaml" then "PyYAML"
  else if String.eqb package "dotenv" then "python-dotenv"
  else package.

(** Quote and whitespace stripping, then version-specifier removal. *)
Definition normalise (candidate : string) : string :=
  strip (strip_version_spec (strip (strip_by is_quote (strip candidate)))).

(** What every cleaned name satisfies: it matches I4 and is no key of the
    alias table. *)
Definition clean_name (p : string) : Prop :=
  matches_I4 p = true ∧ package_mappings !! p = None.

(** The filter of the comprehension that builds [clean_packages]. *)
Definition keep (pkg : string) : Prop :=
  negb (is_empty pkg) && negb (is_empty (strip pkg)) = true.

(** *** The declaration that is evaluated *)

Fixpoint first_match_in (lib : library) (ps : list string) (content : string)
  : option string :=
  match ps with
  | [] => None
  | pattern :: rest =>
      match re_findall lib pattern true content with
      | first_match :: _ => Some first_match
      | [] => first_match_in lib rest content
      end
  end.

(** The text that [_find_dependencies_variable] evaluates: the first match
    of the first of the three patterns that matches, or else the first
    match of the class pattern. *)
Definition first_declaration (lib : library) (content : string) : option string :=
  match first_match_in lib patterns content with
  | Some first_match => Some first_match
  | None => head (re_findall lib class_pattern false content)
  end.

(** Whether an exception of [ast.literal_eval] is one of those after which
    the manual splitter takes over. *)
Definition falls_back (e : exn) : bool :=
  match exn_cls e with
  | ValueError | JSONDecodeError | SyntaxError => true
  | _ => false
  end.

(** *** Items of the manual splitter *)

(** What every item of the manual splitter satisfies: it is non-empty and
    has no leading or trailing whitespace. *)
Definition trimmed (item : string) : Prop :=
  is_empty item = false ∧ strip item = item.

(** A character of a bare name: no quote, bracket, parenthesis, comma or
    whitespace. *)
Definition is_bare_char (c : ascii) : bool :=
  negb (is_quote c || is_delimiter c || Ascii.eqb c "," || is_space c).

Definition bare_name (name : string) : Prop :=
  is_empty name = false ∧ all_chars is_bare_char name = true.

End DependencyParser.

(** ** schema_validator.py *)

Module SchemaValidator.
Import PyStr Py.

(** The dictionary a field validation fills in. *)
Record field_result := FieldResult {
  valid : bool;
  value : pyval;
  errors : list string;
  warnings : list string
}.

(** The dictionary [validate_input] returns. *)
Record validation_result := ValidationResult {
  v_valid : bool;
  v_data : pyval;
  v_errors : list string;
  v_warnings : list string
}.

Definition add_error (msg : string) (r : field_result) : field_result :=
  FieldResult false (value r) (errors r ++ [msg]) (warnings r).

Definition set_value (v : pyval) (r : field_result) : field_result :=
  FieldResult (valid r) v (errors r) (warnings r).

(** A block that mutates [result] and may raise: what it leaves in
    [result], and the exception if any. *)
Definition check := field_result → field_result * option exn.

Definition and_then (c1 c2 : check) : check := fun r =>
  match c1 r with
  | (r', None) => c2 r'
  | out => out
  end.

(** [if key in field_schema: ...], with the value under the key. *)
Definition when_key (field_schema : dict) (key : string) (body : pyval → check) : check :=
  fun r =>
    match dict_get key field_schema with
    | Some bound => body bound r
    | None => (r, None)
    end.

(** [if cond: result["errors"].append(msg); result["valid"] = False] *)
Definition fail_if (cond : pyresult bool) (msg : string) : check := fun r =>
  match cond with
  | Ok true => (add_error msg r, None)
  | Ok false => (r, None)
  | Raise e => (r, Some e)
  end.

Definition skip : check := fun r => (r, None).

Section WithRuntime.
Context (rt : runtime).

Definition cannot_convert {A} (value : pyval) (target : string) : pyresult A :=
  raise ValueError ("Cannot convert '" +:+ py_str rt value +:+ "' to " +:+ target).

Definition _convert_to_string (value : pyval) : pyresult pyval :=
  match value with
  | VStr _ => Ok value
  | _ => if printable value then Ok (VStr (py_str rt value)) else unprintable
  end.

Definition _convert_to_integer (value : pyval) : pyresult pyval :=
  match value with
  | VInt _ | VBool _ => Ok value
  | VFloat x => n ← float_to_int x; Ok (VInt n)
  | VStr s =>
      if isdigit (strip s) then n ← int_of_str (strip s); Ok (VInt n)
      else if isdigit (lstrip_by (Ascii.eqb "-") (strip s))
      then n ← int_of_str (strip s); Ok (VInt n)
      else cannot_convert value "integer"
  | _ => cannot_convert value "integer"
  end.

Definition _convert_to_number (value : pyval) : pyresult pyval :=
  match value with
  | VInt _ | VBool _ | VFloat _ => Ok value
  | VStr s =>
      let attempt :=
        if negb (has_char "." s) && negb (has_char "e" (lower s))
        then n ← int_of_str s; Ok (VInt n)
        else match float_of_str rt s with
             | Some x => Ok (VFloat x)
             | None => raise ValueError ("could not convert string to float: " +:+ repr s)
             end in
      match attempt with
      | Ok v => Ok v
      | Raise e =>
          if is_ValueError (exn_cls e) then cannot_convert value "number" else Raise e
      end
  | _ => cannot_convert value "number"
  end.

Definition one_of (l : list string) (s : string) : bool :=
  existsb (String.eqb s) l.

Definition _convert_to_boolean (value : pyval) : pyresult pyval :=
  match value with
  | VBool _ => Ok value
  | VStr s =>
      let lower_val := strip (lower s) in
      if one_of ["true"; "1"; "yes"; "on"] lower_val then Ok (VBool true)
      else if one_of ["false"; "0"; "no"; "off"] lower_val then Ok (VBool false)
      else cannot_convert value "boolean"
  | VInt n => Ok (VBool (negb (n =? 0)))
  | _ => cannot_convert value "boolean"
  end.

Definition split_by_comma (s : string) : pyval :=
  VList (map VStr (filter (fun item => negb (is_empty item) = true)
                          (map strip (split_on "," s)))).

Definition _convert_to_array (value : pyval) : pyresult pyval :=
  match value with
  | VList _ => Ok value
  | VStr s =>
      match json_loads rt s with
      | Ok (VList parsed) => Ok (VList parsed)
      | Ok _ => Ok (split_by_comma s)
      | Raise e =>
          match exn_cls e with
          | JSONDecodeError => Ok (split_by_comma s)
          | _ => Raise e
          end
      end
  | _ => cannot_convert value "array"
  end.

Definition _convert_to_object (value : pyval) : pyresult pyval :=
  match value with
  | VDict _ => Ok value
  | VStr s =>
      match json_loads rt s with
      | Ok (VDict parsed) => Ok (VDict parsed)
      | Ok _ => cannot_convert value "object"
      | Raise e =>
          match exn_cls e with
          | JSONDecodeError => cannot_convert value "object"
          | _ => Raise e
          end
      end
  | _ => cannot_convert value "object"
  end.

(** [self.type_converters.get(target_type, self._convert_to_string)] *)
Definition type_converters (target_type : string) : pyval → pyresult pyval :=
  if String.eqb target_type "string" then _convert_to_string
  else if String.eqb target_type "integer" then _convert_to_integer
  else if String.eqb target_type "number" then _convert_to_number
  else if String.eqb target_type "boolean" then _convert_to_boolean
  else if String.eqb target_type "array" then _convert_to_array
  else if String.eqb target_type "object" then _convert_to_object
  else _convert_to_string.

Definition _convert_type (value target_type : pyval) : pyresult pyval :=
  match value with
  | VNone => Ok VNone
  | _ =>
      match target_type with
      | VStr name => type_converters name value
      | VList _ | VDict _ => unhashable target_type
      | _ => _convert_to_string value
      end
  end.

Definition is_str (v : pyval) : bool := match v with VStr _ => true | _ => false end.
Definition is_list (v : pyval) : bool := match v with VList _ => true | _ => false end.
Definition is_dict (v : pyval) : bool := match v with VDict _ => true | _ => false end.

Definition pattern_matches (pattern value : pyval) : pyresult bool :=
  match pattern, value with
  | VStr p, VStr s => re_match rt p s
  | _, _ => raise TypeError "first argument must be string or compiled pattern"
  end.

Definition length_of (v : pyval) : pyval :=
  match v with
  | VStr s => VInt (Z.of_nat (String.length s))
  | VList items => VInt (Z.of_nat (length items))
  | _ => VInt 0
  end.

Definition not_in (container x : pyval) : pyresult bool :=
  b ← py_contains container x; Ok (negb b).

Definition no_match (pattern value : pyval) : pyresult bool :=
  b ← pattern_matches pattern value; Ok (negb b).

Definition _validate_constraints (field_name : string) (value : pyval)
    (field_schema : dict) : check :=
  let field := "Field '" +:+ field_name +:+ "' " in
  match value with
  | VNone => skip
  | _ =>
      and_then
        (when_key field_schema "enum" (fun allowed_values =>
           fail_if (not_in allowed_values value)
             (field +:+ "must be one of: " +:+ py_str rt allowed_values
              +:+ ", got: " +:+ py_str rt value)))
      (and_then
        (if is_str value then
           when_key field_schema "pattern" (fun pattern =>
             fail_if (no_match pattern value)
               (field +:+ "must match pattern: " +:+ py_str rt pattern))
         else skip)
      (and_then
        (if is_number value then
           and_then
             (when_key field_schema "minimum" (fun minimum =>
                fail_if (py_lt value minimum)
                  (field +:+ "must be >= " +:+ py_str rt minimum)))
             (when_key field_schema "maximum" (fun maximum =>
                fail_if (py_gt value maximum)
                  (field +:+ "must be <= " +:+ py_str rt maximum)))
         else skip)
      (and_then
        (if is_str value then
           and_then
             (when_key field_schema "minLength" (fun minLength =>
                fail_if (py_lt (length_of value) minLength)
                  (field +:+ "must be at least " +:+ py_str rt minLength +:+ " characters")))
             (when_key field_schema "maxLength" (fun maxLength =>
                fail_if (py_gt (length_of value) maxLength)
                  (field +:+ "must be at most " +:+ py_str rt maxLength +:+ " characters")))
         else skip)
        (if is_list value then
           and_then
             (when_key field_schema "minItems" (fun minItems =>
                fail_if (py_lt (length_of value) minItems)
                  (field +:+ "must have at least " +:+ py_str rt minItems +:+ " items")))
             (when_key field_schema "maxItems" (fun maxItems =>
                fail_if (py_gt (length_of value) maxItems)
                  (field +:+ "must have at most " +:+ py_str rt maxItems +:+ " items")))
         else skip))))
  end.

(** *** Union types *)

(** The state of the loop over [field_type]. *)
Record union_state := UnionState {
  u_result : field_result;
  conversion_successful : bool;
  conversion_errors : list string
}.

Definition catchable (e : exn) : bool :=
  is_ValueError (exn_cls e) || is_TypeError (exn_cls e).

(** One iteration for [union_type]: [inl] is the state after a [break],
    a [continue] or the end of the body, [inr] an exception that leaves the
    loop, with [result] as it stands. *)
Definition union_step (field_name : string) (value : pyval) (field_schema : dict)
    (st : union_state) (union_type : pyval) : union_state * bool + field_result * exn :=
  let result := u_result st in
  let caught (result : field_result) (e : exn) :=
    if catchable e then
      inl (UnionState result false
             (conversion_errors st ++
              ["Cannot convert to " +:+ py_str rt union_type +:+ ": " +:+ exn_msg e]),
           false)
    else inr (result, e) in
  let converted :=
    match value with
    | VNone => Ok result
    | _ => converted_value ← _convert_type value union_type;
           Ok (set_value converted_value result)
    end in
  match converted with
  | Raise e => caught result e
  | Ok result =>
      let temp_schema := dict_set "type" union_type field_schema in
      match _validate_constraints field_name (SchemaValidator.value result) temp_schema result with
      | (result, Some e) => caught result e
      | (result, None) =>
          if valid result then
            inl (UnionState
                   (FieldResult (valid result) (SchemaValidator.value result) (errors result)
                      (warnings result ++
                       ["Field '" +:+ field_name +:+ "' validated as " +:+ py_str rt union_type]))
                   true (conversion_errors st),
                 true)
          else
            inl (UnionState
                   (FieldResult true (SchemaValidator.value result) [] (warnings result))
                   false
                   (conversion_errors st ++
                    ["Type " +:+ py_str rt union_type +:+ " failed constraints: "
                     +:+ str_of_list rt (errors result)]),
                 false)
      end
  end.

(** The loop: the second component of a step tells whether it ended in
    [break]. *)
Fixpoint union_loop (field_name : string) (value : pyval) (field_schema : dict)
    (field_type : list pyval) (st : union_state) : union_state + field_result * exn :=
  match field_type with
  | [] => inl st
  | union_type :: rest =>
      match union_step field_name value field_schema st union_type with
      | inl (st', true) => inl st'
      | inl (st', false) => union_loop field_name value field_schema rest st'
      | inr abort => inr abort
      end
  end.

(** [except Exception as e] of [_validate_field_recursive] *)
Definition field_exception (field_path : string) (result : field_result) (e : exn)
  : field_result :=
  add_error ("Field '" +:+ field_path +:+ "': " +:+ exn_msg e) result.

Definition validate_union (field_name : string) (value : pyval) (field_schema : dict)
    (field_type : list pyval) (field_path : string) (result : field_result) : field_result :=
  match union_loop field_name value field_schema field_type (UnionState result false []) with
  | inl st =>
      if conversion_successful st then u_result st
      else
        add_error
          ("Field '" +:+ field_name +:+ "': Value '" +:+ py_str rt value
           +:+ "' doesn't match any allowed types " +:+ py_repr rt (VList field_type)
           +:+ ". Errors: " +:+ str_of_list rt (conversion_errors st))
          (u_result st)
  | inr (result, e) => field_exception field_path result e
  end.

(** *** Objects *)

(** The state of [_validate_object_recursive]: [validation_result], and
    the local [field_path], unbound until a declared field is met. *)
Record object_state := ObjectState {
  o_valid : bool;
  o_data : dict;
  o_errors : list string;
  o_warnings : list string;
  field_path_var : option string
}.

Definition qualify (path name : string) : string :=
  if String.eqb path "root" then name else path +:+ "." +:+ name.

(** [for field in required_fields: if field not in data: ...] *)
Fixpoint check_required (required_fields : list pyval) (data : pyval) (path : string)
    (st : object_state) : pyresult object_state :=
  match required_fields with
  | [] => Ok st
  | field :: rest =>
      present ← py_contains data field;
      check_required rest data path
        (if (present : bool) then st
         else ObjectState false (o_data st)
                (o_errors st ++
                 ["Missing required field: '" +:+ path +:+ "." +:+ py_str rt field
                  +:+ "' if path != 'root' else field"])
                (o_warnings st) (field_path_var st))
  end.

Section Object.
(** The field validation, which the object validation calls back. *)
Context (validate_field : string → pyval → pyval → string → field_result).

(** [for field_name, field_value in data.items(): ...] *)
Fixpoint validate_fields (entries : dict) (properties : pyval) (path : string)
    (st : object_state) : pyresult object_state :=
  match entries with
  | [] => Ok st
  | (field_name, field_value) :: rest =>
      known ← py_contains properties (VStr field_name);
      if negb known then
        validate_fields rest properties path
          (ObjectState (o_valid st) (dict_set field_name field_value (o_data st))
             (o_errors st)
             (o_warnings st ++
              ["Unknown field '" +:+ path +:+ "." +:+ field_name
               +:+ "' - will be passed through"])
             (field_path_var st))
      else
        field_schema ← py_getitem (py_repr rt) properties (VStr field_name);
        let field_path := qualify path field_name in
        let field_result := validate_field field_name field_value field_schema field_path in
        validate_fields rest properties path
          (if valid field_result then
             ObjectState (o_valid st)
               (dict_set field_name (value field_result) (o_data st))
               (o_errors st) (o_warnings st ++ warnings field_result) (Some field_path)
           else
             ObjectState false (o_data st) (o_errors st ++ errors field_result)
               (o_warnings st) (Some field_path))
  end.

(** [for field_name, field_schema in properties.items(): ...] *)
Fixpoint apply_defaults (declared : dict) (st : object_state) : pyresult object_state :=
  match declared with
  | [] => Ok st
  | (field_name, field_schema) :: rest =>
      if dict_has field_name (o_data st) then apply_defaults rest st
      else
        has_default ← py_contains field_schema (VStr "default");
        if negb has_default then apply_defaults rest st
        else
          default_value ← py_getitem (py_repr rt) field_schema (VStr "default");
          match field_path_var st with
          | None =>
              raise UnboundLocalError
                "cannot access local variable 'field_path' where it is not associated with a value"
          | Some field_path =>
              apply_defaults rest
                (ObjectState (o_valid st)
                   (dict_set field_name default_value (o_data st))
                   (o_errors st)
                   (o_warnings st ++
                    ["Applied default value for '" +:+ field_path +:+ "': "
                     +:+ py_str rt default_value])
                   (field_path_var st))
          end
  end.

Definition validate_object (data schema : pyval) (path : string)
  : pyresult validation_result :=
  properties ← py_get schema "properties" (VDict []);
  required_fields ← py_get schema "required" (VList []);
  required_list ← py_iter required_fields;
  st ← check_required required_list data path (ObjectState true [] [] [] None);
  match data with
  | VDict entries =>
      st ← validate_fields entries properties path st;
      declared ← py_items properties;
      st ← apply_defaults declared st;
      Ok (ValidationResult (o_valid st) (VDict (o_data st)) (o_errors st) (o_warnings st))
  | _ => no_attribute data "items"
  end.

(** [for i, item in enumerate(value): ...] of the array branch: [inl] is
    [result] and [validated_items] after the loop, [inr] an exception with
    [result] as it stands. *)
Fixpoint validate_items (items : list pyval) (i : nat) (items_schema : pyval)
    (field_path : string) (result : field_result) (validated_items : list pyval)
  : field_result * list pyval + field_result * exn :=
  match items with
  | [] => inl (result, validated_items)
  | item :: rest =>
      match validate_object item items_schema
              (field_path +:+ "[" +:+ pretty i +:+ "]") with
      | Raise e => inr (result, e)
      | Ok item_result =>
          if v_valid item_result then
            validate_items rest (S i) items_schema field_path
              (FieldResult (valid result) (value result) (errors result)
                 (warnings result ++ v_warnings item_result))
              (validated_items ++ [v_data item_result])
          else
            validate_items rest (S i) items_schema field_path
              (FieldResult false (value result) (errors result ++ v_errors item_result)
                 (warnings result))
              validated_items
      end
  end.

End Object.

Definition no_attribute_exn (v : pyval) (attr : string) : exn :=
  Exn AttributeError
      ("'" +:+ type_name v +:+ "' object has no attribute '" +:+ attr +:+ "'").

(** The last branch of [_validate_field_recursive]: convert, then check
    the constraints. *)
Definition validate_simple (field_name : string) (value field_type : pyval)
    (field_schema : dict) (field_path : string) (result : field_result) : field_result :=
  let converted :=
    match value with
    | VNone => Ok result
    | _ => converted_value ← _convert_type value field_type;
           Ok (set_value converted_value result)
    end in
  match converted with
  | Raise e => field_exception field_path result e
  | Ok result =>
      match _validate_constraints field_name (SchemaValidator.value result) field_schema result with
      | (result, None) => result
      | (result, Some e) => field_exception field_path result e
      end
  end.

Fixpoint _validate_field_recursive (field_name : string) (value field_schema : pyval)
    (field_path : string) {struct value} : field_result :=
  let result := FieldResult true value [] [] in
  match field_schema with
  | VDict schema_entries =>
      let field_type :=
        match dict_get "type" schema_entries with
        | Some t => t
        | None => VStr "string"
        end in
      match field_type with
      | VList union =>
          validate_union field_name value schema_entries union field_path result
      | _ =>
          match value with
          | VDict _ =>
              if py_eq field_type (VStr "object") then
                match validate_object _validate_field_recursive value field_schema field_path with
                | Ok nested_result =>
                    FieldResult (v_valid nested_result) (v_data nested_result)
                                (v_errors nested_result) (v_warnings nested_result)
                | Raise e => field_exception field_path result e
                end
              else validate_simple field_name value field_type schema_entries field_path result
          | VList items =>
              if py_eq field_type (VStr "array") then
                let items_schema :=
                  match dict_get "items" schema_entries with
                  | Some s => s
                  | None => VDict []
                  end in
                match py_get items_schema "type" VNone with
                | Raise e => field_exception field_path result e
                | Ok items_type =>
                    if py_eq items_type (VStr "object") then
                      match validate_items _validate_field_recursive items 0 items_schema
                              field_path result [] with
                      | inl (result, validated_items) =>
                          if valid result then set_value (VList validated_items) result
                          else result
                      | inr (result, e) => field_exception field_path result e
                      end
                    else result
                end
              else validate_simple field_name value field_type schema_entries field_path result
          | _ => validate_simple field_name value field_type schema_entries field_path result
          end
      end
  | _ => field_exception field_path result (no_attribute_exn field_schema "get")
  end.

Definition _validate_object_recursive : pyval → pyval → string → pyresult validation_result :=
  validate_object _validate_field_recursive.

(** *** Wrapper schemas *)

(** [not wrapper_value.get("type") and any(isinstance(v, dict) and
    v.get("type") for v in wrapper_value.values())], for a [dict]. *)
Definition typed (v : pyval) : bool :=
  match v with
  | VDict entries =>
      match dict_get "type" entries with
      | Some t => truthy t
      | None => false
      end
  | _ => false
  end.

Definition looks_like_wrapper (wrapper_value : pyval) : bool :=
  match wrapper_value with
  | VDict entries => negb (typed wrapper_value) && existsb (fun kv => typed (snd kv)) entries
  | _ => false
  end.

Definition _normalize_schema (input_schema : pyval) : pyresult pyval :=
  properties ← py_get input_schema "properties" (VDict []);
  match properties with
  | VDict [(wrapper_key, wrapper_value)] =>
      if looks_like_wrapper wrapper_value then
        required ← py_get input_schema "required" (VList []);
        Ok (VDict [ ("type", VStr "object");
                    ("properties", wrapper_value);
                    ("required", required);
                    ("_wrapper_key", VStr wrapper_key) ])
      else Ok input_schema
  | VDict _ => Ok input_schema
  | _ =>
      n ← py_len properties;
      if (n =? 1)%nat then no_attribute properties "keys" else Ok input_schema
  end.

(** [{wrapper_key: data}].  The dictionaries of the model are keyed by
    strings: a key that is no string, which only a schema carrying its own
    ["_wrapper_key"] entry can give, is kept by its text. *)
Definition wrap_under (wrapper_key data : pyval) : pyresult pyval :=
  match wrapper_key with
  | VStr k => Ok (VDict [(k, data)])
  | VList _ | VDict _ => unhashable wrapper_key
  | _ => Ok (VDict [(py_str rt wrapper_key, data)])
  end.

(** The [try] block of [validate_input]. *)
Definition validate_input_body (user_input input_schema : pyval)
  : pyresult validation_result :=
  normalized_schema ← _normalize_schema input_schema;
  wrapper_key ← py_get normalized_schema "_wrapper_key" VNone;
  validation_data ←
    (if truthy wrapper_key then
       present ← py_contains user_input wrapper_key;
       if (present : bool) then py_getitem (py_repr rt) user_input wrapper_key
       else Ok user_input
     else Ok user_input);
  properties ← py_get normalized_schema "properties" VNone;
  if negb (truthy properties) then
    Ok (ValidationResult true user_input [] ["No properties to validate"])
  else
    validation_result ← _validate_object_recursive validation_data normalized_schema "root";
    if truthy wrapper_key && v_valid validation_result then
      data ← wrap_under wrapper_key (v_data validation_result);
      Ok (ValidationResult (v_valid validation_result) data
            (v_errors validation_result) (v_warnings validation_result))
    else Ok validation_result.

Definition validate_input (user_input input_schema : pyval) : validation_result :=
  match validate_input_body user_input input_schema with
  | Ok validation_result => validation_result
  | Raise e => ValidationResult false (VDict []) ["Validation error: " +:+ exn_msg e] []
  end.

End WithRuntime.

(** *** The wrapper round trip, in the words of the specification *)

(** [wrap(x)]: the document under the wrapper key. *)
Definition wrap (k : string) (x : pyval) : pyval := VDict [(k, x)].

(** The schema a wrapper stands for: the wrapper's children as properties,
    with the outer [required] list. *)
Definition inner_schema (required wrapper_value : pyval) : pyval :=
  VDict [ ("type", VStr "object"); ("properties", wrapper_value); ("required", required) ].

(** [wrap] on a validation result: on success the data is put back under
    the key. *)
Definition rewrap (k : string) (r : validation_result) : validation_result :=
  if v_valid r
  then ValidationResult (v_valid r) (wrap k (v_data r)) (v_errors r) (v_warnings r)
  else r.

(** A check that, when it changes [result], marks it invalid and leaves
    the value and the warnings alone. *)
Definition gentle (c : check) : Prop :=
  ∀ r, (c r).1 = r
       ∨ (valid (c r).1 = false ∧ value (c r).1 = value r ∧ warnings (c r).1 = warnings r).

(** *** The union rule, in the words of the specification *)

Definition passes_constraints (rt : runtime) (field_name : string) (v : pyval)
    (field_schema : dict) : bool :=
  match _validate_constraints rt field_name v field_schema (FieldResult true v [] []) with
  | (r, None) => valid r
  | (_, Some _) => false
  end.

(** The first candidate type, in declaration order, whose coercion
    succeeds and whose constraints all pass, with the coerced value. *)
Fixpoint first_match (rt : runtime) (field_name : string) (value : pyval)
    (field_schema : dict) (union : list pyval) : option (pyval * pyval) :=
  match union with
  | [] => None
  | t :: rest =>
      match _convert_type rt value t with
      | Ok v =>
          if passes_constraints rt field_name v (dict_set "type" t field_schema)
          then Some (t, v)
          else first_match rt field_name value field_schema rest
      | Raise _ => first_match rt field_name value field_schema rest
      end
  end.

(** The aggregate error of a union none of whose branches matched. *)
Definition aggregate_error (rt : runtime) (field_name : string) (value : pyval)
    (union : list pyval) (failures : list string) : string :=
  "Field '" +:+ field_name +:+ "': Value '" +:+ py_str rt value
  +:+ "' doesn't match any allowed types " +:+ py_repr rt (VList union)
  +:+ ". Errors: " +:+ str_of_list rt failures.

(** *** What the data of a validation holds *)

(** The document that is validated: the value under the wrapper key when
    the schema has one and the input holds it, the input otherwise. *)
Definition validation_data_of (rt : runtime) (user_input wrapper_key : pyval)
  : pyresult pyval :=
  if truthy wrapper_key then
    present ← py_contains user_input wrapper_key;
    if (present : bool) then py_getitem (py_repr rt) user_input wrapper_key
    else Ok user_input
  else Ok user_input.

(** The default that a field schema declares. *)
Definition declared_default (field_schema : pyval) : option pyval :=
  match field_schema with
  | VDict entries => dict_get "default" entries
  | _ => None
  end.

(** What the data of an object validation holds under a key: the raw value
    of a key that the schema does not declare; the converted value of a
    declared key whose field validated; and for any other declared key,
    one missing from the document or one whose field failed, the declared
    default if there is one. *)
Definition expected_entry (rt : runtime) (doc declared : dict) (path k : string)
  : option pyval :=
  match dict_get k doc, dict_get k declared with
  | Some v, None => Some v
  | Some v, Some field_schema =>
      let field_result := _validate_field_recursive rt k v field_schema (qualify path k) in
      if valid field_result then Some (value field_result)
      else declared_default field_schema
  | None, Some field_schema => declared_default field_schema
  | None, None => None
  end.

(** *** The single-field validation *)

(** [_validate_field]: the field validation without nesting, which
    reports a failure under the field's name. *)
Definition _validate_field (rt : runtime) (field_name : string) (value field_schema : pyval)
  : field_result :=
  let result := FieldResult true value [] [] in
  match field_schema with
  | VDict schema_entries =>
      let field_type :=
        match dict_get "type" schema_entries with
        | Some t => t
        | None => VStr "string"
        end in
      validate_simple rt field_name value field_type schema_entries field_name result
  | _ => field_exception field_name result (no_attribute_exn field_schema "get")
  end.

(** *** The type of a converted value *)

(** [isinstance] of a value for the Python type a schema type stands for;
    an unknown schema type stands for [str], as ["string"] does. *)
Definition instance_of (target_type : string) (v : pyval) : bool :=
  if String.eqb target_type "integer" then
    match v with VInt _ | VBool _ => true | _ => false end
  else if String.eqb target_type "number" then is_number v
  else if String.eqb target_type "boolean" then
    match v with VBool _ => true | _ => false end
  else if String.eqb target_type "array" then is_list v
  else if String.eqb target_type "object" then is_dict v
  else is_str v.

(** The declared type of a field: [field_schema.get("type", "string")]. *)
Definition declared_type (schema_entries : dict) : pyval :=
  match dict_get "type" schema_entries with
  | Some t => t
  | None => VStr "string"
  end.

(** *** Checks that only add errors *)

(** A check that leaves the value and the warnings alone, appends its
    errors to the ones already there, and marks the result invalid exactly
    when it appends one. *)
Definition appends_errors (c : check) : Prop :=
  ∀ r, ∃ more,
    (c r).1 = FieldResult (valid r && bool_decide (more = [])) (value r)
                (errors r ++ more) (warnings r).

(** *** Warnings *)

(** The warning for a key of the document that the schema does not
    declare. *)
Definition unknown_field_warning (path field_name : string) : string :=
  "Unknown field '" +:+ path +:+ "." +:+ field_name +:+ "' - will be passed through".

(** *** Results that agree with their errors *)

(** A result is valid exactly when it records no error. *)
Definition consistent (r : field_result) : Prop :=
  valid r = true ↔ errors r = [].

Definition consistent_state (st : object_state) : Prop :=
  o_valid st = true ↔ o_errors st = [].

Definition consistent_result (r : validation_result) : Prop :=
  v_valid r = true ↔ v_errors r = [].

End SchemaValidator.

(** ** github_downloader.py *)

Module GitHubDownloader.
Import PyStr Py.

(** The repository, the local disk and [pathlib], as
    [download_tool_from_github] meets them. *)
Record repository := Repository {
  (** [_connect_to_github()] *)
  connect : option exn;
  (** [str(Path(target_dir) / name)] *)
  join_path : string → string → string;
  (** [target_path.mkdir(parents=True, exist_ok=True)] *)
  make_target_dir : string → option exn;
  (** [repo.get_contents(path).decoded_content] *)
  get_contents : string → pyresult string;
  (** writing the file, [stat] and the preview read: the file size *)
  save_tool : string → string → pyresult Z;
  (** the names of [repo.get_contents(folder)] *)
  list_folder : string → pyresult (list string);
  (** [time.time()] *)
  download_clock : float
}.

(** What the function writes to the log about similar tools. *)
Inductive log_entry :=
| DidYouMean
| Suggestion (similar_tool : string).

Definition tools_folder : string := "Tools".

Definition error_result (error_msg : string) : dict :=
  [ ("status", VStr "error"); ("message", VStr error_msg) ].

Definition available_tools (all_files : list string) : list string :=
  map (replace ".py" "")
      (filter (fun name => endswith ".py" name = true) all_files).

Definition similar_tools (tool_name : string) (available : list string) : list string :=
  filter (fun t => contains (lower tool_name) (lower t)
                   || contains (lower t) (lower tool_name) = true)
         available.

(** The block under [if "404" in str(e)]: the log entries of the
    suggestions; a failure of the listing is passed over. *)
Definition suggest (repo : repository) (tool_name : string) : list log_entry :=
  match list_folder repo tools_folder with
  | Ok all_files =>
      let similar := similar_tools tool_name (available_tools all_files) in
      match similar with
      | [] => []
      | _ => DidYouMean :: map Suggestion (take 5 similar)
      end
  | Raise _ => []
  end.

Definition download_tool_from_github (repo : repository) (tool_name target_dir : string)
  : dict * list log_entry :=
  let connection_error (e : exn) :=
    (error_result ("Error connecting to GitHub: " +:+ exn_msg e), []) in
  match connect repo with
  | Some e => connection_error e
  | None =>
      match make_target_dir repo target_dir with
      | Some e => connection_error e
      | None =>
          let tool_file_path := join_path repo target_dir (tool_name +:+ ".py") in
          let fetched :=
            tool_content ← get_contents repo (tools_folder +:+ "/" +:+ tool_name +:+ ".py");
            save_tool repo tool_file_path tool_content in
          match fetched with
          | Ok file_size =>
              ([ ("status", VStr "success");
                 ("tool_name", VStr tool_name);
                 ("file_path", VStr tool_file_path);
                 ("file_size", VInt file_size);
                 ("filename", VStr (tool_name +:+ ".py"));
                 ("download_time", VFloat (download_clock repo)) ], [])
          | Raise e =>
              if contains "404" (exn_msg e) then
                (error_result ("Tool '" +:+ tool_name +:+ ".py' not found in repository!"),
                 suggest repo tool_name)
              else
                (error_result ("Error downloading tool: " +:+ exn_msg e), [])
          end
      end
  end.

(** The suggestions the specification asks the not-found result to carry:
    the available names in a substring relation with the requested name,
    case folded, at most five. *)
Definition suggestions (tool_name : string) (all_files : list string) : list string :=
  take 5 (similar_tools tool_name (available_tools all_files)).

(** Whether a result mentions a name, in a key or in a text value. *)
Definition mentions (name : string) (result : dict) : bool :=
  existsb (fun kv => contains name (fst kv)
                     || match snd kv with
                        | VStr s => contains name s
                        | VList items => existsb (py_eq (VStr name)) items
                        | _ => false
                        end)
          result.

(** *** Paths

    [pathlib] on a POSIX system, for the repositories of the samples: a path
    is its root (nothing, one slash, or two when it starts with exactly
    two) and its parts, which are the components between slashes other than
    the empty one and the dot; joining an absolute name drops the
    directory. *)
Definition posix_parts (s : string) : list string :=
  filter (fun part => negb (is_empty part) && negb (String.eqb part ".") = true)
         (split_on "/" s).

Definition posix_root (s : string) : string :=
  match (String.length s - String.length (lstrip_by (Ascii.eqb "/") s))%nat with
  | 0%nat => ""
  | 2%nat => "//"
  | _ => "/"
  end.

Definition posix_str (root : string) (parts : list string) : string :=
  let s := root +:+ join "/" parts in
  if is_empty s then "." else s.

(** [str(PurePosixPath(dir) / name)] *)
Definition posix_join (dir name : string) : string :=
  if startswith "/" name then posix_str (posix_root name) (posix_parts name)
  else posix_str (posix_root dir) (posix_parts dir ++ posix_parts name).

(** [list_available_tools]: the names of the tools of the repository, and
    the empty list when the connection or the listing fails. *)
Definition list_available_tools (repo : repository) : list string :=
  match connect repo with
  | Some _ => []
  | None =>
      match list_folder repo tools_folder with
      | Ok github_files => available_tools github_files
      | Raise _ => []
      end
  end.

End GitHubDownloader.

(** ** virtual_env_manager.py and tool_executor.py *)

Module Pipeline.
Import PyStr Py.

(** A child process, by what it would do if left alone: how long it runs
    (in seconds), and what it leaves. *)
Record process := Process {
  duration : Z;
  returncode : Z;
  stdout : string;
  stderr : string
}.

(** [subprocess.run(..., timeout=timeout)]: the child is killed and
    [TimeoutExpired] raised once it has run for [timeout] seconds. *)
Definition subprocess_run (timeout : Z) (child : pyresult process) : pyresult process :=
  p ← child;
  if timeout <? duration p
  then raise TimeoutExpired ("Command timed out after " +:+ pretty timeout +:+ " seconds")
  else Ok p.

Record env_info := EnvInfo {
  temp_base_dir : string;
  venv_dir : string;
  python_path : string;
  pip_path : string;
  scripts_dir : string;
  tools_dir : string;
  temp_files_dir : string;
  working_dir : string;
  platform : string;
  created_at : float;
  env_tool_name : string
}.

(** What a pipeline call does to the world, in order. *)
Inductive event :=
| Created (root : string)
| CleanupCalled (root : string)
| RmtreeFailed (root : string) (attempt : nat)
| Slept
| Removed (root : string)
| DeferredRemoval (root : string)
| CleanupAborted (root : string)
| Extracted (tool_file_path : string) (dependencies : list string)
| PipInstall (package : string)
| Launched (tool_file_path : string).

(** The directories on disk that the state records, the roots of the
    sandboxes among them; the manager's tracking dictionary; the removals
    registered with [atexit]; and the events so far. *)
Record machine := Machine {
  disk : gset string;
  active_environments : gmap string env_info;
  atexit : list string;
  journal : list event
}.

Definition emit (e : event) (m : machine) : machine :=
  Machine (disk m) (active_environments m) (atexit m) (journal m ++ [e]).

(** Everything outside the process: the stores, the clock, the file
    system and the children it spawns. *)
Record world := World {
  rt : runtime;
  lib : DependencyParser.library;
  repo : GitHubDownloader.repository;
  (** [self.db.get_tool_details(tool_name)]: a dictionary or [None] *)
  get_tool_details : string → pyresult pyval;
  (** [tempfile.mkdtemp]: the temporary directory, the random part of the
      name, and whether the creation fails *)
  tmpdir : string;
  random_name : string;
  mkdtemp_error : option exn;
  (** [time.time()] and [int(time.time())] *)
  wall_clock : float;
  clock_seconds : Z;
  (** [sys.platform] *)
  platform_name : string;
  venv_process : pyresult process;
  python_version_process : pyresult process;
  pip_version_process : pyresult process;
  (** [directory.mkdir(parents=True, exist_ok=True)] of the work
      directories *)
  mkdir_error : option exn;
  (** whether [shutil.rmtree] fails with [OSError] at a given attempt on a
      sandbox whose creation failed, which holds nothing but what [venv]
      made *)
  rmtree_fails : string → nat → bool;
  (** the exception that [shutil.rmtree] raises at a given attempt on any
      other directory, if it raises: [OSError], or one of another class,
      since what a tool leaves in its sandbox is arbitrary (a tree too deep
      for the recursion of [rmtree] gives [RecursionError]) *)
  rmtree_raises : string → nat → option exn;
  (** [_setup_blueprint_structure], by its outcome: ["success"] and
      ["message"] *)
  setup_blueprint : env_info → bool * string;
  files : DependencyParser.filesystem;
  (** the child of [pip install package] *)
  pip_install : string → pyresult process;
  (** writing the launcher script *)
  write_script : option exn;
  (** the child that runs the launcher *)
  tool_process : pyresult process;
  (** seconds since the start of the call, rounded *)
  elapsed : float
}.

Definition path_join (dir name : string) : string := dir +:+ "/" +:+ name.

(** *** VirtualEnvironmentManager *)

Definition max_attempts : nat := 3.

(** Whether [path] is the directory [root] or lies inside it. *)
Definition inside (root path : string) : bool :=
  String.eqb path root
  || startswith (if ends_with (Ascii.eqb "/") root then root else root +:+ "/") path.

(** The disk once [shutil.rmtree(root)] has returned: the directory is gone
    with everything inside it. *)
Definition rmtree (root : string) (disk : gset string) : gset string :=
  filter (fun path => inside root path = false) disk.

(** [for attempt in range(max_attempts)] of [cleanup_environment], from
    [attempt] on, with [remaining] iterations to go.  [raises] gives the
    class of the exception that [shutil.rmtree] raises at each attempt.  An
    [OSError] is handled in the loop; an exception of another class leaves
    it for the [except Exception] of the function, which logs it and
    returns. *)
Fixpoint remove_with_retries (raises : nat → option exn_class) (temp_base_dir : string)
    (attempt remaining : nat) (m : machine) : machine :=
  match remaining with
  | O => m
  | S remaining' =>
      match raises attempt with
      | None =>
          emit (Removed temp_base_dir)
            (Machine (rmtree temp_base_dir (disk m)) (active_environments m)
                     (atexit m) (journal m))
      | Some OSError =>
          let m := emit (RmtreeFailed temp_base_dir attempt) m in
          if (attempt <? max_attempts - 1)%nat then
            remove_with_retries raises temp_base_dir (S attempt) remaining' (emit Slept m)
          else
            remove_with_retries raises temp_base_dir (S attempt) remaining'
              (emit (DeferredRemoval temp_base_dir)
                 (Machine (disk m) (active_environments m)
                          (atexit m ++ [temp_base_dir]) (journal m)))
      | Some _ => emit (CleanupAborted temp_base_dir) m
      end
  end.

(** The body of [cleanup_environment], given what [shutil.rmtree] raises on
    the directory. *)
Definition cleanup_with (raises : nat → option exn_class) (temp_base_dir : string)
    (m : machine) : machine :=
  let m := emit (CleanupCalled temp_base_dir) m in
  if is_empty temp_base_dir || negb (bool_decide (temp_base_dir ∈ disk m)) then m
  else
    let m := Machine (disk m) (delete temp_base_dir (active_environments m))
                     (atexit m) (journal m) in
    remove_with_retries raises temp_base_dir 0 max_attempts m.

Definition cleanup_environment (w : world) (temp_base_dir : string) (m : machine)
  : machine :=
  cleanup_with (fun attempt => exn_cls <$> rmtree_raises w temp_base_dir attempt)
               temp_base_dir m.

(** [cleanup_environment] as [create_isolated_environment] calls it, on the
    directory it has just made. *)
Definition cleanup_new_environment (w : world) (temp_base_dir : string) (m : machine)
  : machine :=
  cleanup_with (fun attempt => if rmtree_fails w temp_base_dir attempt
                               then Some OSError else None)
               temp_base_dir m.

Definition require_success (p : process) (what : string) : pyresult unit :=
  if returncode p =? 0 then Ok tt else raise PlainException (what +:+ stderr p).

Definition create_isolated_environment (w : world) (tool_name : string) (m : machine)
  : pyresult env_info * machine :=
  let failed (e : exn) : pyresult env_info :=
    raise PlainException ("Failed to create isolated environment: " +:+ exn_msg e) in
  match mkdtemp_error w with
  | Some e => (failed e, m)
  | None =>
      let temp_base_dir :=
        path_join (tmpdir w)
          ("isolated_tool_" +:+ tool_name +:+ "_" +:+ random_name w
           +:+ "_" +:+ pretty (clock_seconds w)) in
      let m := Machine (disk m ∪ {[temp_base_dir]}) (active_environments m)
                       (atexit m) (journal m) in
      let venv_dir := path_join temp_base_dir "tool_venv" in
      let bin := if String.eqb (platform_name w) "win32" then "Scripts" else "bin" in
      let exe := if String.eqb (platform_name w) "win32" then ".exe" else "" in
      let venv_python := path_join (path_join venv_dir bin) ("python" +:+ exe) in
      let venv_pip := path_join (path_join venv_dir bin) ("pip" +:+ exe) in
      let body : pyresult env_info :=
        result ← subprocess_run 120 (venv_process w);
        _ ← require_success result "Failed to create virtual environment: ";
        test_result ← subprocess_run 30 (python_version_process w);
        _ ← require_success test_result "Virtual environment verification failed: ";
        pip_test ← subprocess_run 30 (pip_version_process w);
        _ ← require_success pip_test "Pip verification failed: ";
        _ ← match mkdir_error w with Some e => Raise e | None => Ok tt end;
        Ok (EnvInfo temp_base_dir venv_dir venv_python venv_pip
              (path_join temp_base_dir "scripts")
              (path_join temp_base_dir "tools")
              (path_join temp_base_dir "temp_files")
              temp_base_dir (platform_name w) (wall_clock w) tool_name) in
      match body with
      | Ok env_info =>
          (Ok env_info,
           emit (Created temp_base_dir)
             (Machine (disk m) (<[temp_base_dir := env_info]> (active_environments m))
                      (atexit m) (journal m)))
      | Raise e => (failed e, cleanup_new_environment w temp_base_dir m)
      end
  end.

(** *** ToolExecutor *)

Record install_results := InstallResults {
  success : bool;
  installed : list string;
  failed : list string;
  install_errors : list string;
  message : string
}.

(** The timeout both [subprocess.run] calls of [tool_executor.py] pass. *)
Definition install_timeout : Z := 30000.
Definition launch_timeout : Z := 30000.

Fixpoint install_each (w : world) (dependencies : list string)
    (acc : list string * list string * list string) (m : machine)
  : list string * list string * list string * machine :=
  match dependencies with
  | [] => (acc, m)
  | package :: rest =>
      let '(installed, failed, errors) := acc in
      let m := emit (PipInstall package) m in
      let acc :=
        match subprocess_run install_timeout (pip_install w package) with
        | Ok result =>
            if returncode result =? 0 then ((installed ++ [package])%list, failed, errors)
            else (installed, (failed ++ [package])%list,
                  (errors ++ [package +:+ ": " +:+ stderr result])%list)
        | Raise e =>
            match exn_cls e with
            | TimeoutExpired =>
                (installed, (failed ++ [package])%list,
                 (errors ++ [package +:+ ": Installation timeout"])%list)
            | _ =>
                (installed, (failed ++ [package])%list,
                 (errors ++ [package +:+ ": " +:+ exn_msg e])%list)
            end
        end in
      install_each w rest acc m
  end.

Definition _install_dependencies (w : world) (dependencies : list string) (m : machine)
  : install_results * machine :=
  let '(installed, failed, errors, m) := install_each w dependencies ([], [], []) m in
  let results :=
    match failed, installed with
    | _ :: _, [] =>
        InstallResults false installed failed errors "All dependency installations failed"
    | _ :: _, _ =>
        InstallResults true installed failed errors
          ("Some dependencies failed: " +:+ str_of_list (rt w) failed)
    | [], _ =>
        InstallResults true installed failed errors
          ("All " +:+ pretty (length dependencies) +:+ " dependencies installed successfully")
    end in
  (results, m).

(** [for line in reversed(output_lines)]: the last line that starts with a
    brace and parses; an exception other than [JSONDecodeError] leaves the
    loop. *)
Fixpoint last_json_line (w : world) (reversed_lines : list string) : pyresult pyval :=
  match reversed_lines with
  | [] => Ok VNone
  | line :: rest =>
      if startswith "{" (strip line) then
        match json_loads (rt w) (strip line) with
        | Ok json_output => Ok json_output
        | Raise e =>
            match exn_cls e with
            | JSONDecodeError => last_json_line w rest
            | _ => Raise e
            end
        end
      else last_json_line w rest
  end.

Definition execution_error (e : exn) : dict :=
  [ ("status", VStr "error"); ("message", VStr ("Tool execution error: " +:+ exn_msg e)) ].

Definition execution_timeout : dict :=
  [ ("status", VStr "error"); ("message", VStr "Tool execution timeout (5 minutes)") ].

Definition _execute_tool_in_environment (w : world) : dict :=
  match write_script w with
  | Some e => execution_error e
  | None =>
      match subprocess_run launch_timeout (tool_process w) with
      | Raise e =>
          match exn_cls e with
          | TimeoutExpired => execution_timeout
          | _ => execution_error e
          end
      | Ok result =>
          if negb (returncode result =? 0) then
            [ ("status", VStr "error");
              ("message", VStr ("Tool execution failed: " +:+ stderr result));
              ("stdout", VStr (stdout result));
              ("stderr", VStr (stderr result)) ]
          else
            let output_lines := split_on newline (strip (stdout result)) in
            let parsed :=
              json_output ← last_json_line w (rev output_lines);
              match json_output with
              | VNone => json_loads (rt w) (strip (stdout result))
              | _ => Ok json_output
              end in
            match parsed with
            | Ok json_output =>
                [ ("status", VStr "success");
                  ("result", json_output);
                  ("stdout", VStr (stdout result));
                  ("execution_time", VStr "completed") ]
            | Raise e =>
                match exn_cls e with
                | JSONDecodeError =>
                    [ ("status", VStr "error");
                      ("message", VStr ("Tool output is not valid JSON: " +:+ exn_msg e));
                      ("stdout", VStr (stdout result));
                      ("stderr", VStr (stderr result)) ]
                | _ => execution_error e
                end
            end
      end
  end.

Definition _error_response (w : world) (message : string) (details : dict) : dict :=
  [ ("status", VStr "error");
    ("message", VStr message);
    ("details", VDict details);
    ("timestamp", VFloat (wall_clock w)) ].

(** The world in which the launcher script is written and its child is
    [child]. *)
Definition launching (w : world) (child : process) : world :=
  World (rt w) (lib w) (repo w) (get_tool_details w) (tmpdir w) (random_name w)
        (mkdtemp_error w) (wall_clock w) (clock_seconds w) (platform_name w)
        (venv_process w) (python_version_process w) (pip_version_process w)
        (mkdir_error w) (rmtree_fails w) (rmtree_raises w) (setup_blueprint w) (files w)
        (pip_install w) None (Ok child) (elapsed w).

(** The world in which [shutil.rmtree] raises [e] at every attempt on a
    sandbox that was handed out. *)
Definition leaving (w : world) (e : exn) : world :=
  World (rt w) (lib w) (repo w) (get_tool_details w) (tmpdir w) (random_name w)
        (mkdtemp_error w) (wall_clock w) (clock_seconds w) (platform_name w)
        (venv_process w) (python_version_process w) (pip_version_process w)
        (mkdir_error w) (rmtree_fails w) (fun _ _ => Some e) (setup_blueprint w) (files w)
        (pip_install w) (write_script w) (tool_process w) (elapsed w).

(** [type(e).__name__] *)
Definition class_name (c : exn_class) : string :=
  match c with
  | ValueError => "ValueError"
  | JSONDecodeError => "JSONDecodeError"
  | TypeError => "TypeError"
  | KeyError => "KeyError"
  | IndexError => "IndexError"
  | AttributeError => "AttributeError"
  | UnboundLocalError => "UnboundLocalError"
  | OverflowError => "OverflowError"
  | OSError => "OSError"
  | TimeoutExpired => "TimeoutExpired"
  | SyntaxError => "SyntaxError"
  | ReError => "error"
  | RecursionError => "RecursionError"
  | PlainException => "Exception"
  end.

(** [except Exception as e] of [execute_tool] *)
Definition critical (w : world) (e : exn) : dict :=
  _error_response w ("Critical execution error: " +:+ exn_msg e)
    [ ("exception_type", VStr (class_name (exn_cls e))) ].

(** [tool_details['description'][:100]] in the log line of step 1. *)
Definition description_preview (w : world) (tool_details : pyval) : pyresult unit :=
  description ← py_getitem (py_repr (rt w)) tool_details (VStr "description");
  match description with
  | VStr _ | VList _ => Ok tt
  | _ => raise TypeError ("'" +:+ type_name description +:+ "' object is not subscriptable")
  end.

Definition text_of (v : option pyval) : pyresult string :=
  match v with
  | Some (VStr s) => Ok s
  | Some v => raise TypeError ("expected str, not " +:+ type_name v)
  | None => raise KeyError "'file_path'"
  end.

(** Steps 4 to 8 of [execute_tool], which run with the environment. *)
Definition run_in_environment (w : world) (tool_name : string)
    (validation_result : SchemaValidator.validation_result) (env_info : env_info)
    (m : machine) : pyresult dict * machine :=
  let validated_input := SchemaValidator.v_data validation_result in
  let '(blueprint_success, blueprint_message) := setup_blueprint w env_info in
  if negb blueprint_success then
    (Ok (_error_response w ("Blueprint setup failed: " +:+ blueprint_message)
           [ ("blueprint_error",
              VDict [ ("success", VBool false); ("message", VStr blueprint_message) ]) ]),
     m)
  else
    let download_result :=
      fst (GitHubDownloader.download_tool_from_github (repo w) tool_name
             (tools_dir env_info)) in
    if negb (py_eq (default VNone (dict_get "status" download_result)) (VStr "success")) then
      (Ok (_error_response w
             ("Tool download failed: "
              +:+ py_str (rt w) (default VNone (dict_get "message" download_result)))
             [ ("download_error", VDict download_result) ]),
       m)
    else
      match text_of (dict_get "file_path" download_result) with
      | Raise e => (Raise e, m)
      | Ok tool_file_path =>
          let dependencies :=
            DependencyParser.extract_dependencies_from_file (lib w) (files w)
              tool_file_path in
          let m := emit (Extracted tool_file_path dependencies) m in
          let '(install_result, m) :=
            match dependencies with
            | [] => (None, m)
            | _ => let '(r, m) := _install_dependencies w dependencies m in (Some r, m)
            end in
          match install_result with
          | Some (InstallResults false _ _ errors message) =>
              (Ok (_error_response w ("Dependency installation failed: " +:+ message)
                     [ ("dependency_errors", VList (map VStr errors)) ]),
               m)
          | _ =>
              let m := emit (Launched tool_file_path) m in
              let execution_result := _execute_tool_in_environment w in
              if negb (py_eq (default VNone (dict_get "status" execution_result))
                             (VStr "success")) then
                (Ok (_error_response w
                       ("Tool execution failed: "
                        +:+ py_str (rt w)
                              (default VNone (dict_get "message" execution_result)))
                       [ ("execution_error", VDict execution_result) ]),
                 m)
              else
                (Ok [ ("status", VStr "success");
                      ("tool_name", VStr tool_name);
                      ("result", default VNone (dict_get "result" execution_result));
                      ("execution_info",
                       VDict
                         [ ("execution_time_seconds", VFloat (elapsed w));
                           ("validated_input", validated_input);
                           ("dependencies_installed", VList (map VStr dependencies));
                           ("validation_warnings",
                            VList (map VStr (SchemaValidator.v_warnings validation_result)));
                           ("environment_path", VStr (temp_base_dir env_info));
                           ("tool_file_size",
                            default VNone (dict_get "file_size" download_result));
                           ("blueprint_setup", VStr "success") ]);
                      ("message",
                       VStr ("Tool '" +:+ tool_name +:+ "' executed successfully")) ],
                 m)
          end
      end.

(** Steps 1 to 3: the part of the [try] block that runs before
    [env_info] is bound.  The result tells whether it was. *)
Definition before_environment (w : world) (tool_name : string) (user_input : pyval)
    (m : machine)
  : pyresult (dict + SchemaValidator.validation_result * env_info) * machine :=
  match get_tool_details w tool_name with
  | Raise e => (Raise e, m)
  | Ok tool_details =>
      if negb (truthy tool_details) then
        (Ok (inl (_error_response w ("Tool '" +:+ tool_name +:+ "' not found in database")
                    [])), m)
      else
        match (_ ← description_preview w tool_details;
               py_get tool_details "input_schema" (VDict [])) with
        | Raise e => (Raise e, m)
        | Ok input_schema =>
            let validation_result :=
              SchemaValidator.validate_input (rt w) user_input input_schema in
            if negb (SchemaValidator.v_valid validation_result) then
              (Ok (inl (_error_response w
                          ("Input validation failed: "
                           +:+ str_of_list (rt w)
                                 (SchemaValidator.v_errors validation_result))
                          [ ("validation_errors",
                             VList (map VStr (SchemaValidator.v_errors validation_result)))
                          ])), m)
            else
              match create_isolated_environment w tool_name m with
              | (Raise e, m) => (Raise e, m)
              | (Ok env_info, m) => (Ok (inr (validation_result, env_info)), m)
              end
        end
  end.

(** [execute_tool]: the [try] block, the [except Exception] handler, and
    the [finally] block, which cleans up when [env_info] is bound. *)
Definition execute_tool (w : world) (tool_name : string) (user_input : pyval)
    (m : machine) : dict * machine :=
  match before_environment w tool_name user_input m with
  | (Raise e, m) => (critical w e, m)
  | (Ok (inl response), m) => (response, m)
  | (Ok (inr (validation_result, env_info)), m) =>
      let '(outcome, m) := run_in_environment w tool_name validation_result env_info m in
      let response :=
        match outcome with
        | Ok response => response
        | Raise e => critical w e
        end in
      (response, cleanup_environment w (temp_base_dir env_info) m)
  end.

(** *** Kinds of events *)

(** The events of [cleanup_environment]. *)
Definition housekeeping (e : event) : bool :=
  match e with
  | CleanupCalled _ | RmtreeFailed _ _ | Slept | Removed _ | DeferredRemoval _
  | CleanupAborted _ => true
  | _ => false
  end.

(** The events of steps 6 and 7. *)
Definition step_event (e : event) : bool :=
  match e with
  | Extracted _ _ | PipInstall _ | Launched _ => true
  | _ => false
  end.

Definition install_or_launch (e : event) : bool :=
  match e with
  | PipInstall _ | Launched _ => true
  | _ => false
  end.

(** No event of the list creates a sandbox. *)
Definition quiet (evs : list event) : Prop :=
  forallb (fun e => housekeeping e || step_event e) evs = true.

(** *** More of the manager *)

(** [cleanup_all_environments]: [cleanup_environment] on every tracked
    directory.  [keys] is the order in which the tracking dictionary lists
    its keys, which the map of the model does not record. *)
Definition cleanup_all_environments (w : world)
    (keys : gmap string env_info → list string) (m : machine) : machine :=
  fold_left (fun m temp_dir => cleanup_environment w temp_dir m)
            (keys (active_environments m)) m.

(** A listing of the keys visits every key of the dictionary once. *)
Definition lists_keys (keys : gmap string env_info → list string) : Prop :=
  ∀ envs, keys envs ≡ₚ elements (dom envs).

(** *** Outcomes of the installation *)

(** Whether [pip install package] exits with 0 before the timeout. *)
Definition pip_succeeds (w : world) (package : string) : bool :=
  match subprocess_run install_timeout (pip_install w package) with
  | Ok result => returncode result =? 0
  | Raise _ => false
  end.

(** The world in which the tool file reads [content] wherever it is
    looked for, and [pip install] behaves as [children] says. *)
Definition declaring (w : world) (content : string)
    (children : string → pyresult process) : world :=
  World (rt w) (lib w) (repo w) (get_tool_details w) (tmpdir w) (random_name w)
        (mkdtemp_error w) (wall_clock w) (clock_seconds w) (platform_name w)
        (venv_process w) (python_version_process w) (pip_version_process w)
        (mkdir_error w) (rmtree_fails w) (rmtree_raises w) (setup_blueprint w)
        (fun _ => Some (Ok content))
        children (write_script w) (tool_process w) (elapsed w).

(** The success response of [execute_tool]. *)
Definition success_response (tool_name : string) (result : pyval) (execution_info : dict)
  : dict :=
  [ ("status", VStr "success");
    ("tool_name", VStr tool_name);
    ("result", result);
    ("execution_info", VDict execution_info);
    ("message", VStr ("Tool '" +:+ tool_name +:+ "' executed successfully")) ].

(** Whether step 7 is reached after the installation of [dependencies]:
    there is nothing to install, or some package installs. *)
Definition reaches_launch (w : world) (dependencies : list string) : bool :=
  match dependencies with
  | [] => true
  | _ => existsb (pip_succeeds w) dependencies
  end.

End Pipeline.

(** ** Sample inputs *)

Module Samples.
Import PyStr Py.

(** A runtime for documents without finite floats other than zero,
    patterns or embedded JSON: it prints the floats that are not finite as
    Python does, and of JSON texts it reads the empty object. *)
Definition plain_runtime : runtime :=
  Runtime (fun x => match Prim2SF x with
                    | S754_infinity false => "inf"
                    | S754_infinity true => "-inf"
                    | S754_nan => "nan"
                    | _ => "0.0"
                    end)
          (fun _ => None) (fun _ _ => Ok true)
          (fun s => if String.eqb s "{}" then Ok (VDict [])
                    else Raise (Exn JSONDecodeError "Expecting value")).

(** Scenario 2 of the specification. *)
Definition naics_schema : pyval :=
  VDict [ ("properties", VDict [("naics_code", VDict [("type", VStr "string")])]);
          ("required", VList [VStr "naics_code"]) ].

Definition naics_input : pyval := VDict [("naics_code", VStr "541511")].

Definition missing_naics : string :=
  "Missing required field: 'root.naics_code' if path != 'root' else field".

(** Scenario 4 of the specification. *)
Definition id_union : list pyval := [VStr "integer"; VStr "string"].
Definition id_field : dict := [("type", VList id_union)].
Definition id_schema : pyval := VDict [("properties", VDict [("id", VDict id_field)])].

(** A wrapper schema whose wrapper key is the empty string. *)
Definition a_integer : pyval := VDict [("a", VDict [("type", VStr "integer")])].
Definition empty_key_schema : pyval := VDict [("properties", VDict [("", a_integer)])].

(** Two integer fields, and a document of which only the first converts. *)
Definition two_integers : pyval :=
  VDict [ ("properties",
           VDict [ ("a", VDict [("type", VStr "integer")]);
                   ("b", VDict [("type", VStr "integer")]) ]) ].

Definition half_valid_input : pyval := VDict [("a", VStr "5"); ("b", VStr "x")].

(** A tool file that declares [requests] as a pair and [cv2]; the regex
    engine and the literal evaluator of the sample know that declaration
    and nothing else. *)
Definition declared_text : string := "[('requests', 'requests'), 'cv2']".

Definition plain_library : DependencyParser.library :=
  DependencyParser.Library
    (fun pattern _ content =>
       if String.eqb pattern "dependencies\s*=\s*(\[.*?\])"
          && contains ("dependencies = " +:+ declared_text) content
       then [declared_text] else [])
    (fun text =>
       if String.eqb text declared_text
       then Ok (DependencyParser.PSeq
                  [ DependencyParser.PSeq
                      [DependencyParser.PStr "requests"; DependencyParser.PStr "requests"];
                    DependencyParser.PStr "cv2" ])
       else Raise (Exn SyntaxError "invalid syntax"))
    elements.

Definition tool_files : DependencyParser.filesystem :=
  fun path =>
    if String.eqb path "tool.py" then Some (Ok ("dependencies = " +:+ declared_text))
    else None.

(** A repository whose [Tools/] folder holds one tool. *)
Definition one_tool_repository : GitHubDownloader.repository :=
  GitHubDownloader.Repository None GitHubDownloader.posix_join (fun _ => None)
    (fun path =>
       if String.eqb path "Tools/NAICSExcelTool.py"
       then Ok "class NAICSExcelTool(BaseTool): pass"
       else Raise (Exn PlainException "404 Not Found"))
    (fun _ content => Ok (Z.of_nat (String.length content)))
    (fun _ => Ok ["NAICSExcelTool.py"; "README.md"])
    0%float.

Definition finished (out : string) : pyresult Pipeline.process :=
  Ok (Pipeline.Process 1 0 out "").

Definition naics_details : pyval :=
  VDict [ ("description", VStr "NAICS lookup"); ("input_schema", naics_schema) ].

(** A world in which every step succeeds: the tool is known, the
    environment is created, the tool file is not found by the parser, so
    that it declares no dependencies, and the tool prints an empty
    object. *)
Definition calm_world : Pipeline.world :=
  Pipeline.World plain_runtime plain_library one_tool_repository
    (fun name => if String.eqb name "NAICSExcelTool" then Ok naics_details else Ok VNone)
    "/tmp" "ab12cd" None 0%float 1700000000 "linux"
    (finished "") (finished "Python 3.11.4") (finished "pip 23.1")
    None (fun _ _ => false) (fun _ _ => None)
    (fun _ => (true, "Blueprint structure created successfully"))
    (fun _ => None) (fun _ => finished "") None (finished "{}") 0%float.

Definition empty_machine : Pipeline.machine := Pipeline.Machine ∅ ∅ [] [].

(** A world like the calm one, in which the tool leaves a tree of
    directories too deep for [shutil.rmtree]. *)
Definition deep_tree_world : Pipeline.world :=
  Pipeline.leaving calm_world (Exn RecursionError "maximum recursion depth exceeded").

Definition calm_root : string := "/tmp/isolated_tool_NAICSExcelTool_ab12cd_1700000000".

Definition calm_tool_file : string :=
  "/tmp/isolated_tool_NAICSExcelTool_ab12cd_1700000000/tools/NAICSExcelTool.py".

(** A world like the calm one, in which the tool file declares [requests]
    and [cv2], and of the two packages only [requests] installs. *)
Definition busy_world : Pipeline.world :=
  Pipeline.declaring calm_world ("dependencies = " +:+ declared_text)
    (fun package =>
       if String.eqb package "requests" then finished ""
       else Ok (Pipeline.Process 2 1 "" "No matching distribution found")).

(** The sandbox that the calm world creates for the tool. *)
Definition calm_env : Pipeline.env_info :=
  Pipeline.EnvInfo calm_root
    (calm_root +:+ "/tool_venv")
    (calm_root +:+ "/tool_venv/bin/python")
    (calm_root +:+ "/tool_venv/bin/pip")
    (calm_root +:+ "/scripts")
    (calm_root +:+ "/tools")
    (calm_root +:+ "/temp_files")
    calm_root "linux" 0%float "NAICSExcelTool".

(** A tool file that declares its dependencies as bare names, which the
    literal evaluator rejects. *)
Definition bare_text : string := "[pandas, cv2>=4.5]".

Definition bare_library : DependencyParser.library :=
  DependencyParser.Library
    (fun pattern _ content =>
       if String.eqb pattern "dependencies\s*=\s*(\[.*?\])"
          && contains ("dependencies = " +:+ bare_text) content
       then [bare_text] else [])
    (fun _ => Raise (Exn ValueError "malformed node or string"))
    elements.

Definition bare_files : DependencyParser.filesystem :=
  fun path =>
    if String.eqb path "tool.py" then Some (Ok ("dependencies = " +:+ bare_text))
    else None.

(** A world like the calm one, in which the tool file declares its
    dependencies as these bare names, and every package installs. *)
Definition bare_world : Pipeline.world :=
  Pipeline.World plain_runtime bare_library one_tool_repository
    (fun name => if String.eqb name "NAICSExcelTool" then Ok naics_details else Ok VNone)
    "/tmp" "ab12cd" None 0%float 1700000000 "linux"
    (finished "") (finished "Python 3.11.4") (finished "pip 23.1")
    None (fun _ _ => false) (fun _ _ => None)
    (fun _ => (true, "Blueprint structure created successfully"))
    (fun _ => Some (Ok ("dependencies = " +:+ bare_text)))
    (fun _ => finished "") None (finished "{}") 0%float.

End Samples.

(** * Properties *)

(** ** The dependency extractor *)

Section DependencyFacts.
Import PyStr DependencyParser.

Lemma rstrip_by_no_trailing p s : ends_with p (rstrip_by p s) = false.
Proof.
  induction s as [|c r IH]; simpl; [done|].
  destruct (is_empty (rstrip_by p r)) eqn:He; simpl.
  - destruct (p c) eqn:Hp; simpl; [done|].
    destruct (rstrip_by p r); [by rewrite Hp | done].
  - destruct (rstrip_by p r) eqn:Hr; [done|]. exact IH.
Qed.

Lemma strip_no_trailing_space s : ends_with is_space (strip s) = false.
Proof. apply rstrip_by_no_trailing. Qed.

Lemma name_tail_strict r :
  name_tail_matches r = true → ends_with is_space r = false →
  all_chars is_name_char r = true.
Proof.
  induction r as [|c r IH]; simpl; [done|].
  intros Hm He.
  apply orb_true_iff in Hm as [Hm|Hm].
  - apply andb_true_iff in Hm as [Hc Hr]. rewrite Hc. simpl.
    apply IH; [done|]. destruct r; [done|exact He].
  - apply andb_true_iff in Hm as [Hc Hr]. destruct r; [|done].
    apply Ascii.eqb_eq in Hc. subst c. done.
Qed.

Lemma name_regex_strict s :
  name_regex_matches s = true → ends_with is_space s = false →
  matches_I4 s = true.
Proof.
  destruct s as [|c r]; simpl; [done|].
  intros Hm He. apply andb_true_iff in Hm as [Hc Hr]. rewrite Hc. simpl.
  destruct r as [|c' r']; [done|].
  apply name_tail_strict; done.
Qed.

Lemma matches_I4_name_tail r :
  all_chars is_name_char r = true → name_tail_matches r = true.
Proof.
  induction r as [|c r IH]; simpl; [done|].
  intros H. apply andb_true_iff in H as [-> Hr]. simpl. by rewrite IH.
Qed.

Lemma matches_I4_regex s : matches_I4 s = true → name_regex_matches s = true.
Proof.
  destruct s; simpl; [done|]. intros H. apply andb_true_iff in H as [-> Hr].
  simpl. by apply matches_I4_name_tail.
Qed.

Lemma package_mappings_alias p :
  default p (package_mappings !! p) = alias p.
Proof.
  unfold alias.
  destruct (String.eqb_spec p "cv2") as [->|?]; [by vm_compute|].
  destruct (String.eqb_spec p "PIL") as [->|?]; [by vm_compute|].
  destruct (String.eqb_spec p "sklearn") as [->|?]; [by vm_compute|].
  destruct (String.eqb_spec p "yaml") as [->|?]; [by vm_compute|].
  destruct (String.eqb_spec p "dotenv") as [->|?]; [by vm_compute|].
  unfold package_mappings.
  rewrite (not_elem_of_list_to_map_1 _ p); [done|].
  cbn. rewrite !not_elem_of_cons. repeat split; try done. apply not_elem_of_nil.
Qed.

Lemma alias_no_trailing_space p :
  ends_with is_space p = false → ends_with is_space (alias p) = false.
Proof.
  intros H. unfold alias.
  destruct (String.eqb p "cv2"); [done|].
  destruct (String.eqb p "PIL"); [done|].
  destruct (String.eqb p "sklearn"); [done|].
  destruct (String.eqb p "yaml"); [done|].
  by destruct (String.eqb p "dotenv").
Qed.

Lemma clean_package_name_spec s :
  _clean_package_name s =
  let q := alias (normalise s) in if matches_I4 q then q else EmptyString.
Proof.
  unfold _clean_package_name, normalise.
  destruct (is_empty s) eqn:Hs.
  { destruct s; [|done]. done. }
  destruct (is_empty (strip (strip_by is_quote (strip s)))) eqn:Hp.
  { destruct (strip (strip_by is_quote (strip s))); [|done]. done. }
  change (match package_mappings !! ?p with Some mapped => mapped | None => ?p end)
    with (default p (package_mappings !! p)).
  rewrite package_mappings_alias. cbv zeta.
  set (q := alias _).
  assert (Hq : ends_with is_space q = false).
  { apply alias_no_trailing_space, strip_no_trailing_space. }
  destruct (name_regex_matches q) eqn:Hm.
  - by rewrite (name_regex_strict _ Hm Hq).
  - destruct (matches_I4 q) eqn:Hm'; [|done].
    apply matches_I4_regex in Hm'. congruence.
Qed.

Lemma alias_not_key p : matches_I4 (alias p) = true → clean_name (alias p).
Proof.
  intros H. split; [done|]. clear H. unfold alias.
  destruct (String.eqb_spec p "cv2"); [by vm_compute|].
  destruct (String.eqb_spec p "PIL"); [by vm_compute|].
  destruct (String.eqb_spec p "sklearn"); [by vm_compute|].
  destruct (String.eqb_spec p "yaml"); [by vm_compute|].
  destruct (String.eqb_spec p "dotenv"); [by vm_compute|].
  apply not_elem_of_list_to_map_1.
  cbn. rewrite !not_elem_of_cons. repeat split; try done. apply not_elem_of_nil.
Qed.

Lemma clean_package_name_cases s :
  _clean_package_name s = EmptyString ∨ clean_name (_clean_package_name s).
Proof.
  rewrite clean_package_name_spec. cbv zeta.
  destruct (matches_I4 _) eqn:H; [right|by left]. by apply alias_not_key.
Qed.

Lemma add_package_clean s (X : gset string) :
  set_Forall clean_name X → set_Forall clean_name (add_package (_clean_package_name s) X).
Proof.
  intros HX. unfold add_package. destruct (is_empty _) eqn:He; [done|].
  destruct (clean_package_name_cases s) as [E|E]; [by rewrite E in He|].
  apply set_Forall_union; [|done]. by apply set_Forall_singleton.
Qed.

Lemma process_dependency_item_clean item :
  set_Forall clean_name (_process_dependency_item item).
Proof.
  destruct item as [s|subs|t r]; simpl.
  - apply add_package_clean, set_Forall_empty.
  - assert (H : ∀ (X : gset string), set_Forall clean_name X →
      set_Forall clean_name (fold_left
        (fun packages sub_item =>
           match sub_item with
           | PStr s => add_package (_clean_package_name s) packages
           | _ => packages
           end) subs X)).
    { induction subs as [|a subs IH]; simpl; [done|]. intros X HX. apply IH.
      destruct a; [by apply add_package_clean|done..]. }
    apply H, set_Forall_empty.
  - destruct (negb _ && negb _); [|apply set_Forall_empty].
    apply add_package_clean, set_Forall_empty.
Qed.

Lemma unique_packages_clean raw : set_Forall clean_name (unique_packages_of raw).
Proof.
  destruct raw as [s|items|t r]; simpl.
  - apply add_package_clean, set_Forall_empty.
  - assert (H : ∀ (X : gset string), set_Forall clean_name X →
      set_Forall clean_name (fold_left (fun unique_packages item =>
                   unique_packages ∪ _process_dependency_item item) items X)).
    { induction items as [|a items IH]; simpl; [done|]. intros X HX. apply IH.
      apply set_Forall_union; [done|apply process_dependency_item_clean]. }
    apply H, set_Forall_empty.
  - apply set_Forall_empty.
Qed.

#[local] Instance str_le_total : Total str_le.
Proof. intros x y. apply String.leb_total. Qed.

#[local] Instance str_le_antisym : AntiSymm eq str_le.
Proof. intros x y. apply String.leb_antisym. Qed.

Lemma str_lt_trans x y z : str_lt x y → str_lt y z → str_lt x z.
Proof.
  unfold str_lt. intros H1 H2.
  apply OrderedTypeEx.String_as_OT.cmp_lt. apply OrderedTypeEx.String_as_OT.cmp_lt in H1, H2.
  eapply OrderedTypeEx.String_as_OT.lt_trans; eauto.
Qed.

Lemma str_le_cases x y : str_le x y ↔ x = y ∨ str_lt x y.
Proof.
  unfold str_le, str_lt, String.leb. split.
  - destruct (String.compare x y) eqn:E; [|by right|done].
    left. by apply String.compare_eq_iff.
  - intros [-> | ->]; [|done].
    replace (String.compare y y) with Eq; [done|].
    symmetry. by apply OrderedTypeEx.String_as_OT.cmp_eq.
Qed.

#[local] Instance str_le_trans : Transitive str_le.
Proof.
  intros x y z [-> | H1]%str_le_cases [-> | H2]%str_le_cases; apply str_le_cases; eauto.
  right. by eapply str_lt_trans.
Qed.

Lemma sorted_strict l : NoDup l → StronglySorted str_lt (sorted l).
Proof.
  intros Hnd.
  assert (Hnd' : NoDup (sorted l)).
  { unfold sorted. by rewrite merge_sort_Permutation. }
  assert (Hs : StronglySorted str_le (sorted l)).
  { apply StronglySorted_merge_sort; apply _. }
  induction Hs as [|a l' Hs IH Hall]; [constructor|].
  apply NoDup_cons in Hnd' as [Hni Hnd'].
  constructor; [by apply IH|].
  apply Forall_forall. intros x Hx.
  rewrite Forall_forall in Hall.
  destruct (proj1 (str_le_cases a x) (Hall x Hx)) as [->|?]; [|done].
  done.
Qed.

Lemma sorted_order_independent (l1 l2 : list string) :
  l1 ≡ₚ l2 → sorted l1 = sorted l2.
Proof.
  intros Hp. apply (Sorted_unique str_le).
  - apply Sorted_merge_sort, _.
  - apply Sorted_merge_sort, _.
  - unfold sorted. by rewrite !merge_sort_Permutation.
Qed.

Lemma find_with_order iter lib content :
  _find_dependencies_variable (with_order iter lib) content
  = _find_dependencies_variable lib content.
Proof.
  unfold _find_dependencies_variable.
  assert (H : ∀ ps, find_in_patterns (with_order iter lib) ps content
                    = find_in_patterns lib ps content).
  { induction ps as [|p ps IH]; simpl; [done|]. by rewrite IH. }
  by rewrite H.
Qed.

Lemma parse_dependencies_perm lib raw :
  enumerates (set_iter lib) → truthy raw = true →
  _parse_dependencies lib raw ≡ₚ filter keep (elements (unique_packages_of raw)).
Proof.
  intros Hen Ht. unfold _parse_dependencies. rewrite Ht. simpl.
  unfold sorted. rewrite merge_sort_Permutation.
  by rewrite (Hen _).
Qed.

Lemma parse_dependencies_elem lib raw p :
  enumerates (set_iter lib) → p ∈ _parse_dependencies lib raw → clean_name p.
Proof.
  intros Hen Hp. destruct (truthy raw) eqn:Ht.
  - rewrite (parse_dependencies_perm _ _ Hen Ht) in Hp.
    apply list_elem_of_filter in Hp as [_ Hp]. apply elem_of_elements in Hp.
    by apply (unique_packages_clean raw).
  - unfold _parse_dependencies in Hp. rewrite Ht in Hp. simpl in Hp.
    by apply not_elem_of_nil in Hp.
Qed.

Lemma parse_dependencies_sorted lib raw :
  enumerates (set_iter lib) → StronglySorted str_lt (_parse_dependencies lib raw).
Proof.
  intros Hen. unfold _parse_dependencies.
  destruct (truthy raw); simpl; [|constructor].
  apply sorted_strict. rewrite (Hen _).
  apply NoDup_filter, NoDup_elements.
Qed.

Lemma parse_dependencies_order iter lib raw :
  enumerates (set_iter lib) → enumerates iter →
  _parse_dependencies (with_order iter lib) raw = _parse_dependencies lib raw.
Proof.
  intros H1 H2. unfold _parse_dependencies.
  destruct (truthy raw); simpl; [|done].
  apply sorted_order_independent. by rewrite (H1 _), (H2 _).
Qed.

Lemma extract_cases lib fs file_path :
  extract_dependencies_from_file lib fs file_path = []
  ∨ ∃ raw, extract_dependencies_from_file lib fs file_path = _parse_dependencies lib raw.
Proof.
  unfold extract_dependencies_from_file, extract_dependencies_body.
  destruct (fs file_path) as [[content|e]|]; simpl; eauto.
  destruct (_find_dependencies_variable lib content) as [[raw|]|e]; simpl; eauto.
Qed.

Lemma extract_order iter lib fs file_path :
  enumerates (set_iter lib) → enumerates iter →
  extract_dependencies_from_file (with_order iter lib) fs file_path
  = extract_dependencies_from_file lib fs file_path.
Proof.
  intros H1 H2.
  unfold extract_dependencies_from_file, extract_dependencies_body.
  destruct (fs file_path) as [[content|e]|]; simpl; [|done..].
  rewrite find_with_order.
  destruct (_find_dependencies_variable lib content) as [[raw|]|e]; simpl; [|done..].
  by apply parse_dependencies_order.
Qed.

(** C6.  For every source file, dependency extraction returns a list that is
    strictly increasing in code-point order, hence sorted and without
    duplicates, in which every element matches
    [^[A-Za-z0-9][A-Za-z0-9._-]*$]; and extracting from the same file again,
    whatever the order in which the interpreter then walks the set of
    packages, yields the same list. *)
Theorem dependency_extraction_sorted_unique_valid
    (lib : library) (iter : gset string → list string) (fs : filesystem)
    (file_path : string) :
  enumerates (set_iter lib) → enumerates iter →
  let deps := extract_dependencies_from_file lib fs file_path in
  StronglySorted str_lt deps
  ∧ Forall (fun p => matches_I4 p = true) deps
  ∧ extract_dependencies_from_file (with_order iter lib) fs file_path = deps.
Proof.
  intros H1 H2 deps. split; [|split].
  - subst deps. destruct (extract_cases lib fs file_path) as [->|[raw ->]]; [constructor|].
    by apply parse_dependencies_sorted.
  - subst deps. destruct (extract_cases lib fs file_path) as [->|[raw ->]]; [constructor|].
    apply Forall_forall. intros p Hp. by apply (parse_dependencies_elem lib raw p H1).
  - by apply extract_order.
Qed.

Lemma enumerates_elements : enumerates elements.
Proof. intros s. reflexivity. Qed.

Lemma enumerates_reverse : enumerates (fun s => reverse (elements s)).
Proof. intros s. apply reverse_Permutation. Qed.

Lemma dependency_extraction_sorted_unique_valid_witness :
  let deps := extract_dependencies_from_file Samples.plain_library Samples.tool_files "tool.py" in
  StronglySorted str_lt deps
  ∧ Forall (fun p => matches_I4 p = true) deps
  ∧ extract_dependencies_from_file
      (with_order (fun s => reverse (elements s)) Samples.plain_library)
      Samples.tool_files "tool.py" = deps.
Proof.
  apply (dependency_extraction_sorted_unique_valid Samples.plain_library
           (fun s => reverse (elements s)) Samples.tool_files "tool.py").
  - exact enumerates_elements.
  - exact enumerates_reverse.
Defined.

Example sample_extraction :
  extract_dependencies_from_file Samples.plain_library Samples.tool_files "tool.py"
  = ["opencv-python"; "requests"].
Proof. by vm_compute. Qed.

End DependencyFacts.

(** ** The sandbox manager and the orchestrator *)

Section PipelineFacts.
Import PyStr Py Pipeline.


Lemma remove_with_retries_journal raises root attempt remaining m :
  ∃ evs, journal (remove_with_retries raises root attempt remaining m) = journal m ++ evs
         ∧ forallb housekeeping evs = true.
Proof.
  revert attempt m. induction remaining as [|n IH]; intros attempt m; simpl.
  - exists []. by rewrite app_nil_r.
  - destruct (raises attempt) as [c|]; [|eexists [_]; simpl; by split].
    destruct c; try (eexists [_]; simpl; by split).
    destruct (attempt <? 2)%nat;
      match goal with
      | |- context [remove_with_retries raises root (S attempt) n ?m'] =>
          destruct (IH (S attempt) m') as (evs & -> & Hevs)
      end;
      eexists (_ :: _ :: evs); simpl; rewrite <- !app_assoc; simpl; by split.
Qed.

Lemma cleanup_with_journal raises root m :
  ∃ evs, journal (cleanup_with raises root m) = journal m ++ CleanupCalled root :: evs
         ∧ forallb housekeeping evs = true.
Proof.
  unfold cleanup_with.
  destruct (is_empty root || _).
  - exists []. by simpl.
  - edestruct remove_with_retries_journal as (evs & -> & Hevs).
    exists evs. simpl. by rewrite <- app_assoc.
Qed.

Lemma cleanup_environment_journal w root m :
  ∃ evs, journal (cleanup_environment w root m) = journal m ++ CleanupCalled root :: evs
         ∧ forallb housekeeping evs = true.
Proof. apply cleanup_with_journal. Qed.

Lemma rmtree_gone root (X : gset string) : root ∉ rmtree root X.
Proof.
  unfold rmtree. intros [H _]%elem_of_filter. unfold inside in H.
  by rewrite String.eqb_refl in H.
Qed.

(** Once the retries are over, the directory is gone or its removal is
    registered, unless [shutil.rmtree] raised an exception that is no
    [OSError]. *)
Lemma remove_with_retries_outcome raises root m :
  let m' := remove_with_retries raises root 0 max_attempts m in
  root ∉ disk m' ∨ root ∈ atexit m'
  ∨ ∃ attempt c, raises attempt = Some c ∧ c ≠ OSError.
Proof.
  assert (Hstop : ∀ attempt c, raises attempt = Some c →
                  c = OSError ∨ ∃ attempt c, raises attempt = Some c ∧ c ≠ OSError).
  { intros attempt c H. destruct (decide (c = OSError)) as [->|Hc]; [by left|].
    right. by exists attempt, c. }
  cbv zeta. unfold max_attempts. cbn [remove_with_retries].
  destruct (raises 0%nat) as [c0|] eqn:H0; [|left; apply rmtree_gone].
  destruct (Hstop _ _ H0) as [->|?]; [|by right; right].
  cbn. destruct (raises 1%nat) as [c1|] eqn:H1; [|left; apply rmtree_gone].
  destruct (Hstop _ _ H1) as [->|?]; [|by right; right].
  cbn. destruct (raises 2%nat) as [c2|] eqn:H2; [|left; apply rmtree_gone].
  destruct (Hstop _ _ H2) as [->|?]; [|by right; right].
  cbn. right. left. apply elem_of_app. right. apply list_elem_of_here.
Qed.

Lemma cleanup_with_outcome raises root m :
  let m' := cleanup_with raises root m in
  root ≠ "" →
  root ∉ disk m' ∨ root ∈ atexit m'
  ∨ ∃ attempt c, raises attempt = Some c ∧ c ≠ OSError.
Proof.
  cbv zeta. intros Hne. unfold cleanup_with. cbv zeta.
  destruct (is_empty root) eqn:He; [by destruct root|].
  cbn [orb]. destruct (bool_decide _) eqn:Hd; cbn [negb].
  - apply remove_with_retries_outcome.
  - left. by apply bool_decide_eq_false in Hd.
Qed.

Lemma cleanup_environment_outcome w root m :
  let m' := cleanup_environment w root m in
  root ≠ "" →
  root ∉ disk m' ∨ root ∈ atexit m'
  ∨ ∃ attempt e, rmtree_raises w root attempt = Some e ∧ exn_cls e ≠ OSError.
Proof.
  cbv zeta. intros Hne.
  destruct (cleanup_with_outcome
              (fun attempt => exn_cls <$> rmtree_raises w root attempt) root m Hne)
    as [H|[H|(attempt & c & H & Hc)]]; [by left|by right; left|].
  right. right. destruct (rmtree_raises w root attempt) as [e|] eqn:He; [|done].
  injection H as <-. by exists attempt, e.
Qed.

Lemma cleanup_new_environment_outcome w root m :
  let m' := cleanup_new_environment w root m in
  root ≠ "" → root ∉ disk m' ∨ root ∈ atexit m'.
Proof.
  cbv zeta. intros Hne.
  destruct (cleanup_with_outcome
              (fun attempt => if rmtree_fails w root attempt then Some OSError else None)
              root m Hne)
    as [H|[H|(attempt & c & H & Hc)]]; [by left|by right|].
  destruct (rmtree_fails w root attempt); congruence.
Qed.

Lemma housekeeping_quiet evs : forallb housekeeping evs = true → quiet evs.
Proof.
  unfold quiet. rewrite !forallb_forall. intros H e He. by rewrite (H e He).
Qed.

Lemma quiet_not_created evs root : quiet evs → Created root ∉ evs.
Proof.
  unfold quiet. intros H Hin. apply list_elem_of_In in Hin.
  rewrite forallb_forall in H. by apply H in Hin.
Qed.

Lemma quiet_app evs1 evs2 : quiet evs1 → quiet evs2 → quiet (evs1 ++ evs2).
Proof. unfold quiet. rewrite forallb_app. by intros -> ->. Qed.

Lemma path_join_nonempty dir name : path_join dir name ≠ "".
Proof. unfold path_join. by destruct dir. Qed.

Lemma create_isolated_environment_cases w tool_name m :
  match create_isolated_environment w tool_name m with
  | (Ok env_info, m') =>
      temp_base_dir env_info ≠ "" ∧ temp_base_dir env_info ∈ disk m'
      ∧ journal m' = journal m ++ [Created (temp_base_dir env_info)]
      ∧ atexit m' = atexit m
  | (Raise _, m') => ∃ evs, journal m' = journal m ++ evs ∧ forallb housekeeping evs = true
  end.
Proof.
  unfold create_isolated_environment.
  destruct (mkdtemp_error w).
  { exists []. by rewrite app_nil_r. }
  cbv zeta.
  match goal with |- context [match ?b with Ok _ => _ | Raise _ => _ end] => destruct b as [env|e] eqn:Hb end.
  - repeat match type of Hb with
      | mbind _ ?x = Ok _ => destruct x; cbn [mbind pyresult_bind] in Hb; [|done]
      end.
    injection Hb as <-. cbn. split; [apply path_join_nonempty|]. split; [|done].
    apply elem_of_union. right. by apply elem_of_singleton.
  - unfold cleanup_new_environment.
    edestruct cleanup_with_journal as (evs & -> & Hq).
    eexists (_ :: evs). by split.
Qed.

Lemma install_each_frame w deps acc m :
  let m' := (install_each w deps acc m).2 in
  disk m' = disk m ∧ atexit m' = atexit m ∧ ∃ evs, journal m' = journal m ++ evs ∧ quiet evs.
Proof.
  revert acc m. induction deps as [|package rest IH]; intros acc m; cbv zeta.
  - cbn. split; [done|]. split; [done|]. exists []. by rewrite app_nil_r.
  - cbn [install_each]. destruct acc as [[installed failed] errors]. cbv zeta.
    match goal with |- context [install_each w rest ?a ?m1] =>
      destruct (IH a m1) as (Hd & Ha & evs & Hj & Hq) end.
    rewrite Hd, Ha, Hj. cbn. split; [done|]. split; [done|].
    exists (PipInstall package :: evs). rewrite <- app_assoc. by split.
Qed.

Lemma run_in_environment_frame w tool_name vr env m :
  let m' := (run_in_environment w tool_name vr env m).2 in
  disk m' = disk m ∧ atexit m' = atexit m ∧ ∃ evs, journal m' = journal m ++ evs ∧ quiet evs.
Proof.
  cbv zeta. unfold run_in_environment.
  assert (Hrefl : disk m = disk m ∧ atexit m = atexit m
                  ∧ ∃ evs, journal m = journal m ++ evs ∧ quiet evs).
  { split; [done|]. split; [done|]. exists []. by rewrite app_nil_r. }
  destruct (setup_blueprint w env) as [ok msg].
  destruct ok; cbn [negb]; [|exact Hrefl].
  destruct (negb (py_eq _ _)); [exact Hrefl|].
  destruct (text_of _) as [path|e]; [|exact Hrefl].
  cbv zeta.
  set (deps := DependencyParser.extract_dependencies_from_file _ _ _).
  destruct deps as [|d deps'].
  - cbn. repeat case_match; cbn; (split; [done|]; split; [done|]);
      exists [Extracted path []; Launched path]; rewrite <- app_assoc; by split.
  - unfold _install_dependencies.
    pose proof (install_each_frame w (d :: deps') ([], [], []) (emit (Extracted path (d :: deps')) m)) as H.
    cbv zeta in H.
    destruct (install_each w (d :: deps') ([], [], []) (emit (Extracted path (d :: deps')) m))
      as [[[installed failed] errors] m1].
    cbn [snd] in H. destruct H as (Hd & Ha & evs & Hj & Hq).
    cbn in Hd, Ha, Hj.
    repeat case_match; cbn; rewrite ?Hd, ?Ha, ?Hj; (split; [done|]; split; [done|]).
    all: first [ exists (Extracted path (d :: deps') :: evs); rewrite <- ?app_assoc; by split
               | exists (Extracted path (d :: deps') :: evs ++ [Launched path]);
                 rewrite <- ?app_assoc; cbn; split; [done|];
                 apply (quiet_app [_]); [done|]; apply quiet_app; done ].
Qed.

Lemma before_environment_cases w tool_name user_input m :
  match before_environment w tool_name user_input m with
  | (Ok (inr (_, env_info)), m') =>
      temp_base_dir env_info ≠ "" ∧ temp_base_dir env_info ∈ disk m'
      ∧ journal m' = journal m ++ [Created (temp_base_dir env_info)]
      ∧ atexit m' = atexit m
  | (_, m') => ∃ evs, journal m' = journal m ++ evs ∧ forallb housekeeping evs = true
  end.
Proof.
  assert (Hrefl : ∃ evs, journal m = journal m ++ evs ∧ forallb housekeeping evs = true).
  { exists []. by rewrite app_nil_r. }
  unfold before_environment.
  destruct (get_tool_details w tool_name) as [details|e]; [|done].
  destruct (negb (truthy details)); [done|].
  destruct (mbind _ _) as [schema|e]; [|done].
  destruct (negb _); [done|].
  pose proof (create_isolated_environment_cases w tool_name m) as H.
  by destruct (create_isolated_environment w tool_name m) as [[env|e] m'].
Qed.

Lemma created_root w tool_name user_input m root :
  journal m = [] →
  Created root ∈ journal (execute_tool w tool_name user_input m).2 →
  ∃ vr env m1 outcome m2,
    before_environment w tool_name user_input m = (Ok (inr (vr, env)), m1)
    ∧ run_in_environment w tool_name vr env m1 = (outcome, m2)
    ∧ (execute_tool w tool_name user_input m).2 = cleanup_environment w root m2
    ∧ root = temp_base_dir env ∧ root ≠ "" ∧ root ∈ disk m2
    ∧ atexit m2 = atexit m
    ∧ ∃ evs, journal m2 = Created root :: evs ∧ quiet evs.
Proof.
  intros Hm. unfold execute_tool.
  pose proof (before_environment_cases w tool_name user_input m) as Hb.
  rewrite Hm in Hb.
  destruct (before_environment w tool_name user_input m)
    as [[[response|[vr env]]|e] m1] eqn:Hbe.
  - destruct Hb as (evs & E & Hq%housekeeping_quiet). cbn [snd]. rewrite E. cbn. intros Hin.
    by apply quiet_not_created in Hin.
  - destruct Hb as (Hne & Hdisk & Hj & Hx).
    pose proof (run_in_environment_frame w tool_name vr env m1) as Hr. cbv zeta in Hr.
    destruct (run_in_environment w tool_name vr env m1) as [outcome m2] eqn:Hrun.
    cbn [snd] in *. destruct Hr as (Hd & Ha & evs & Hj2 & Hq).
    destruct (cleanup_environment_journal w (temp_base_dir env) m2)
      as (evs' & Hj3 & Hq'%housekeeping_quiet).
    rewrite Hj3, Hj2, Hj. cbn. intros Hin.
    assert (root = temp_base_dir env) as ->.
    { apply elem_of_cons in Hin as [Hin|Hin]; [by injection Hin|].
      apply elem_of_app in Hin as [Hin|Hin]; [by apply quiet_not_created in Hin|].
      apply elem_of_cons in Hin as [Hin|Hin]; [done|].
      by apply quiet_not_created in Hin. }
    exists vr, env, m1, outcome, m2.
    split; [reflexivity|]. split; [exact Hrun|]. split; [reflexivity|].
    split; [reflexivity|]. split; [exact Hne|].
    split; [by rewrite Hd|]. split; [by rewrite Ha|].
    exists evs. by rewrite Hj2, Hj.
  - destruct Hb as (evs & E & Hq%housekeeping_quiet). cbn [snd]. rewrite E. cbn. intros Hin.
    by apply quiet_not_created in Hin.
Qed.

(** For every call of [execute_tool] in which a sandbox was created,
    whatever the exit path (success envelope, error envelope or unexpected
    exception), [cleanup_environment] is called on the root of that sandbox
    after its creation and before the response is returned; afterwards the
    directory is no longer on disk, or its removal is registered with
    [atexit], unless [shutil.rmtree] raised an exception that is no
    [OSError]. *)
Lemma cleanup_called_on_every_exit (w : world) (tool_name : string) (user_input : pyval)
    (m : machine) (root : string) :
  journal m = [] →
  let m' := (execute_tool w tool_name user_input m).2 in
  Created root ∈ journal m' →
  (∃ before after,
      journal m' = before ++ Created root :: after ∧ CleanupCalled root ∈ after)
  ∧ (root ∉ disk m' ∨ root ∈ atexit m'
     ∨ ∃ attempt e, rmtree_raises w root attempt = Some e ∧ exn_cls e ≠ OSError).
Proof.
  intros Hm. cbv zeta. intros Hin.
  destruct (created_root w tool_name user_input m root Hm Hin)
    as (vr & env & m1 & outcome & m2 & _ & _ & -> & _ & Hne & _ & _ & evs & Hj & _).
  split; [|by apply cleanup_environment_outcome].
  destruct (cleanup_environment_journal w root m2) as (evs' & -> & _).
  rewrite Hj. exists [], (evs ++ CleanupCalled root :: evs'). split; [done|].
  apply elem_of_app. right. apply list_elem_of_here.
Qed.

Lemma remove_with_retries_aborts raises root attempt remaining m c :
  raises attempt = Some c → c ≠ OSError →
  remove_with_retries raises root attempt (S remaining) m = emit (CleanupAborted root) m.
Proof. intros H Hc. cbn [remove_with_retries]. rewrite H. by destruct c. Qed.

Lemma cleanup_with_aborts raises root m c :
  root ≠ "" → root ∈ disk m →
  raises 0%nat = Some c → c ≠ OSError →
  cleanup_with raises root m
  = Machine (disk m) (delete root (active_environments m)) (atexit m)
            (journal m ++ [CleanupCalled root; CleanupAborted root]).
Proof.
  intros Hne Hin Hr Hc. unfold cleanup_with. cbv zeta.
  assert (is_empty root = false) as -> by by destruct root.
  cbn [orb emit disk]. rewrite bool_decide_eq_true_2 by done. cbn [negb].
  change max_attempts with (S 2).
  rewrite (remove_with_retries_aborts raises root 0 2 _ c Hr Hc).
  unfold emit. cbn [disk active_environments atexit journal].
  by rewrite <- app_assoc.
Qed.

Lemma cleanup_environment_aborts w root m e :
  root ≠ "" → root ∈ disk m →
  rmtree_raises w root 0 = Some e → exn_cls e ≠ OSError →
  cleanup_environment w root m
  = Machine (disk m) (delete root (active_environments m)) (atexit m)
            (journal m ++ [CleanupCalled root; CleanupAborted root]).
Proof.
  intros Hne Hin Hr Hc. unfold cleanup_environment.
  apply (cleanup_with_aborts _ root m (exn_cls e)); [done|done| |done].
  by rewrite Hr.
Qed.

(** C2.  [cleanup_environment] is called on every exit path, yet the
    sandbox can stay behind with no removal registered: when
    [shutil.rmtree] raises an exception that is no [OSError], as it does
    with [RecursionError] on a tree that the tool made too deep, the
    [except Exception] of [cleanup_environment] logs it and returns.  For
    every call of [execute_tool] that created a sandbox on whose root the
    first [rmtree] raises such an exception, the cleanup is called after
    the creation and gives up, and when the response is returned the
    directory is still on disk, no longer tracked, and no removal is
    registered with [atexit]. *)
Theorem cleanup_abort_leaves_sandbox (w : world) (tool_name : string) (user_input : pyval)
    (m : machine) (root : string) (e : exn) :
  journal m = [] → atexit m = [] →
  let m' := (execute_tool w tool_name user_input m).2 in
  Created root ∈ journal m' →
  rmtree_raises w root 0 = Some e → exn_cls e ≠ OSError →
  (∃ steps, journal m'
            = Created root :: steps ++ [CleanupCalled root; CleanupAborted root]
            ∧ quiet steps)
  ∧ root ∈ disk m'
  ∧ atexit m' = []
  ∧ active_environments m' !! root = None.
Proof.
  intros Hm Hx. cbv zeta. intros Hin Hr Hc.
  destruct (created_root w tool_name user_input m root Hm Hin)
    as (vr & env & m1 & outcome & m2 & _ & _ & -> & _ & Hne & Hdisk & Ha & evs & Hj & Hq).
  rewrite (cleanup_environment_aborts w root m2 e Hne Hdisk Hr Hc). cbn.
  split; [exists evs; by rewrite Hj|]. split; [done|]. split; [congruence|].
  apply lookup_delete_eq.
Qed.

Lemma cleanup_abort_leaves_sandbox_witness :
  let m' := (execute_tool Samples.deep_tree_world "NAICSExcelTool" Samples.naics_input
               Samples.empty_machine).2 in
  (∃ steps, journal m'
            = Created Samples.calm_root
              :: steps ++ [CleanupCalled Samples.calm_root; CleanupAborted Samples.calm_root]
            ∧ quiet steps)
  ∧ Samples.calm_root ∈ disk m'
  ∧ atexit m' = []
  ∧ active_environments m' !! Samples.calm_root = None.
Proof.
  apply (cleanup_abort_leaves_sandbox Samples.deep_tree_world "NAICSExcelTool"
           Samples.naics_input Samples.empty_machine Samples.calm_root
           (Exn RecursionError "maximum recursion depth exceeded")).
  - reflexivity.
  - reflexivity.
  - vm_compute. apply list_elem_of_here.
  - reflexivity.
  - discriminate.
Defined.

(** *** Step 6 *)

Import DependencyParser.

Lemma extract_dependencies_total lib fs file_path :
  extract_dependencies_from_file lib fs file_path =
  match fs file_path with
  | None => []
  | Some (Raise _) => []
  | Some (Ok content) =>
      match _find_dependencies_variable lib content with
      | Raise _ => []
      | Ok None => []
      | Ok (Some dependencies_raw) => _parse_dependencies lib dependencies_raw
      end
  end.
Proof.
  unfold extract_dependencies_from_file, extract_dependencies_body.
  destruct (fs file_path) as [[content|e]|]; [|done..]. cbn.
  by destruct (_find_dependencies_variable lib content) as [[raw|]|e].
Qed.

Lemma not_in_housekeeping e evs :
  forallb housekeeping evs = true → housekeeping e = false → e ∉ evs.
Proof.
  rewrite forallb_forall. intros H He Hin. apply list_elem_of_In in Hin.
  apply H in Hin. congruence.
Qed.

(** *** The launch timeout *)

(** C8.  The child that runs the launcher script is given a timeout of
    30000 seconds, not 300: a child that runs for 301 seconds is not
    reported as a timeout, one that runs for 30001 seconds is, and a child
    that prints an empty object after 301 seconds succeeds. *)
Theorem launch_timeout_is_30000 (w : world) (code : Z) (out err : string) :
  launch_timeout = 30000
  ∧ dict_get "message" (_execute_tool_in_environment (launching w (Process 301 code out err)))
    ≠ Some (VStr "Tool execution timeout (5 minutes)")
  ∧ _execute_tool_in_environment (launching w (Process 30001 code out err))
    = execution_timeout
  ∧ _execute_tool_in_environment (launching Samples.calm_world (Process 301 0 "{}" ""))
    = [ ("status", VStr "success"); ("result", VDict []);
        ("stdout", VStr "{}"); ("execution_time", VStr "completed") ].
Proof.
  split; [done|]. split; [|split; [done|by vm_compute]].
  unfold _execute_tool_in_environment. cbn [launching write_script tool_process].
  unfold subprocess_run. cbn [mbind pyresult_bind duration].
  change (launch_timeout <? 301) with false. cbn iota.
  destruct (negb (returncode _ =? 0)); [by cbn|].
  cbv zeta.
  destruct (mbind _ _) as [json|e]; [by cbn|].
  destruct (exn_cls e); by cbn.
Qed.

End PipelineFacts.

(** ** The artifact fetcher *)

Section DownloaderFacts.
Import PyStr Py GitHubDownloader.


(** C9, at a concrete repository: one available name is similar to the
    requested one, it is logged, and the returned result holds the status
    and the message only, neither of which mentions it. *)
Lemma not_found_result_has_no_suggestions :
  suggestions "naics" ["NAICSExcelTool.py"; "README.md"] = ["NAICSExcelTool"]
  ∧ download_tool_from_github Samples.one_tool_repository "naics" "/tmp/sandbox/tools"
    = (error_result "Tool 'naics.py' not found in repository!",
       [DidYouMean; Suggestion "NAICSExcelTool"])
  ∧ mentions "NAICSExcelTool" (error_result "Tool 'naics.py' not found in repository!")
    = false.
Proof. by vm_compute. Qed.

(** C9, amended.  When the artifact is absent from [Tools/] (the fetch
    raises with [404] in its message), the result is the error with the
    not-found message, and the suggestions (the available names in a
    substring relation with the requested name, lower-cased, at most five)
    are written to the log. *)
Theorem not_found_suggestions_are_logged (repo : repository)
    (tool_name target_dir : string) (e : exn) (all_files : list string) :
  connect repo = None →
  make_target_dir repo target_dir = None →
  get_contents repo (tools_folder +:+ "/" +:+ tool_name +:+ ".py") = Raise e →
  contains "404" (exn_msg e) = true →
  list_folder repo tools_folder = Ok all_files →
  download_tool_from_github repo tool_name target_dir
  = (error_result ("Tool '" +:+ tool_name +:+ ".py' not found in repository!"),
     match suggestions tool_name all_files with
     | [] => []
     | names => DidYouMean :: map Suggestion names
     end)
  ∧ (length (suggestions tool_name all_files) ≤ 5)%nat
  ∧ ∀ t, t ∈ suggestions tool_name all_files →
         t ∈ available_tools all_files
         ∧ (contains (lower tool_name) (lower t) = true
            ∨ contains (lower t) (lower tool_name) = true).
Proof.
  intros Hc Hm Hg H404 Hl. split; [|split].
  - unfold download_tool_from_github. rewrite Hc, Hm, Hg. cbn [mbind pyresult_bind].
    rewrite H404. unfold suggest, suggestions. rewrite Hl.
    by destruct (similar_tools tool_name (available_tools all_files)).
  - unfold suggestions. rewrite length_take. lia.
  - intros t Ht. unfold suggestions in Ht.
    apply (subseteq_take 5) in Ht.
    apply list_elem_of_filter in Ht as [Ht Hin]. split; [done|].
    by apply orb_true_iff in Ht.
Qed.

Lemma not_found_suggestions_are_logged_witness :
  download_tool_from_github Samples.one_tool_repository "naics" "/tmp/sandbox/tools"
  = (error_result ("Tool '" +:+ "naics" +:+ ".py' not found in repository!"),
     match suggestions "naics" ["NAICSExcelTool.py"; "README.md"] with
     | [] => []
     | names => DidYouMean :: map Suggestion names
     end)
  ∧ (length (suggestions "naics" ["NAICSExcelTool.py"; "README.md"]) ≤ 5)%nat
  ∧ ∀ t, t ∈ suggestions "naics" ["NAICSExcelTool.py"; "README.md"] →
         t ∈ available_tools ["NAICSExcelTool.py"; "README.md"]
         ∧ (contains (lower "naics") (lower t) = true
            ∨ contains (lower t) (lower "naics") = true).
Proof.
  apply (not_found_suggestions_are_logged Samples.one_tool_repository "naics"
           "/tmp/sandbox/tools" (Exn PlainException "404 Not Found")); reflexivity.
Defined.

End DownloaderFacts.

(** ** The schema validator *)

Section ValidatorFacts.
Import PyStr Py SchemaValidator.

Example naics_code_is_converted (rt : runtime) :
  validate_input rt (VDict [("naics_code", VInt 541511)]) Samples.naics_schema
  = ValidationResult true (VDict [("naics_code", VStr "541511")]) [] [].
Proof. by vm_compute. Qed.

Example union_example (rt : runtime) :
  validate_input rt (VDict [("id", VStr "abc")]) Samples.id_schema
  = ValidationResult true (VDict [("id", VStr "abc")]) []
      ["Field 'id' validated as string"].
Proof. by vm_compute. Qed.

(** *** Checks leave the value and the warnings alone *)

Lemma gentle_skip : gentle skip.
Proof. intros r. by left. Qed.

Lemma gentle_fail_if cond msg : gentle (fail_if cond msg).
Proof. intros r. unfold fail_if. destruct cond as [[]|]; cbn; auto. Qed.

Lemma gentle_when_key schema key body :
  (∀ bound, gentle (body bound)) → gentle (when_key schema key body).
Proof.
  intros H r. unfold when_key. destruct (dict_get key schema); [apply H|by left].
Qed.

Lemma gentle_and_then c1 c2 : gentle c1 → gentle c2 → gentle (and_then c1 c2).
Proof.
  intros H1 H2 r. unfold and_then. specialize (H1 r).
  destruct (c1 r) as [r1 [e|]]; cbn in *; [done|].
  specialize (H2 r1). destruct H1 as [->|(Hv & Hval & Hw)]; [done|].
  destruct H2 as [->|(Hv2 & Hval2 & Hw2)]; right; [done|].
  split; [done|]. split; congruence.
Qed.

Lemma gentle_if (b : bool) c1 c2 : gentle c1 → gentle c2 → gentle (if b then c1 else c2).
Proof. by destruct b. Qed.

Create HintDb gentle.
#[local] Hint Resolve gentle_skip gentle_fail_if gentle_when_key gentle_and_then gentle_if
  : gentle.

Lemma gentle_validate_constraints rt field_name v field_schema :
  gentle (_validate_constraints rt field_name v field_schema).
Proof.
  unfold _validate_constraints. destruct v; auto 20 with gentle.
Qed.

Lemma constraints_outcome rt field_name v field_schema :
  (_validate_constraints rt field_name v field_schema (FieldResult true v [] [])).2 = None →
  if passes_constraints rt field_name v field_schema
  then _validate_constraints rt field_name v field_schema (FieldResult true v [] [])
       = (FieldResult true v [] [], None)
  else ∃ errs, _validate_constraints rt field_name v field_schema (FieldResult true v [] [])
               = (FieldResult false v errs [], None).
Proof.
  intros Hn. unfold passes_constraints.
  pose proof (gentle_validate_constraints rt field_name v field_schema
                (FieldResult true v [] [])) as H.
  destruct (_validate_constraints _ _ _ _ _) as [r exn]. cbn in *. subst exn.
  destruct H as [->|(Hv & Hval & Hw)]; [done|].
  rewrite Hv. exists (errors r). destruct r; cbn in *. by subst.
Qed.

Section Union.
Context (rt : runtime) (field_name : string) (value : pyval) (field_schema : dict).
Context (Hvalue : value ≠ VNone).

Lemma union_loop_spec (union : list pyval) (previous : pyval) (failures : list string) :
  (∀ t e, t ∈ union → _convert_type rt value t = Raise e → catchable e = true) →
  (∀ t v, t ∈ union → _convert_type rt value t = Ok v →
     (_validate_constraints rt field_name v (dict_set "type" t field_schema)
        (FieldResult true v [] [])).2 = None) →
  match first_match rt field_name value field_schema union with
  | Some (t, v) =>
      ∃ failures',
        union_loop rt field_name value field_schema union
          (UnionState (FieldResult true previous [] []) false failures)
        = inl (UnionState
                 (FieldResult true v []
                    ["Field '" +:+ field_name +:+ "' validated as " +:+ py_str rt t])
                 true failures')
  | None =>
      ∃ last more,
        length more = length union
        ∧ union_loop rt field_name value field_schema union
            (UnionState (FieldResult true previous [] []) false failures)
          = inl (UnionState (FieldResult true last [] []) false (failures ++ more))
  end.
Proof.
  revert previous failures.
  induction union as [|t rest IH]; intros previous failures H1 H2.
  { cbn. exists previous, []. by rewrite app_nil_r. }
  assert (H1' : ∀ t e, t ∈ rest → _convert_type rt value t = Raise e → catchable e = true).
  { intros t' e Hin. apply H1. by apply elem_of_cons; right. }
  assert (H2' : ∀ t v, t ∈ rest → _convert_type rt value t = Ok v →
     (_validate_constraints rt field_name v (dict_set "type" t field_schema)
        (FieldResult true v [] [])).2 = None).
  { intros t' v Hin. apply H2. by apply elem_of_cons; right. }
  cbn [first_match union_loop]. unfold union_step. cbn [u_result conversion_errors].
  destruct (_convert_type rt value t) as [v|e] eqn:Hc.
  - assert (Hconv : match value with
                    | VNone => Ok (FieldResult true previous [] [])
                    | _ => converted_value ← Ok v;
                           Ok (set_value converted_value (FieldResult true previous [] []))
                    end = Ok (FieldResult true v [] [])).
    { by destruct value. }
    rewrite Hconv. cbn [SchemaValidator.value].
    pose proof (constraints_outcome rt field_name v (dict_set "type" t field_schema)
                  (H2 t v ltac:(by apply elem_of_cons; left) Hc)) as Ho.
    destruct (passes_constraints rt field_name v (dict_set "type" t field_schema)).
    + rewrite Ho. cbn -[String.append]. by eexists.
    + destruct Ho as (errs & ->). cbn -[String.append].
      specialize (IH v (failures ++
        ["Type " +:+ py_str rt t +:+ " failed constraints: " +:+ str_of_list rt errs])
        H1' H2').
      destruct (first_match rt field_name value field_schema rest) as [[t' v']|].
      * exact IH.
      * destruct IH as (last & more & Hlen & E).
        exists last, (("Type " +:+ py_str rt t +:+ " failed constraints: "
                       +:+ str_of_list rt errs) :: more).
        split; [by cbn; rewrite Hlen|]. rewrite <- app_assoc in E. exact E.
  - assert (Hconv : match value with
                    | VNone => Ok (FieldResult true previous [] [])
                    | _ => converted_value ← Raise e;
                           Ok (set_value converted_value (FieldResult true previous [] []))
                    end = Raise e).
    { by destruct value. }
    rewrite Hconv.
    rewrite (H1 t e ltac:(by apply elem_of_cons; left) Hc).
    specialize (IH previous (failures ++
      ["Cannot convert to " +:+ py_str rt t +:+ ": " +:+ exn_msg e]) H1' H2').
    destruct (first_match rt field_name value field_schema rest) as [[t' v']|].
    + exact IH.
    + destruct IH as (last & more & Hlen & E).
      exists last, (("Cannot convert to " +:+ py_str rt t +:+ ": " +:+ exn_msg e) :: more).
      split; [by cbn; rewrite Hlen|]. rewrite <- app_assoc in E. exact E.
Qed.

End Union.

(** The union rule where no exception interferes.  For a field whose
    declared type is a union and a value other than [None], provided that
    no candidate's coercion raises an exception other than [ValueError] or
    [TypeError] and that no candidate's constraint check raises: the
    candidates are tried in declaration order and the first whose coercion
    succeeds and whose constraints all pass is accepted, with its coerced
    value and one warning that names it; if every candidate fails, the
    field is invalid with a single aggregate error that lists one failure
    per candidate. *)
Lemma union_first_match (rt : runtime) (field_name : string) (value : pyval)
    (schema_entries : dict) (union : list pyval) (field_path : string) :
  value ≠ VNone →
  dict_get "type" schema_entries = Some (VList union) →
  (∀ t e, t ∈ union → _convert_type rt value t = Raise e → catchable e = true) →
  (∀ t v, t ∈ union → _convert_type rt value t = Ok v →
     (_validate_constraints rt field_name v (dict_set "type" t schema_entries)
        (FieldResult true v [] [])).2 = None) →
  match first_match rt field_name value schema_entries union with
  | Some (t, v) =>
      _validate_field_recursive rt field_name value (VDict schema_entries) field_path
      = FieldResult true v []
          ["Field '" +:+ field_name +:+ "' validated as " +:+ py_str rt t]
  | None =>
      ∃ last failures,
        length failures = length union
        ∧ _validate_field_recursive rt field_name value (VDict schema_entries) field_path
          = FieldResult false last
              [aggregate_error rt field_name value union failures] []
  end.
Proof.
  intros Hv Ht H1 H2.
  assert (E : _validate_field_recursive rt field_name value (VDict schema_entries) field_path
              = validate_union rt field_name value schema_entries union field_path
                  (FieldResult true value [] [])).
  { destruct value; cbn; by rewrite Ht. }
  rewrite E. unfold validate_union.
  pose proof (union_loop_spec rt field_name value schema_entries Hv union value [] H1 H2) as H.
  destruct (first_match rt field_name value schema_entries union) as [[t v]|].
  - by destruct H as (failures' & ->).
  - destruct H as (last & more & Hlen & ->). cbn. by exists last, more.
Qed.

Lemma union_first_match_witness :
  _validate_field_recursive Samples.plain_runtime "id" (VStr "abc") (VDict Samples.id_field) "id"
  = FieldResult true (VStr "abc") [] ["Field 'id' validated as string"].
Proof.
  apply (union_first_match Samples.plain_runtime "id" (VStr "abc") Samples.id_field Samples.id_union "id").
  - discriminate.
  - reflexivity.
  - intros t e Hin Hc.
    apply elem_of_cons in Hin as [->|Hin]; [vm_compute in Hc; by injection Hc as <-|].
    apply elem_of_cons in Hin as [->|Hin]; [vm_compute in Hc; discriminate|].
    by apply elem_of_nil in Hin.
  - intros t v Hin Hc.
    apply elem_of_cons in Hin as [->|Hin]; [vm_compute in Hc; discriminate|].
    apply elem_of_cons in Hin as [->|Hin]; [vm_compute in Hc; by injection Hc as <-|].
    by apply elem_of_nil in Hin.
Defined.

(** C3.  The union loop does not try each type until one works: it
    catches [ValueError] and [TypeError] only, and the [OverflowError] that
    [int] raises on an infinite float leaves it.  At the union [integer,
    string] of scenario 4 and the value infinity (the JSON number 1e400),
    the first candidate that converts and passes its constraints is
    [string], with the text of the float as value, yet the field is
    invalid with the message of the integer coercion, and the whole
    validation fails with it. *)
Theorem union_stops_at_overflow (rt : runtime) :
  first_match rt "id" (VFloat infinity) Samples.id_field Samples.id_union
  = Some (VStr "string", VStr (float_repr rt infinity))
  ∧ _validate_field_recursive rt "id" (VFloat infinity) (VDict Samples.id_field) "id"
    = FieldResult false (VFloat infinity)
        ["Field 'id': cannot convert float infinity to integer"] []
  ∧ validate_input rt (VDict [("id", VFloat infinity)]) Samples.id_schema
    = ValidationResult false (VDict [])
        ["Field 'id': cannot convert float infinity to integer"] [].
Proof. split; [|split]; by vm_compute. Qed.

(** *** The wrapper round trip *)

Lemma typed_not_wrapper v : typed v = true → looks_like_wrapper v = false.
Proof. destruct v; cbn; try done. by intros ->. Qed.

Lemma wrapper_truthy wv : looks_like_wrapper wv = true → truthy wv = true.
Proof.
  destruct wv as [| | | | | |entries]; cbn; try done.
  destruct entries; [|done]. by rewrite andb_false_r.
Qed.

Lemma normalize_inner_schema required wv :
  looks_like_wrapper wv = true →
  _normalize_schema (inner_schema required wv) = Ok (inner_schema required wv).
Proof.
  intros Hw. unfold _normalize_schema, inner_schema. cbn.
  destruct wv as [| | | | | |entries]; try done.
  destruct entries as [|[k' v'] [|]]; try done.
  cbn in Hw. apply andb_true_iff in Hw as [_ Hw]. rewrite orb_false_r in Hw.
  by rewrite (typed_not_wrapper _ Hw).
Qed.

(** The round trip holds whenever the wrapper key is not the empty
    string. *)
Lemma wrapper_round_trip (rt : runtime) (schema : dict) (k : string) (wv x : pyval) :
  dict_get "properties" schema = Some (VDict [(k, wv)]) →
  looks_like_wrapper wv = true →
  k ≠ "" →
  validate_input rt (wrap k x) (VDict schema)
  = rewrap k (validate_input rt x
                (inner_schema (default (VList []) (dict_get "required" schema)) wv)).
Proof.
  intros Hp Hw Hk.
  set (required := default (VList []) (dict_get "required" schema)).
  assert (Hn : _normalize_schema (VDict schema)
               = Ok (VDict [ ("type", VStr "object"); ("properties", wv);
                             ("required", required); ("_wrapper_key", VStr k) ])).
  { unfold _normalize_schema. cbn. rewrite Hp, Hw. cbn. subst required.
    by destruct (dict_get "required" schema). }
  unfold validate_input, validate_input_body.
  rewrite Hn, (normalize_inner_schema _ _ Hw).
  cbn -[_validate_object_recursive wrap_under].
  assert (Hkt : negb (is_empty k) = true) by by destruct k.
  assert (Hhas : dict_has k [(k, x)] = true).
  { unfold dict_has. cbn. by rewrite String.eqb_refl. }
  rewrite Hkt, ?Hhas, (wrapper_truthy _ Hw).
  cbn -[_validate_object_recursive wrap_under]. rewrite ?Hhas.
  cbn -[_validate_object_recursive wrap_under]. rewrite String.eqb_refl.
  cbn -[_validate_object_recursive wrap_under].
  assert (E : _validate_object_recursive rt x
                (VDict [ ("type", VStr "object"); ("properties", wv);
                         ("required", required); ("_wrapper_key", VStr k) ]) "root"
              = _validate_object_recursive rt x (inner_schema required wv) "root").
  { reflexivity. }
  rewrite E.
  destruct (_validate_object_recursive rt x (inner_schema required wv) "root")
    as [[valid data errs warns]|e]; [|done].
  unfold rewrap. cbn. by destruct valid.
Qed.

(** C4, at a wrapper whose key is the empty string: the schema is
    detected as a wrapper, yet the document is validated unwrapped, so that
    its field stays the string ["5"], whereas validating the inner document
    against the inner schema and wrapping the result gives the integer
    5. *)
Theorem wrapper_round_trip_fails_at_empty_key (rt : runtime) :
  looks_like_wrapper Samples.a_integer = true
  ∧ validate_input rt (wrap "" (VDict [("a", VStr "5")])) Samples.empty_key_schema
    = ValidationResult true (VDict [("", VDict [("a", VStr "5")])]) []
        ["Unknown field 'root.' - will be passed through"]
  ∧ rewrap "" (validate_input rt (VDict [("a", VStr "5")])
                 (inner_schema (VList []) Samples.a_integer))
    = ValidationResult true (VDict [("", VDict [("a", VInt 5)])]) [] [].
Proof. repeat split; by vm_compute. Qed.

End ValidatorFacts.

(** ** The error envelope of a missing field *)

Section EnvelopeFacts.
Import PyStr Py SchemaValidator Pipeline.

(** C1.  For a required field missing from the document, [validate_input]
    returns [valid = false], but the error it records is the text of the
    whole conditional expression, not [Missing required field: f]: at the
    schema of scenario 2 and the empty document the errors are the single
    string [Missing required field: 'root.naics_code' if path != 'root' else
    field].  The pipeline returns the error envelope, whose message starts
    with [Input validation failed] and whose details carry that string
    under [validation_errors]. *)
Theorem missing_required_message (rt : runtime) (path f : string) :
  check_required rt [VStr f] (VDict []) path (ObjectState true [] [] [] None)
  = Ok (ObjectState false []
          ["Missing required field: '" +:+ path +:+ "." +:+ f
           +:+ "' if path != 'root' else field"] [] None)
  ∧ validate_input rt (VDict []) Samples.naics_schema
    = ValidationResult false (VDict []) [Samples.missing_naics] []
  ∧ ("Missing required field: naics_code" ∉ [Samples.missing_naics])
  ∧ (let response :=
       (execute_tool Samples.calm_world "NAICSExcelTool" (VDict []) Samples.empty_machine).1 in
     dict_get "status" response = Some (VStr "error")
     ∧ (∃ rest, dict_get "message" response
                = Some (VStr ("Input validation failed" +:+ rest)))
     ∧ dict_get "details" response
       = Some (VDict [("validation_errors", VList [VStr Samples.missing_naics])])).
Proof.
  split; [reflexivity|]. split; [reflexivity|]. split.
  - intros H. apply list_elem_of_singleton in H. discriminate.
  - cbv zeta. split; [by vm_compute|]. split; [|by vm_compute].
    eexists. vm_compute. reflexivity.
Qed.

End EnvelopeFacts.

(** ** More on the dependency parser *)

Section CleaningFacts.
Import PyStr DependencyParser.

Lemma name_char_classes c :
  is_name_char c = true →
  is_space c = false ∧ is_quote c = false ∧ is_version_op c = false.
Proof.
  destruct c as [b0 b1 b2 b3 b4 b5 b6 b7].
  destruct b0, b1, b2, b3, b4, b5, b6, b7; vm_compute; intuition congruence.
Qed.

Lemma alnum_name_char c : is_ascii_alnum c = true → is_name_char c = true.
Proof. unfold is_name_char. by intros ->. Qed.

Lemma matches_I4_all_chars s : matches_I4 s = true → all_chars is_name_char s = true.
Proof.
  destruct s as [|c r]; [done|]. simpl.
  intros [Hc Hr]%andb_true_iff. by rewrite (alnum_name_char _ Hc), Hr.
Qed.

Lemma lstrip_by_none p s : all_chars (fun c => negb (p c)) s = true → lstrip_by p s = s.
Proof.
  destruct s as [|c r]; [done|]. simpl.
  intros [Hc _]%andb_true_iff. by destruct (p c).
Qed.

Lemma rstrip_by_none p s : all_chars (fun c => negb (p c)) s = true → rstrip_by p s = s.
Proof.
  induction s as [|c r IH]; [done|]. simpl.
  intros [Hc Hr]%andb_true_iff. rewrite (IH Hr).
  destruct (p c); [done|]. by rewrite andb_false_r.
Qed.

Lemma strip_by_none p s : all_chars (fun c => negb (p c)) s = true → strip_by p s = s.
Proof. intros H. unfold strip_by. by rewrite (lstrip_by_none _ _ H), (rstrip_by_none _ _ H). Qed.

Lemma all_chars_impl (p q : ascii → bool) s :
  (∀ c, p c = true → q c = true) → all_chars p s = true → all_chars q s = true.
Proof.
  intros Hpq. induction s as [|c r IH]; [done|]. simpl.
  intros [Hc Hr]%andb_true_iff. by rewrite (Hpq _ Hc), (IH Hr).
Qed.

Lemma strip_version_spec_none s :
  all_chars (fun c => negb (is_version_op c)) s = true → strip_version_spec s = s.
Proof.
  induction s as [|c r IH]; [done|]. simpl.
  intros [Hc Hr]%andb_true_iff. rewrite (IH Hr). by destruct (is_version_op c).
Qed.

(** A name of the accepted format has nothing to strip. *)
Lemma normalise_name s : matches_I4 s = true → normalise s = s.
Proof.
  intros H%matches_I4_all_chars. unfold normalise, strip.
  assert (Hs : all_chars (fun c => negb (is_space c)) s = true).
  { revert H. apply all_chars_impl. intros c Hc. by destruct (name_char_classes c Hc) as (-> & _). }
  assert (Hq : all_chars (fun c => negb (is_quote c)) s = true).
  { revert H. apply all_chars_impl. intros c Hc.
    by destruct (name_char_classes c Hc) as (_ & -> & _). }
  assert (Hv : all_chars (fun c => negb (is_version_op c)) s = true).
  { revert H. apply all_chars_impl. intros c Hc.
    by destruct (name_char_classes c Hc) as (_ & _ & ->). }
  by rewrite (strip_by_none _ _ Hs), (strip_by_none _ _ Hq), (strip_by_none _ _ Hs),
       (strip_version_spec_none _ Hv), (strip_by_none _ _ Hs).
Qed.

Lemma alias_matches_I4 s : matches_I4 s = true → matches_I4 (alias s) = true.
Proof.
  intros H. unfold alias.
  repeat match goal with |- context [String.eqb ?a ?b] => destruct (String.eqb a b) end;
    done.
Qed.

(** X1.  Cleaning a package name is idempotent: the name that
    [_clean_package_name] returns is returned unchanged when it is cleaned
    again. *)
Theorem clean_package_name_idempotent (package_name : string) :
  _clean_package_name (_clean_package_name package_name) = _clean_package_name package_name.
Proof.
  destruct (clean_package_name_cases package_name) as [-> | [HI4 Hkey]]; [done|].
  set (p := _clean_package_name package_name) in *.
  rewrite (clean_package_name_spec p). cbv zeta.
  rewrite (normalise_name _ HI4).
  pose proof (package_mappings_alias p) as Ha. rewrite Hkey in Ha. simpl in Ha.
  by rewrite <- Ha, HI4.
Qed.

Lemma app_cons c a b : String c a +:+ b = String c (a +:+ b).
Proof. reflexivity. Qed.

Lemma app_empty b : EmptyString +:+ b = b.
Proof. reflexivity. Qed.

Lemma string_app_assoc a b c : (a +:+ b) +:+ c = a +:+ (b +:+ c).
Proof. induction a as [|x a IH]; [done|]. by rewrite !app_cons, IH. Qed.

Lemma rstrip_by_app_keep p a c b :
  p c = false → rstrip_by p (a +:+ String c b) = a +:+ String c (rstrip_by p b).
Proof.
  intros Hc. induction a as [|x a IH].
  - rewrite !app_empty. simpl. by rewrite Hc, andb_false_r.
  - rewrite !app_cons. simpl. rewrite IH. by destruct a.
Qed.

Lemma lstrip_by_head p c r : p c = false → lstrip_by p (String c r) = String c r.
Proof. simpl. by intros ->. Qed.

Lemma strip_by_app_keep p x a c b :
  p x = false → p c = false →
  strip_by p (String x a +:+ String c b) = String x a +:+ String c (rstrip_by p b).
Proof.
  intros Hx Hc. unfold strip_by.
  rewrite app_cons, (lstrip_by_head _ _ _ Hx), <- app_cons.
  by apply rstrip_by_app_keep.
Qed.

Lemma rstrip_by_no_char p c s : has_char c s = false → has_char c (rstrip_by p s) = false.
Proof.
  unfold has_char. intros H%negb_false_iff. apply negb_false_iff.
  induction s as [|x r IH]; [done|]. simpl in *.
  apply andb_true_iff in H as [Hx Hr].
  destruct (is_empty (rstrip_by p r) && p x); [done|]. simpl. by rewrite Hx, (IH Hr).
Qed.

Lemma dot_star_eol_no_newline s : has_char newline s = false → dot_star_eol s = Some EmptyString.
Proof.
  unfold has_char. intros H%negb_false_iff.
  induction s as [|x r IH]; [done|]. simpl in *.
  apply andb_true_iff in H as [Hx Hr]. rewrite (IH Hr).
  destruct (Ascii.eqb_spec x newline) as [->|Hne]; [done|]. done.
Qed.

Lemma strip_version_spec_at_operator a c b :
  all_chars (fun c => negb (is_version_op c)) a = true →
  is_version_op c = true → has_char newline b = false →
  strip_version_spec (a +:+ String c b) = a.
Proof.
  intros Ha Hc Hb. induction a as [|x a IH].
  - rewrite app_empty. simpl. by rewrite Hc, (dot_star_eol_no_newline _ Hb).
  - simpl in Ha. apply andb_true_iff in Ha as [Hx Ha].
    rewrite app_cons. simpl. rewrite (IH Ha). by destruct (is_version_op x).
Qed.

Lemma version_op_classes c : is_version_op c = true → is_space c = false ∧ is_quote c = false.
Proof.
  destruct c as [b0 b1 b2 b3 b4 b5 b6 b7].
  destruct b0, b1, b2, b3, b4, b5, b6, b7; vm_compute; intuition congruence.
Qed.

(** X2.  A version specifier is dropped: for a name of the accepted format
    followed by one of [>], [<], [=], [!] and any text without a newline,
    [_clean_package_name] returns the name, passed through the alias
    table. *)
Theorem clean_package_name_drops_version (name : string) (op : ascii) (version : string) :
  matches_I4 name = true →
  is_version_op op = true →
  has_char newline version = false →
  _clean_package_name (name +:+ String op version) = alias name.
Proof.
  intros HI4 Hop Hnl.
  rewrite clean_package_name_spec. cbv zeta.
  assert (Hn : normalise (name +:+ String op version) = name).
  { destruct name as [|x a]; [done|].
    pose proof (matches_I4_all_chars _ HI4) as Hall.
    assert (Hx : is_name_char x = true).
    { simpl in Hall. by apply andb_true_iff in Hall as [? _]. }
    destruct (name_char_classes x Hx) as (Hxs & Hxq & _).
    destruct (version_op_classes op Hop) as (Hos & Hoq).
    unfold normalise, strip.
    rewrite (strip_by_app_keep _ _ _ _ _ Hxs Hos).
    rewrite (strip_by_app_keep _ _ _ _ _ Hxq Hoq).
    rewrite (strip_by_app_keep _ _ _ _ _ Hxs Hos).
    rewrite strip_version_spec_at_operator; [| |done|].
    - apply strip_by_none. revert Hall. apply all_chars_impl.
      intros c Hc. by destruct (name_char_classes c Hc) as (-> & _).
    - revert Hall. apply all_chars_impl.
      intros c Hc. by destruct (name_char_classes c Hc) as (_ & _ & ->).
    - by do 3 apply rstrip_by_no_char. }
  by rewrite Hn, (alias_matches_I4 _ HI4).
Qed.

Lemma clean_package_name_drops_version_witness :
  _clean_package_name "cv2>=4.5, <5" = "opencv-python".
Proof.
  apply (clean_package_name_drops_version "cv2" ">" "=4.5, <5"); reflexivity.
Defined.


(** *** The declared items as a set *)

Lemma elem_of_unique_packages_fold items (acc : gset string) p :
  p ∈ fold_left (fun unique_packages item => unique_packages ∪ _process_dependency_item item)
        items acc
  ↔ p ∈ acc ∨ ∃ item, item ∈ items ∧ p ∈ _process_dependency_item item.
Proof.
  revert acc. induction items as [|item items IH]; intros acc; simpl.
  - split; [by left|]. intros [H | (item & H & _)]; [done|]. by apply elem_of_nil in H.
  - rewrite IH, elem_of_union. split.
    + intros [[H | H] | (item' & Hin & H)]; [by left | right | right].
      * exists item. split; [apply list_elem_of_here | done].
      * exists item'. split; [by apply list_elem_of_further | done].
    + intros [H | (item' & Hin & H)]; [by left; left|].
      apply elem_of_cons in Hin as [-> | Hin]; [by left; right|].
      right. by exists item'.
Qed.

(** X3.  The parsed dependencies depend on the declared items as a set
    only: two declarations with the same items, in any order and with any
    repetitions, give the same list. *)
Theorem parse_dependencies_set_of_items (lib : library) (items1 items2 : list pyobj) :
  (∀ item, item ∈ items1 ↔ item ∈ items2) →
  _parse_dependencies lib (PSeq items1) = _parse_dependencies lib (PSeq items2).
Proof.
  intros Hsame. unfold _parse_dependencies.
  assert (Htruth : truthy (PSeq items1) = truthy (PSeq items2)).
  { destruct items1 as [|x1 r1], items2 as [|x2 r2]; simpl; try done.
    - destruct (Hsame x2) as [_ H]. by apply elem_of_nil in H; [|apply list_elem_of_here].
    - destruct (Hsame x1) as [H _]. by apply elem_of_nil in H; [|apply list_elem_of_here]. }
  rewrite Htruth. destruct (truthy (PSeq items2)); [|done]. cbv zeta.
  assert (Hset : unique_packages_of (PSeq items1) = unique_packages_of (PSeq items2)).
  { apply set_eq. intros p. unfold unique_packages_of.
    rewrite !elem_of_unique_packages_fold.
    split; (intros [H | (item & Hin & H)]; [by left | right; exists item; split; [|done]]);
      by apply Hsame. }
  by rewrite Hset.
Qed.

Lemma parse_dependencies_set_of_items_witness :
  _parse_dependencies Samples.plain_library
    (PSeq [PStr "numpy"; PSeq [PStr "cv2"; PStr "opencv-python"]; PStr "numpy"])
  = _parse_dependencies Samples.plain_library
      (PSeq [PSeq [PStr "cv2"; PStr "opencv-python"]; PStr "numpy"]).
Proof.
  apply parse_dependencies_set_of_items. intros item.
  rewrite !elem_of_cons. pose proof (elem_of_nil item). tauto.
Defined.

(** *** The manual splitter *)

Lemma rstrip_by_fixed p s : ends_with p s = false → rstrip_by p s = s.
Proof.
  induction s as [|c r IH]; [done|]. simpl. intros H.
  destruct r as [|c' r'].
  - simpl. by rewrite H.
  - rewrite (IH H). done.
Qed.

(** Stripping at the right keeps what stripping at the left achieved. *)
Lemma lstrip_rstrip p s : lstrip_by p (rstrip_by p (lstrip_by p s)) = rstrip_by p (lstrip_by p s).
Proof.
  induction s as [|c r IH]; [done|]. simpl.
  destruct (p c) eqn:Hc; [done|]. simpl.
  rewrite Hc, andb_false_r. simpl. by rewrite Hc.
Qed.

Lemma strip_by_stable p s : strip_by p (strip_by p s) = strip_by p s.
Proof.
  unfold strip_by. rewrite lstrip_rstrip.
  apply rstrip_by_fixed, rstrip_by_no_trailing.
Qed.

Lemma collected_trimmed (deps : list string) item :
  Forall trimmed deps →
  Forall trimmed (if is_empty (strip item) then deps else deps ++ [strip item]).
Proof.
  intros H. destruct (is_empty (strip item)) eqn:He; [done|].
  apply Forall_app. split; [done|]. apply Forall_singleton.
  split; [done|]. apply strip_by_stable.
Qed.

Lemma split_step_trimmed st char :
  Forall trimmed (dependencies st) → Forall trimmed (dependencies (split_step st char)).
Proof.
  intros H. unfold split_step, push_char.
  repeat match goal with
         | |- context [if ?b then _ else _] =>
             lazymatch b with
             | is_empty _ => fail
             | _ => destruct b
             end
         end; simpl; try done.
  by apply collected_trimmed.
Qed.

Lemma fold_split_step_trimmed chars st :
  Forall trimmed (dependencies st) →
  Forall trimmed (dependencies (fold_left split_step chars st)).
Proof.
  revert st. induction chars as [|c chars IH]; intros st H; [done|].
  simpl. by apply IH, split_step_trimmed.
Qed.

(** X4.  Every item the manual splitter returns is non-empty and has no
    leading or trailing whitespace, whatever the text it is given. *)
Theorem manual_parse_items_trimmed (deps_str : string) :
  Forall (fun item => is_empty item = false ∧ strip item = item)
         (_manual_parse_dependencies deps_str).
Proof.
  unfold _manual_parse_dependencies. cbv zeta.
  destruct (is_empty (strip (strip_by is_delimiter deps_str))); [by apply Forall_nil|].
  apply collected_trimmed, fold_split_step_trimmed. by apply Forall_nil.
Qed.


(** *** The manual splitter on a list of bare names *)

Lemma bare_char_classes c :
  is_bare_char c = true →
  is_quote c = false ∧ is_delimiter c = false ∧ Ascii.eqb c "," = false ∧ is_space c = false.
Proof.
  unfold is_bare_char. intros H%negb_true_iff.
  apply orb_false_iff in H as [H Hs]. apply orb_false_iff in H as [H Hcomma].
  apply orb_false_iff in H as [Hq Hd]. done.
Qed.

Lemma split_step_bare deps cur c :
  is_bare_char c = true →
  split_step (SplitState deps cur 0 0 false None) c
  = SplitState deps (append_char cur c) 0 0 false None.
Proof.
  intros (Hq & Hd & Hcomma & _)%bare_char_classes.
  unfold is_delimiter in Hd. repeat apply orb_false_iff in Hd as [Hd ?].
  unfold split_step, push_char. simpl.
  rewrite Hq. simpl.
  repeat match goal with H : Ascii.eqb _ _ = false |- _ => rewrite H; clear H end.
  done.
Qed.

Lemma append_char_app cur c r : append_char cur c +:+ r = cur +:+ String c r.
Proof.
  unfold append_char. induction cur as [|x cur IH]; [done|].
  rewrite !app_cons. by rewrite IH.
Qed.

Lemma fold_split_step_bare name deps cur :
  all_chars is_bare_char name = true →
  fold_left split_step (list_ascii_of_string name) (SplitState deps cur 0 0 false None)
  = SplitState deps (cur +:+ name) 0 0 false None.
Proof.
  revert cur. induction name as [|c r IH]; intros cur H.
  - simpl. f_equal. clear. induction cur as [|x cur IH]; [done|]. by rewrite app_cons, <- IH.
  - simpl in H. apply andb_true_iff in H as [Hc Hr]. simpl.
    rewrite (split_step_bare _ _ _ Hc), (IH _ Hr). by rewrite append_char_app.
Qed.

Lemma list_ascii_of_string_app a b :
  list_ascii_of_string (a +:+ b) = (list_ascii_of_string a ++ list_ascii_of_string b)%list.
Proof. induction a as [|x a IH]; [done|]. rewrite app_cons. simpl. by rewrite IH. Qed.

Lemma lstrip_by_spaces p cur name :
  all_chars p cur = true → lstrip_by p (cur +:+ name) = lstrip_by p name.
Proof.
  induction cur as [|x cur IH]; [done|].
  intros H. simpl in H. apply andb_true_iff in H as [Hx Hcur].
  rewrite app_cons. simpl. by rewrite Hx, IH.
Qed.

Lemma bare_no_space name :
  all_chars is_bare_char name = true → all_chars (fun c => negb (is_space c)) name = true.
Proof.
  apply all_chars_impl. intros c Hc. by destruct (bare_char_classes c Hc) as (_ & _ & _ & ->).
Qed.

Lemma strip_padded cur name :
  all_chars is_space cur = true → all_chars is_bare_char name = true →
  strip (cur +:+ name) = name.
Proof.
  intros Hcur Hname%bare_no_space. unfold strip, strip_by.
  by rewrite (lstrip_by_spaces _ _ _ Hcur), (lstrip_by_none _ _ Hname), (rstrip_by_none _ _ Hname).
Qed.

(** The state after the names joined by a comma and a space, closed as
    [_manual_parse_dependencies] closes it. *)
Lemma fold_split_step_names names deps cur :
  names ≠ [] → Forall bare_name names → all_chars is_space cur = true →
  let st := fold_left split_step (list_ascii_of_string (join ", " names))
                      (SplitState deps cur 0 0 false None) in
  (if is_empty (strip (current_item st)) then dependencies st
   else dependencies st ++ [strip (current_item st)]) = (deps ++ names)%list.
Proof.
  revert deps cur. induction names as [|name rest IH]; intros deps cur Hne Hall Hcur; [done|].
  apply Forall_cons in Hall as [[Hnonempty Hname] Hrest].
  destruct rest as [|name' rest].
  - simpl. rewrite (fold_split_step_bare _ _ _ Hname). simpl.
    rewrite (strip_padded _ _ Hcur Hname). by rewrite Hnonempty.
  - change (join ", " (name :: name' :: rest))
      with (name +:+ ", " +:+ join ", " (name' :: rest)).
    cbv zeta. rewrite list_ascii_of_string_app, fold_left_app.
    rewrite (fold_split_step_bare _ _ _ Hname).
    rewrite list_ascii_of_string_app, fold_left_app.
    change (fold_left split_step (list_ascii_of_string ", ")
              (SplitState deps (cur +:+ name) 0 0 false None))
      with (SplitState
              (if is_empty (strip (cur +:+ name)) then deps
               else deps ++ [strip (cur +:+ name)]) " " 0 0 false None).
    rewrite (strip_padded _ _ Hcur Hname), Hnonempty.
    rewrite (IH (deps ++ [name]) " "); [|done|done|done].
    by rewrite <- app_assoc.
Qed.

Lemma ends_with_app p a b : is_empty b = false → ends_with p (a +:+ b) = ends_with p b.
Proof.
  intros Hb. induction a as [|x a IH]; [done|].
  rewrite app_cons. simpl. rewrite IH.
  destruct (a +:+ b) eqn:E; [|done].
  destruct a, b; done.
Qed.

Lemma ends_with_none p s :
  all_chars (fun c => negb (p c)) s = true → ends_with p s = false.
Proof.
  induction s as [|c r IH]; [done|]. simpl.
  intros [Hc Hr]%andb_true_iff. destruct r; [by apply negb_true_iff|by apply IH].
Qed.

Lemma rstrip_by_app_drop p s t :
  is_empty s = false → ends_with p s = false → all_chars p t = true →
  rstrip_by p (s +:+ t) = s.
Proof.
  intros Hs Hend Ht. induction s as [|x s IH]; [done|].
  rewrite app_cons. simpl. destruct s as [|y s].
  - rewrite app_empty. simpl in Hend.
    assert (Hr : rstrip_by p t = EmptyString).
    { clear -Ht. induction t as [|c t IH]; [done|]. simpl in *.
      apply andb_true_iff in Ht as [Hc Ht]. by rewrite (IH Ht), Hc. }
    by rewrite Hr, Hend.
  - rewrite IH; done.
Qed.

Lemma join_bare names p :
  names ≠ [] → Forall bare_name names →
  (∀ c, is_bare_char c = true → p c = false) →
  ∃ x a, join ", " names = String x a ∧ p x = false ∧ ends_with p (join ", " names) = false.
Proof.
  intros Hne Hall Hp.
  induction names as [|name rest IH]; [done|].
  apply Forall_cons in Hall as [[Hnonempty Hname] Hrest].
  destruct name as [|x a]; [done|].
  assert (Hx : p x = false).
  { simpl in Hname. apply andb_true_iff in Hname as [Hx _]. by apply Hp. }
  assert (Hend : ends_with p (String x a) = false).
  { apply ends_with_none. revert Hname. apply all_chars_impl.
    intros c Hc. by rewrite (Hp c Hc). }
  destruct rest as [|name' rest].
  - exists x, a. done.
  - change (join ", " (String x a :: name' :: rest))
      with (String x a +:+ ", " +:+ join ", " (name' :: rest)).
    destruct IH as (y & b & Hj & Hy & Hend'); [done|done|].
    exists x, (a +:+ ", " +:+ join ", " (name' :: rest)). split; [done|]. split; [done|].
    rewrite ends_with_app; [|by rewrite Hj].
    rewrite ends_with_app; [done|by rewrite Hj].
Qed.

Lemma manual_parse_join (names : list string) :
  Forall bare_name names →
  _manual_parse_dependencies ("[" +:+ join ", " names +:+ "]") = names.
Proof.
  intros Hall. destruct names as [|name rest]; [done|].
  set (names := name :: rest) in *.
  assert (Hne : names ≠ []) by done.
  destruct (join_bare names is_delimiter Hne Hall) as (x & a & Hj & Hx & Hend);
    [by intros c (_ & ? & _)%bare_char_classes|].
  destruct (join_bare names is_space Hne Hall) as (x' & a' & Hj' & Hx' & Hend');
    [by intros c (_ & _ & _ & ?)%bare_char_classes|].
  assert (Hbody : strip (strip_by is_delimiter ("[" +:+ join ", " names +:+ "]"))
                  = join ", " names).
  { unfold strip, strip_by at 2.
    change ("[" +:+ join ", " names +:+ "]") with (String "[" (join ", " names +:+ "]")).
    change (lstrip_by is_delimiter (String "[" (join ", " names +:+ "]")))
      with (lstrip_by is_delimiter (join ", " names +:+ "]")).
    rewrite Hj at 1. rewrite app_cons, (lstrip_by_head _ _ _ Hx), <- app_cons, <- Hj.
    rewrite rstrip_by_app_drop; [|by rewrite Hj|done|done].
    unfold strip_by. rewrite Hj' at 1. rewrite (lstrip_by_head _ _ _ Hx'), <- Hj'.
    by apply rstrip_by_fixed. }
  unfold _manual_parse_dependencies. cbv zeta. rewrite Hbody.
  assert (He : is_empty (join ", " names) = false) by by rewrite Hj.
  rewrite He. exact (fold_split_step_names names [] "" Hne Hall eq_refl).
Qed.

Lemma strip_bracketed body : strip ("[" +:+ body +:+ "]") = "[" +:+ body +:+ "]".
Proof.
  unfold strip.
  change ("[" +:+ body +:+ "]") with (String "[" body +:+ String "]" "").
  by rewrite strip_by_app_keep.
Qed.

Lemma clean_name_keep p : clean_name p → keep p.
Proof.
  intros [HI4 _]. unfold keep.
  assert (Hs : strip p = p).
  { apply strip_by_none. apply matches_I4_all_chars in HI4. revert HI4.
    apply all_chars_impl. intros c Hc. by destruct (name_char_classes c Hc) as (-> & _). }
  rewrite Hs. by destruct p.
Qed.

Lemma elem_of_add_package p q : p ∈ add_package q ∅ ↔ p = q ∧ q ≠ EmptyString.
Proof.
  unfold add_package. destruct q as [|c r]; cbn.
  - split; [by intros ?%not_elem_of_empty|by intros [_ ?]].
  - rewrite elem_of_union, elem_of_singleton. split; [|by intros [-> _]; left].
    intros [->|?%not_elem_of_empty]; done.
Qed.

(** X5.  A declaration of bare names is extracted through the manual
    splitter: when the first match of the first pattern in a file is a
    bracketed list of names without quotes, brackets, commas or
    whitespace, which the literal evaluation rejects with [ValueError] or
    [SyntaxError], the manual splitter gives the names back in order, and
    the extraction returns exactly their cleaned forms, the names that
    clean to nothing left out. *)
Theorem bare_declaration_is_extracted (lib : library) (fs : filesystem)
    (file_path content : string) (names others : list string) (e : exn) :
  fs file_path = Some (Ok content) →
  re_findall lib "dependencies\s*=\s*(\[.*?\])" true content
  = ("[" +:+ join ", " names +:+ "]") :: others →
  Forall bare_name names →
  literal_eval lib ("[" +:+ join ", " names +:+ "]") = Raise e →
  exn_cls e = ValueError ∨ exn_cls e = SyntaxError →
  enumerates (set_iter lib) →
  _manual_parse_dependencies ("[" +:+ join ", " names +:+ "]") = names
  ∧ ∀ package,
      package ∈ extract_dependencies_from_file lib fs file_path
      ↔ package ≠ EmptyString ∧ ∃ name, name ∈ names ∧ package = _clean_package_name name.
Proof.
  intros Hfs Hfind Hbare Heval Hcls Henum.
  pose proof (manual_parse_join names Hbare) as Hmanual. split; [exact Hmanual|].
  assert (Hraw : _find_dependencies_variable lib content = Ok (Some (PSeq (map PStr names)))).
  { unfold _find_dependencies_variable, patterns. cbn [find_in_patterns]. rewrite Hfind.
    unfold eval_first_match. rewrite strip_bracketed, Heval, Hmanual.
    by destruct Hcls as [-> | ->]. }
  intros package. rewrite extract_dependencies_total, Hfs, Hraw.
  destruct (decide (names = [])) as [->|Hnames].
  { cbn. split; [by intros ?%elem_of_nil|]. by intros (_ & ? & ?%elem_of_nil & _). }
  rewrite (parse_dependencies_perm lib _ Henum) by by destruct names.
  rewrite list_elem_of_filter, elem_of_elements. unfold unique_packages_of.
  rewrite elem_of_unique_packages_fold. split.
  - intros (_ & [?%not_elem_of_empty | (item & Hitem & Hin)]); [done|].
    apply list_elem_of_fmap in Hitem as (n & -> & Hn). cbn in Hin.
    apply elem_of_add_package in Hin as [-> Hne]. split; [done|]. by exists n.
  - intros (Hne & n & Hn & ->). split.
    + apply clean_name_keep. by destruct (clean_package_name_cases n).
    + right. exists (PStr n). split; [by apply list_elem_of_fmap; exists n|].
      cbn. by apply elem_of_add_package.
Qed.

Lemma bare_declaration_is_extracted_witness :
  _manual_parse_dependencies ("[" +:+ join ", " ["pandas"; "cv2>=4.5"] +:+ "]")
  = ["pandas"; "cv2>=4.5"]
  ∧ ∀ package,
      package ∈ extract_dependencies_from_file Samples.bare_library Samples.bare_files "tool.py"
      ↔ package ≠ EmptyString
        ∧ ∃ name, name ∈ ["pandas"; "cv2>=4.5"] ∧ package = _clean_package_name name.
Proof.
  apply (bare_declaration_is_extracted Samples.bare_library Samples.bare_files "tool.py"
           ("dependencies = " +:+ Samples.bare_text) ["pandas"; "cv2>=4.5"] []
           (Exn ValueError "malformed node or string")).
  - reflexivity.
  - reflexivity.
  - repeat constructor.
  - reflexivity.
  - by left.
  - by intros s.
Defined.

End CleaningFacts.

(** ** The alias table *)

Section AliasFacts.
Import PyStr DependencyParser.

Lemma find_dependencies_variable_declaration lib content :
  _find_dependencies_variable lib content
  = match first_declaration lib content with
    | Some first_match =>
        dependencies ← eval_first_match lib first_match; Ok (Some dependencies)
    | None => Ok None
    end.
Proof.
  unfold _find_dependencies_variable, first_declaration.
  assert (H : ∀ ps, find_in_patterns lib ps content
                    = eval_first_match lib <$> first_match_in lib ps content).
  { induction ps as [|pattern rest IH]; cbn; [done|].
    by destruct (re_findall lib pattern true content). }
  rewrite H. destruct (first_match_in lib patterns content); cbn; [done|].
  by destruct (re_findall lib class_pattern false content).
Qed.

Lemma extract_declaration lib fs file_path content first_match dependencies_raw :
  fs file_path = Some (Ok content) →
  first_declaration lib content = Some first_match →
  eval_first_match lib first_match = Ok dependencies_raw →
  extract_dependencies_from_file lib fs file_path = _parse_dependencies lib dependencies_raw.
Proof.
  intros Hfs Hfirst Heval.
  rewrite extract_dependencies_total, Hfs, find_dependencies_variable_declaration, Hfirst.
  by rewrite Heval.
Qed.

Lemma elem_of_parse_items lib items p :
  enumerates (set_iter lib) → items ≠ [] →
  p ∈ _parse_dependencies lib (PSeq items)
  ↔ keep p ∧ ∃ item, item ∈ items ∧ p ∈ _process_dependency_item item.
Proof.
  intros Henum Hitems.
  rewrite (parse_dependencies_perm lib _ Henum) by by destruct items.
  rewrite list_elem_of_filter, elem_of_elements. unfold unique_packages_of.
  rewrite elem_of_unique_packages_fold. split.
  - intros [Hk [?%not_elem_of_empty | H]]; done.
  - intros [Hk H]. split; [done|by right].
Qed.

(** C7.  For every dependency candidate, after quote and whitespace
    stripping and version-specifier removal the alias table is applied once
    and the result kept when it matches the name format.  For a file whose
    declaration evaluates to a list, every string of the list gives its
    cleaned name to the extracted set, and no extracted name is a key of
    the alias table; so a file that declares [cv2] yields [opencv-python]
    and never [cv2]. *)
Theorem alias_applied_once (lib : library) (fs : filesystem)
    (file_path content first_match : string) (items : list pyobj) (declared : string) :
  enumerates (set_iter lib) →
  fs file_path = Some (Ok content) →
  first_declaration lib content = Some first_match →
  eval_first_match lib first_match = Ok (PSeq items) →
  PStr declared ∈ items →
  normalise declared = "cv2" →
  let deps := extract_dependencies_from_file lib fs file_path in
  (∀ candidate,
     _clean_package_name candidate
     = let q := alias (normalise candidate) in if matches_I4 q then q else EmptyString)
  ∧ (∀ candidate, PStr candidate ∈ items → _clean_package_name candidate ≠ EmptyString →
       _clean_package_name candidate ∈ deps)
  ∧ (∀ p, p ∈ deps → package_mappings !! p = None)
  ∧ "opencv-python" ∈ deps
  ∧ "cv2" ∉ deps.
Proof.
  intros Henum Hfs Hfirst Heval Hin Hcv2. cbv zeta.
  rewrite (extract_declaration lib fs file_path content first_match _ Hfs Hfirst Heval).
  assert (Hitems : items ≠ []) by (intros ->; by apply elem_of_nil in Hin).
  assert (Hclean : ∀ candidate, PStr candidate ∈ items →
            _clean_package_name candidate ≠ EmptyString →
            _clean_package_name candidate ∈ _parse_dependencies lib (PSeq items)).
  { intros candidate Hc Hne. apply (elem_of_parse_items lib items _ Henum Hitems). split.
    - apply clean_name_keep. by destruct (clean_package_name_cases candidate).
    - exists (PStr candidate). split; [done|]. cbn. by apply elem_of_add_package. }
  assert (Hkeys : ∀ p, p ∈ _parse_dependencies lib (PSeq items) →
                       package_mappings !! p = None).
  { intros p Hp. by destruct (parse_dependencies_elem lib _ p Henum Hp). }
  split; [apply clean_package_name_spec|]. split; [exact Hclean|]. split; [exact Hkeys|].
  split.
  - assert (E : _clean_package_name declared = "opencv-python").
    { rewrite clean_package_name_spec, Hcv2. reflexivity. }
    rewrite <- E. apply Hclean; [done|]. by rewrite E.
  - intros H. apply Hkeys in H. by vm_compute in H.
Qed.

Lemma alias_applied_once_witness :
  let deps := extract_dependencies_from_file Samples.plain_library Samples.tool_files
                "tool.py" in
  (∀ candidate,
     _clean_package_name candidate
     = let q := alias (normalise candidate) in if matches_I4 q then q else EmptyString)
  ∧ (∀ candidate,
       PStr candidate ∈ [PSeq [PStr "requests"; PStr "requests"]; PStr "cv2"] →
       _clean_package_name candidate ≠ EmptyString →
       _clean_package_name candidate ∈ deps)
  ∧ (∀ p, p ∈ deps → package_mappings !! p = None)
  ∧ "opencv-python" ∈ deps
  ∧ "cv2" ∉ deps.
Proof.
  apply (alias_applied_once Samples.plain_library Samples.tool_files "tool.py"
           ("dependencies = " +:+ Samples.declared_text) Samples.declared_text
           [PSeq [PStr "requests"; PStr "requests"]; PStr "cv2"] "cv2").
  - by intros s.
  - reflexivity.
  - reflexivity.
  - reflexivity.
  - apply list_elem_of_further, list_elem_of_here.
  - reflexivity.
Defined.

End AliasFacts.

(** ** More on the schema validator *)

Section ConverterFacts.
Import PyStr Py SchemaValidator.
Context (rt : runtime).

Lemma convert_to_string_shape v v' :
  _convert_to_string rt v = Ok v' → ∃ s, v' = VStr s.
Proof.
  unfold _convert_to_string.
  destruct v; try (destruct (printable _); [|done]); intros [= <-]; by eexists.
Qed.

Lemma convert_to_integer_shape v v' :
  _convert_to_integer rt v = Ok v' → (∃ n, v' = VInt n) ∨ (∃ b, v' = VBool b).
Proof.
  destruct v as [|b|n|x|s|items|entries]; cbn; try done.
  - intros [= <-]. right. by eexists.
  - intros [= <-]. left. by eexists.
  - destruct (float_to_int x); [|done]. intros [= <-]. left. by eexists.
  - destruct (isdigit (strip s) || isdigit (lstrip_by (Ascii.eqb "-") (strip s))) eqn:Hd.
    + assert (H : ∀ r, (if isdigit (strip s)
                        then n ← int_of_str (strip s); Ok (VInt n)
                        else if isdigit (lstrip_by (Ascii.eqb "-") (strip s))
                             then n ← int_of_str (strip s); Ok (VInt n)
                             else r) = (n ← int_of_str (strip s); Ok (VInt n))).
      { intros r. destruct (isdigit (strip s)); [done|]. cbn in Hd. by rewrite Hd. }
      rewrite H. destruct (int_of_str (strip s)); [|done]. intros [= <-]. left. by eexists.
    + apply orb_false_iff in Hd as [-> ->]. done.
Qed.

Lemma convert_to_number_shape v v' :
  _convert_to_number rt v = Ok v' → is_number v' = true.
Proof.
  destruct v as [|b|n|x|s|items|entries]; cbn; try done; try by intros [= <-].
  destruct (negb (has_char "." s) && negb (has_char "e" (lower s))).
  - destruct (int_of_str s) as [n|e]; cbn.
    + by intros [= <-].
    + by destruct (is_ValueError (exn_cls e)).
  - destruct (float_of_str rt s); cbn; [by intros [= <-]|done].
Qed.

Lemma convert_to_boolean_shape v v' :
  _convert_to_boolean rt v = Ok v' → ∃ b, v' = VBool b.
Proof.
  destruct v as [|b|n|x|s|items|entries]; cbn -[one_of]; try done.
  - intros [= <-]. by eexists.
  - intros [= <-]. by eexists.
  - destruct (one_of _ _); [intros [= <-]; by eexists|].
    destruct (one_of _ _); [intros [= <-]; by eexists|done].
Qed.

Lemma convert_to_array_shape v v' :
  _convert_to_array rt v = Ok v' → ∃ items, v' = VList items.
Proof.
  destruct v as [|b|n|x|s|items|entries]; cbn -[split_by_comma]; try done.
  - destruct (json_loads rt s) as [[| | | | | |]|e]; try (intros [= <-]; by eexists).
    destruct (exn_cls e); try done. intros [= <-]. by eexists.
  - intros [= <-]. by eexists.
Qed.

Lemma convert_to_object_shape v v' :
  _convert_to_object rt v = Ok v' → ∃ entries, v' = VDict entries.
Proof.
  destruct v as [|b|n|x|s|items|entries]; cbn; try done.
  - destruct (json_loads rt s) as [[| | | | | |]|e]; try done.
    + intros [= <-]. by eexists.
    + by destruct (exn_cls e).
  - intros [= <-]. by eexists.
Qed.

(** X6.  A successful conversion gives a value of the Python type the
    schema type stands for: an [int] (or a [bool], which is one) for
    ["integer"], an [int] or [float] for ["number"], a [bool] for
    ["boolean"], a [list] for ["array"], a [dict] for ["object"], and a
    [str] for ["string"] and for every other type name. *)
Theorem convert_type_result_type (value : pyval) (target_type : string) (converted : pyval) :
  value ≠ VNone →
  _convert_type rt value (VStr target_type) = Ok converted →
  instance_of target_type converted = true.
Proof.
  intros Hv. unfold _convert_type, instance_of.
  destruct value; try done.
  all: unfold type_converters.
  all: destruct (String.eqb target_type "string") eqn:E0;
    [apply String.eqb_eq in E0 as ->; by intros [? ->]%convert_to_string_shape|].
  all: destruct (String.eqb target_type "integer");
    [by intros [[? ->] | [? ->]]%convert_to_integer_shape|].
  all: destruct (String.eqb target_type "number");
    [by intros H%convert_to_number_shape|].
  all: destruct (String.eqb target_type "boolean");
    [by intros [? ->]%convert_to_boolean_shape|].
  all: destruct (String.eqb target_type "array");
    [by intros [? ->]%convert_to_array_shape|].
  all: destruct (String.eqb target_type "object");
    [by intros [? ->]%convert_to_object_shape|].
  all: by intros [? ->]%convert_to_string_shape.
Qed.

(** X7.  Conversion is idempotent: converting the converted value to the
    same type again returns it unchanged. *)
Theorem convert_type_idempotent (value target_type converted : pyval) :
  _convert_type rt value target_type = Ok converted →
  _convert_type rt converted target_type = Ok converted.
Proof.
  destruct value as [|b0|n0|x0|s0|items0|entries0] eqn:Ev.
  { by intros [= <-]. }
  all: rewrite <- Ev; assert (Hv : _convert_type rt value target_type
         = match target_type with
           | VStr name => type_converters rt name value
           | VList _ | VDict _ => unhashable target_type
           | _ => _convert_to_string rt value
           end) by (by rewrite Ev).
  all: rewrite Hv; clear Hv Ev.
  all: destruct target_type as [|tb|tn|tx|name|titems|tentries]; try done.
  all: try (intros [? ->]%convert_to_string_shape; done).
  all: unfold _convert_type, type_converters.
  all: destruct (String.eqb name "string");
    [intros [? ->]%convert_to_string_shape; done|].
  all: destruct (String.eqb name "integer");
    [intros [[? ->] | [? ->]]%convert_to_integer_shape; done|].
  all: destruct (String.eqb name "number");
    [intros H%convert_to_number_shape; by destruct converted|].
  all: destruct (String.eqb name "boolean");
    [intros [? ->]%convert_to_boolean_shape; done|].
  all: destruct (String.eqb name "array");
    [intros [? ->]%convert_to_array_shape; done|].
  all: destruct (String.eqb name "object");
    [intros [? ->]%convert_to_object_shape; done|].
  all: intros [? ->]%convert_to_string_shape; done.
Qed.

End ConverterFacts.

Section ConverterSamples.
Import PyStr Py SchemaValidator.

Lemma convert_type_result_type_witness :
  instance_of "integer" (VInt (-42)) = true.
Proof.
  apply (convert_type_result_type Samples.plain_runtime (VStr " -42 ") "integer" (VInt (-42))); [done|reflexivity].
Defined.

Lemma convert_type_idempotent_witness :
  _convert_type Samples.plain_runtime (VBool true) (VStr "boolean") = Ok (VBool true).
Proof.
  apply (convert_type_idempotent Samples.plain_runtime (VStr " Yes") (VStr "boolean") (VBool true)). reflexivity.
Defined.

End ConverterSamples.

Section ConstraintFacts.
Import PyStr Py SchemaValidator.

Lemma appends_errors_skip : appends_errors skip.
Proof.
  intros [v x es ws]. exists []. cbn. by rewrite andb_true_r, app_nil_r.
Qed.

Lemma appends_errors_fail_if cond msg : appends_errors (fail_if cond msg).
Proof.
  intros [v x es ws]. destruct cond as [[|]|e]; cbn.
  - exists [msg]. cbn. by rewrite andb_false_r.
  - exists []. cbn. by rewrite andb_true_r, app_nil_r.
  - exists []. cbn. by rewrite andb_true_r, app_nil_r.
Qed.

Lemma appends_errors_when_key schema key body :
  (∀ bound, appends_errors (body bound)) → appends_errors (when_key schema key body).
Proof.
  intros H r. unfold when_key. destruct (dict_get key schema); [apply H|apply appends_errors_skip].
Qed.

Lemma appends_errors_and_then c1 c2 :
  appends_errors c1 → appends_errors c2 → appends_errors (and_then c1 c2).
Proof.
  intros H1 H2 r. unfold and_then.
  destruct (H1 r) as (more1 & E1). destruct (c1 r) as [r1 [e|]]; cbn in E1.
  { by exists more1. }
  destruct (H2 r1) as (more2 & E2). exists (more1 ++ more2). rewrite E2, E1. cbn.
  rewrite <- app_assoc, <- andb_assoc. do 2 f_equal.
  destruct more1, more2; done.
Qed.

Lemma appends_errors_if (b : bool) c1 c2 :
  appends_errors c1 → appends_errors c2 → appends_errors (if b then c1 else c2).
Proof. by destruct b. Qed.

Lemma appends_errors_validate_constraints rt field_name value field_schema :
  appends_errors (_validate_constraints rt field_name value field_schema).
Proof.
  unfold _validate_constraints. destruct value;
    repeat first [ apply appends_errors_skip
                 | apply appends_errors_fail_if
                 | apply appends_errors_and_then
                 | apply appends_errors_if
                 | apply appends_errors_when_key; intros ? ].
Qed.

(** X8.  The constraint checks only add errors: they leave the value and
    the warnings of the result alone, keep the errors already recorded and
    append their own, and the result is valid afterwards exactly when it
    was valid before and no error was appended. *)
Theorem constraints_only_append_errors (rt : runtime) (field_name : string) (value : pyval)
    (field_schema : dict) (result : field_result) :
  let result' := (_validate_constraints rt field_name value field_schema result).1 in
  SchemaValidator.value result' = SchemaValidator.value result
  ∧ warnings result' = warnings result
  ∧ ∃ more, errors result' = errors result ++ more
            ∧ valid result' = valid result && bool_decide (more = []).
Proof.
  cbv zeta.
  destruct (appends_errors_validate_constraints rt field_name value field_schema result)
    as (more & ->).
  cbn. repeat split. by exists more.
Qed.

Lemma numeric_lt_int m n : py_lt (VInt m) (VInt n) = Ok (m <? n).
Proof. reflexivity. Qed.

Lemma numeric_gt_int m n : py_gt (VInt m) (VInt n) = Ok (n <? m).
Proof. reflexivity. Qed.

(** X9.  The numeric bounds are inclusive: an integer checked against a
    schema with integer [minimum] and [maximum] and no [enum] is valid
    exactly when it lies between the two bounds, and each bound it violates
    adds its own error. *)
Theorem integer_bounds_inclusive (rt : runtime) (field_name : string) (n lo hi : Z)
    (field_schema : dict) :
  dict_get "enum" field_schema = None →
  dict_get "minimum" field_schema = Some (VInt lo) →
  dict_get "maximum" field_schema = Some (VInt hi) →
  _validate_constraints rt field_name (VInt n) field_schema (FieldResult true (VInt n) [] [])
  = (FieldResult ((lo <=? n) && (n <=? hi)) (VInt n)
       ((if n <? lo then ["Field '" +:+ field_name +:+ "' must be >= " +:+ pretty lo] else [])
        ++ (if hi <? n then ["Field '" +:+ field_name +:+ "' must be <= " +:+ pretty hi] else []))
       [],
     None).
Proof.
  intros He Hlo Hhi. unfold _validate_constraints.
  cbn [is_str is_number is_list].
  unfold and_then at 1. unfold when_key at 1. rewrite He.
  unfold and_then at 1. unfold skip at 1.
  unfold and_then at 1. unfold and_then at 1.
  unfold when_key at 1. rewrite Hlo. unfold when_key at 1. rewrite Hhi.
  rewrite numeric_lt_int, numeric_gt_int.
  unfold and_then, skip, fail_if, add_error. rewrite !string_app_assoc.
  destruct (Z.ltb_spec n lo), (Z.ltb_spec hi n), (Z.leb_spec lo n), (Z.leb_spec n hi);
    try lia; reflexivity.
Qed.

Lemma integer_bounds_inclusive_witness :
  _validate_constraints Samples.plain_runtime "age" (VInt 18)
    [("type", VStr "integer"); ("minimum", VInt 18); ("maximum", VInt 65)]
    (FieldResult true (VInt 18) [] [])
  = (FieldResult true (VInt 18) [] [], None).
Proof.
  apply (integer_bounds_inclusive Samples.plain_runtime "age" 18 18 65); reflexivity.
Defined.

(** X10.  [None] is never checked: a field whose value is [None] is
    neither converted nor held against its constraints.  Under a single
    declared type it is valid as it is; under a union it is accepted as the
    first member; only the empty union rejects it. *)
Theorem none_is_never_checked (rt : runtime) (field_name : string) (schema_entries : dict)
    (field_path : string) :
  _validate_field_recursive rt field_name VNone (VDict schema_entries) field_path
  = match declared_type schema_entries with
    | VList [] =>
        FieldResult false VNone [aggregate_error rt field_name VNone [] []] []
    | VList (first :: _) =>
        FieldResult true VNone []
          ["Field '" +:+ field_name +:+ "' validated as " +:+ py_str rt first]
    | _ => FieldResult true VNone [] []
    end.
Proof.
  unfold declared_type. cbn.
  destruct (dict_get "type" schema_entries) as [[| | | | |[|first rest]|]|]; reflexivity.
Qed.

End ConstraintFacts.

Section ObjectFacts.
Import PyStr Py SchemaValidator.

(** *** Normalisation *)

Lemma wrapper_is_dict wv : looks_like_wrapper wv = true → ∃ entries, wv = VDict entries.
Proof. destruct wv; try done. by eexists. Qed.

Lemma wrapper_child_is_no_wrapper k v :
  looks_like_wrapper (VDict [(k, v)]) = true → looks_like_wrapper v = false.
Proof.
  unfold looks_like_wrapper at 1. cbn [existsb snd].
  intros [_ H]%andb_true_iff. rewrite orb_false_r in H. by apply typed_not_wrapper.
Qed.

(** X11.  Normalising a schema is idempotent: the schema that
    [_normalize_schema] returns is returned unchanged when it is normalised
    again, so that the children of a wrapper are never unwrapped a second
    time. *)
Theorem normalize_schema_idempotent (input_schema normalized : pyval) :
  _normalize_schema input_schema = Ok normalized →
  _normalize_schema normalized = Ok normalized.
Proof.
  intros H. pose proof H as H'. unfold _normalize_schema in H'.
  destruct (py_get input_schema "properties" (VDict [])) as [properties|e]; [|done].
  cbn [mbind pyresult_bind] in H'.
  assert (Hsame : Ok input_schema = Ok normalized → _normalize_schema normalized = Ok normalized).
  { intros [= <-]. exact H. }
  destruct properties as [| | | | | |[|[k wv] [|]]];
    cbn -[looks_like_wrapper py_get] in H';
    try (destruct (_ =? 1)%nat; [done|]); try by apply Hsame.
  destruct (looks_like_wrapper wv) eqn:Hw; [|by apply Hsame]. clear Hsame.
  destruct (py_get input_schema "required" (VList [])) as [required|e]; [|done].
  cbn [mbind pyresult_bind] in H'. injection H' as <-.
  destruct (wrapper_is_dict _ Hw) as (entries & ->).
  unfold _normalize_schema. cbn.
  destruct entries as [|[k' v'] [|]]; try done.
  by rewrite (wrapper_child_is_no_wrapper _ _ Hw).
Qed.

Lemma normalize_schema_idempotent_witness :
  _normalize_schema
    (VDict [ ("type", VStr "object");
             ("properties", VDict [("naics_code", VDict [("type", VStr "string")])]);
             ("required", VList []);
             ("_wrapper_key", VStr "input_data") ])
  = Ok (VDict [ ("type", VStr "object");
                ("properties", VDict [("naics_code", VDict [("type", VStr "string")])]);
                ("required", VList []);
                ("_wrapper_key", VStr "input_data") ]).
Proof.
  apply (normalize_schema_idempotent
           (VDict [("properties",
                    VDict [("input_data",
                            VDict [("naics_code", VDict [("type", VStr "string")])])])])).
  reflexivity.
Defined.

(** *** Schemas without properties *)

(** X12.  A schema that declares no properties accepts every input: when
    the schema has no ["properties"] entry, or an empty one, and carries no
    ["_wrapper_key"], the input is returned as it is, valid, with the single
    warning that there was nothing to validate, whatever its type. *)
Theorem no_properties_accepts_anything (rt : runtime) (user_input : pyval)
    (input_schema : dict) :
  dict_get "properties" input_schema = None
  ∨ dict_get "properties" input_schema = Some (VDict []) →
  dict_get "_wrapper_key" input_schema = None →
  validate_input rt user_input (VDict input_schema)
  = ValidationResult true user_input [] ["No properties to validate"].
Proof.
  intros Hp Hk. unfold validate_input, validate_input_body, _normalize_schema.
  cbn [py_get]. destruct Hp as [Hp|Hp]; rewrite Hp; cbn [mbind pyresult_bind];
    cbn [py_get]; rewrite Hk, ?Hp; reflexivity.
Qed.

Lemma no_properties_accepts_anything_witness :
  validate_input Samples.plain_runtime (VList [VInt 1; VNone]) (VDict [("type", VStr "object")])
  = ValidationResult true (VList [VInt 1; VNone]) [] ["No properties to validate"].
Proof.
  apply no_properties_accepts_anything; [by left|reflexivity].
Defined.


(** *** Lists under an array schema *)

(** X13.  A list under an array schema whose items are not declared as
    objects is accepted as it is: neither its items nor the [minItems],
    [maxItems] or [enum] of the schema are held against it. *)
Theorem list_under_array_is_not_checked (rt : runtime) (field_name : string)
    (items : list pyval) (schema_entries : dict) (field_path : string) (items_type : pyval) :
  dict_get "type" schema_entries = Some (VStr "array") →
  py_get (default (VDict []) (dict_get "items" schema_entries)) "type" VNone = Ok items_type →
  py_eq items_type (VStr "object") = false →
  _validate_field_recursive rt field_name (VList items) (VDict schema_entries) field_path
  = FieldResult true (VList items) [] [].
Proof.
  intros Ht Hi Ho. cbn -[py_get py_eq]. rewrite Ht. cbn -[py_get py_eq].
  destruct (dict_get "items" schema_entries) as [items_schema|];
    cbv [default from_option id] in Hi; rewrite Hi, Ho; reflexivity.
Qed.

Lemma list_under_array_is_not_checked_witness :
  _validate_field_recursive Samples.plain_runtime "tags" (VList [])
    (VDict [ ("type", VStr "array"); ("items", VDict [("type", VStr "string")]);
             ("minItems", VInt 1) ]) "tags"
  = FieldResult true (VList []) [] [].
Proof.
  apply (list_under_array_is_not_checked _ _ _ _ _ (VStr "string")); reflexivity.
Defined.

Lemma validate_items_spec rt items i0 items_schema path result validated :
  match validate_items rt (_validate_field_recursive rt) items i0 items_schema path result
          validated with
  | inl (result', validated') =>
      value result' = value result
      ∧ (valid result' = true →
         valid result = true ∧ errors result' = errors result
         ∧ ∃ more, validated' = validated ++ more ∧ length more = length items
             ∧ ∀ j item, items !! j = Some item →
                 ∃ vr, _validate_object_recursive rt item items_schema
                         (path +:+ "[" +:+ pretty (i0 + j)%nat +:+ "]") = Ok vr
                       ∧ v_valid vr = true ∧ more !! j = Some (v_data vr))
  | inr (result', _) => value result' = value result
  end.
Proof.
  revert i0 result validated. induction items as [|item rest IH]; intros i0 result validated.
  - cbn. split; [done|]. intros Hv. repeat split; try done.
    exists []. rewrite app_nil_r. repeat split; try done.
  - cbn [validate_items].
    fold (_validate_object_recursive rt).
    destruct (_validate_object_recursive rt item items_schema
                (path +:+ "[" +:+ pretty i0 +:+ "]")) as [vr|e] eqn:Hvr; [|done].
    destruct (v_valid vr) eqn:Hvalid.
    + specialize (IH (S i0)
                    (FieldResult (valid result) (value result) (errors result)
                       (warnings result ++ v_warnings vr))
                    (validated ++ [v_data vr])).
      destruct (validate_items _ _ rest _ _ _ _ _) as [[result' validated']|[result' e]];
        [|done].
      destruct IH as [Hval IH]. split; [done|]. intros Hv.
      destruct (IH Hv) as (Hv0 & He & more & -> & Hlen & Hitems).
      repeat split; try done.
      exists (v_data vr :: more). rewrite <- app_assoc. repeat split; try done.
      { cbn. by rewrite Hlen. }
      intros [|j] item' Hj.
      * injection Hj as <-. exists vr. by rewrite Nat.add_0_r.
      * destruct (Hitems j item' Hj) as (vr' & H1 & H2 & H3).
        exists vr'. by rewrite Nat.add_succ_r.
    + specialize (IH (S i0)
                    (FieldResult false (value result) (errors result ++ v_errors vr)
                       (warnings result))
                    validated).
      destruct (validate_items _ _ rest _ _ _ _ _) as [[result' validated']|[result' e]];
        [|done].
      destruct IH as [Hval IH]. split; [done|]. intros Hv.
      by destruct (IH Hv) as (Hv0 & _).
Qed.

(** X14.  An array of objects keeps all its items or none: when the field
    is valid, its value is the list of the validated data of the items, one
    for each item and in order, each item having validated against the
    schema of the items under its indexed path; when the field is invalid,
    its value is the list it was given. *)
Theorem array_of_objects_all_or_none (rt : runtime) (field_name : string)
    (items : list pyval) (schema_entries items_schema : dict) (field_path : string) :
  dict_get "type" schema_entries = Some (VStr "array") →
  dict_get "items" schema_entries = Some (VDict items_schema) →
  dict_get "type" items_schema = Some (VStr "object") →
  let result :=
    _validate_field_recursive rt field_name (VList items) (VDict schema_entries) field_path in
  if valid result then
    ∃ validated,
      value result = VList validated ∧ length validated = length items
      ∧ ∀ i item, items !! i = Some item →
          ∃ item_result,
            _validate_object_recursive rt item (VDict items_schema)
              (field_path +:+ "[" +:+ pretty i +:+ "]") = Ok item_result
            ∧ v_valid item_result = true
            ∧ validated !! i = Some (v_data item_result)
  else value result = VList items.
Proof.
  intros Ht Hi Ho. cbv zeta. cbn -[py_get py_eq validate_items]. rewrite Ht.
  cbn -[validate_items]. rewrite Hi. cbn -[validate_items]. rewrite Ho.
  cbn -[validate_items].
  pose proof (validate_items_spec rt items 0 (VDict items_schema) field_path
                (FieldResult true (VList items) [] []) []) as H.
  destruct (validate_items _ _ items _ _ _ _ _) as [[result' validated']|[result' e]].
  - destruct H as [Hval H]. destruct (valid result') eqn:Hv; cbn; rewrite Hv; [|done].
    destruct (H eq_refl) as (_ & _ & more & -> & Hlen & Hitems).
    exists more. repeat split; try done.
  - by cbn.
Qed.

Lemma array_of_objects_all_or_none_witness :
  let result :=
    _validate_field_recursive Samples.plain_runtime "rows"
      (VList [VDict [("n", VStr "1")]; VDict [("n", VStr "x")]])
      (VDict [ ("type", VStr "array");
               ("items", VDict [ ("type", VStr "object");
                                 ("properties", VDict [("n", VDict [("type", VStr "integer")])])
                               ]) ])
      "rows" in
  if valid result then
    ∃ validated,
      value result = VList validated ∧ length validated = 2%nat
      ∧ ∀ i item, [VDict [("n", VStr "1")]; VDict [("n", VStr "x")]] !! i = Some item →
          ∃ item_result,
            _validate_object_recursive Samples.plain_runtime item
              (VDict [ ("type", VStr "object");
                       ("properties", VDict [("n", VDict [("type", VStr "integer")])]) ])
              ("rows" +:+ "[" +:+ pretty i +:+ "]") = Ok item_result
            ∧ v_valid item_result = true
            ∧ validated !! i = Some (v_data item_result)
  else value result = VList [VDict [("n", VStr "1")]; VDict [("n", VStr "x")]].
Proof.
  apply (array_of_objects_all_or_none Samples.plain_runtime "rows"
           [VDict [("n", VStr "1")]; VDict [("n", VStr "x")]]); reflexivity.
Defined.

(** *** Wrapper schemas and bare documents *)

(** X15.  A wrapper schema accepts the bare document and the wrapped one
    alike: for a wrapper key that is not the empty string and a document
    that does not hold it, validating the document gives what validating
    the document wrapped under the key gives. *)
Theorem wrapper_accepts_bare_document (rt : runtime) (schema : dict) (k : string)
    (wv : pyval) (doc : dict) :
  dict_get "properties" schema = Some (VDict [(k, wv)]) →
  looks_like_wrapper wv = true →
  k ≠ "" →
  dict_has k doc = false →
  validate_input rt (VDict doc) (VDict schema)
  = validate_input rt (wrap k (VDict doc)) (VDict schema).
Proof.
  intros Hp Hw Hk Hdoc. rewrite (wrapper_round_trip rt schema k wv _ Hp Hw Hk).
  set (required := default (VList []) (dict_get "required" schema)).
  assert (Hn : _normalize_schema (VDict schema)
               = Ok (VDict [ ("type", VStr "object"); ("properties", wv);
                             ("required", required); ("_wrapper_key", VStr k) ])).
  { unfold _normalize_schema. cbn. rewrite Hp, Hw. cbn. subst required.
    by destruct (dict_get "required" schema). }
  unfold validate_input, validate_input_body.
  rewrite Hn, (normalize_inner_schema _ _ Hw).
  cbn -[_validate_object_recursive wrap_under].
  assert (Hkt : negb (is_empty k) = true) by by destruct k.
  rewrite Hkt, Hdoc, (wrapper_truthy _ Hw).
  cbn -[_validate_object_recursive wrap_under].
  assert (E : _validate_object_recursive rt (VDict doc)
                (VDict [ ("type", VStr "object"); ("properties", wv);
                         ("required", required); ("_wrapper_key", VStr k) ]) "root"
              = _validate_object_recursive rt (VDict doc) (inner_schema required wv) "root").
  { reflexivity. }
  rewrite E.
  destruct (_validate_object_recursive rt (VDict doc) (inner_schema required wv) "root")
    as [[valid data errs warns]|e]; [|done].
  unfold rewrap. cbn. by destruct valid.
Qed.

Lemma wrapper_accepts_bare_document_witness :
  validate_input Samples.plain_runtime (VDict [("a", VStr "5")])
    (VDict [("properties", VDict [("input_data", Samples.a_integer)])])
  = validate_input Samples.plain_runtime (wrap "input_data" (VDict [("a", VStr "5")]))
      (VDict [("properties", VDict [("input_data", Samples.a_integer)])]).
Proof.
  apply (wrapper_accepts_bare_document Samples.plain_runtime _ "input_data" Samples.a_integer);
    [reflexivity|reflexivity|done|reflexivity].
Defined.


(** *** Undeclared fields *)

Lemma dict_get_set k k' v d :
  dict_get k (dict_set k' v d) = if String.eqb k k' then Some v else dict_get k d.
Proof.
  induction d as [|[k0 v0] d IH]; cbn.
  - by destruct (String.eqb k k').
  - destruct (String.eqb_spec k' k0) as [->|Hne]; cbn.
    + by destruct (String.eqb k k0).
    + rewrite IH. destruct (String.eqb_spec k k0) as [->|Hne']; [|done].
      destruct (String.eqb_spec k0 k') as [->|]; done.
Qed.

Lemma dict_has_elem k v (d : dict) : (k, v) ∈ d → dict_has k d = true.
Proof.
  unfold dict_has. induction d as [|[k0 v0] d IH]; [by intros ?%elem_of_nil|]. cbn.
  intros [[= <- <-]|H]%elem_of_cons; [by rewrite String.eqb_refl|].
  destruct (String.eqb k k0); [done|by apply IH].
Qed.

Lemma validate_fields_pass_through rt vf entries properties path st st' :
  validate_fields rt vf entries properties path st = Ok st' →
  NoDup entries.*1 →
  (∀ k v, (k, v) ∈ entries → py_contains properties (VStr k) = Ok false →
     dict_get k (o_data st') = Some v
     ∧ unknown_field_warning path k ∈ o_warnings st')
  ∧ (∀ k, k ∉ entries.*1 → dict_get k (o_data st') = dict_get k (o_data st))
  ∧ (∀ w, w ∈ o_warnings st → w ∈ o_warnings st').
Proof.
  revert st. induction entries as [|[k0 v0] rest IH]; intros st; cbn [validate_fields].
  { intros [= <-] _. split; [by intros k v ?%elem_of_nil|done]. }
  destruct (py_contains properties (VStr k0)) as [known|e] eqn:Hk; [|done].
  cbn [mbind pyresult_bind fmap list_fmap fst].
  intros H [Hfresh Hnodup]%NoDup_cons.
  assert (Hstep : ∃ st1,
    validate_fields rt vf rest properties path st1 = Ok st'
    ∧ (∀ k, k ≠ k0 → dict_get k (o_data st1) = dict_get k (o_data st))
    ∧ (∀ w, w ∈ o_warnings st → w ∈ o_warnings st1)
    ∧ (known = false → dict_get k0 (o_data st1) = Some v0
                       ∧ unknown_field_warning path k0 ∈ o_warnings st1)).
  { destruct known; cbn [negb] in H.
    - destruct (py_getitem (py_repr rt) properties (VStr k0)) as [field_schema|e]; [|done].
      cbn [mbind pyresult_bind] in H. cbv zeta in H.
      eexists. split; [exact H|].
      destruct (valid _); cbn; repeat split; try done.
      + intros k Hne. rewrite dict_get_set. by destruct (String.eqb_spec k k0).
      + intros w Hw. apply elem_of_app. by left.
    - eexists. split; [exact H|]. cbn. repeat split.
      + intros k Hne. rewrite dict_get_set. by destruct (String.eqb_spec k k0).
      + intros w Hw. apply elem_of_app. by left.
      + by rewrite dict_get_set, String.eqb_refl.
      + apply elem_of_app. right. apply list_elem_of_singleton. reflexivity. }
  destruct Hstep as (st1 & Hrest & Hother & Hwarn & Hhere).
  destruct (IH st1 Hrest Hnodup) as (IH1 & IH2 & IH3).
  split; [|split].
  - intros k v [[= -> ->]|Hin]%elem_of_cons Hunknown.
    + rewrite Hk in Hunknown. injection Hunknown as ->.
      destruct (Hhere eq_refl) as [Hd Hw]. split; [|by apply IH3].
      by rewrite (IH2 k0 Hfresh).
    + by apply IH1.
  - intros k Hk0. apply not_elem_of_cons in Hk0 as [Hne Hk0].
    rewrite (IH2 k Hk0). by apply Hother.
  - intros w Hw. by apply IH3, Hwarn.
Qed.

Lemma apply_defaults_keeps rt declared st st' :
  apply_defaults rt declared st = Ok st' →
  (∀ k, dict_has k (o_data st) = true → dict_get k (o_data st') = dict_get k (o_data st))
  ∧ (∀ w, w ∈ o_warnings st → w ∈ o_warnings st').
Proof.
  revert st. induction declared as [|[k0 fs] rest IH]; intros st; cbn [apply_defaults].
  { by intros [= <-]. }
  destruct (dict_has k0 (o_data st)) eqn:Hhas; [by apply IH|].
  destruct (py_contains fs (VStr "default")) as [has|e]; [|done].
  cbn [mbind pyresult_bind]. destruct has; cbn [negb]; [|by apply IH].
  destruct (py_getitem (py_repr rt) fs (VStr "default")) as [dv|e]; [|done].
  cbn [mbind pyresult_bind]. destruct (field_path_var st); [|done].
  intros H. destruct (IH _ H) as [IH1 IH2]. cbn in IH1, IH2. split.
  - intros k Hk. assert (Hne : k ≠ k0) by (intros ->; congruence).
    rewrite IH1.
    + rewrite dict_get_set. by destruct (String.eqb_spec k k0).
    + unfold dict_has in *. rewrite dict_get_set. by destruct (String.eqb_spec k k0).
  - intros w Hw. apply IH2, elem_of_app. by left.
Qed.

Lemma check_required_keeps rt required data path st st' :
  check_required rt required data path st = Ok st' →
  o_data st' = o_data st ∧ o_warnings st' = o_warnings st
  ∧ field_path_var st' = field_path_var st.
Proof.
  revert st. induction required as [|f rest IH]; intros st; cbn.
  { by intros [= <-]. }
  destruct (py_contains data f) as [present|e]; [|done]. cbn [mbind pyresult_bind].
  intros H. apply IH in H as (-> & -> & ->). by destruct present.
Qed.

(** X16.  Undeclared fields pass through: a key of the document that the
    properties of the schema do not hold is in the validated data with the
    value it came with, and a warning names it. *)
Theorem unknown_fields_pass_through (rt : runtime) (doc : dict) (schema properties : pyval)
    (path : string) (validation_result : validation_result) (field_name : string)
    (field_value : pyval) :
  _validate_object_recursive rt (VDict doc) schema path = Ok validation_result →
  py_get schema "properties" (VDict []) = Ok properties →
  NoDup doc.*1 →
  (field_name, field_value) ∈ doc →
  py_contains properties (VStr field_name) = Ok false →
  ∃ data,
    v_data validation_result = VDict data
    ∧ dict_get field_name data = Some field_value
    ∧ ("Unknown field '" +:+ path +:+ "." +:+ field_name +:+ "' - will be passed through")
      ∈ v_warnings validation_result.
Proof.
  intros H Hp Hnodup Hin Hunknown. revert H.
  unfold _validate_object_recursive, validate_object. rewrite Hp.
  cbn [mbind pyresult_bind].
  destruct (py_get schema "required" (VList [])) as [required|e]; [|done].
  cbn [mbind pyresult_bind].
  destruct (py_iter required) as [required_list|e]; [|done].
  cbn [mbind pyresult_bind].
  destruct (check_required rt required_list _ path _) as [st|e] eqn:Hr; [|done].
  cbn [mbind pyresult_bind].
  destruct (validate_fields _ _ _ _ _ _) as [st1|e] eqn:Hf; [|done].
  cbn [mbind pyresult_bind].
  destruct (py_items properties) as [declared|e]; [|done].
  cbn [mbind pyresult_bind].
  destruct (apply_defaults rt declared st1) as [st2|e] eqn:Hd; [|done].
  cbn [mbind pyresult_bind]. intros [= <-]. cbn.
  destruct (validate_fields_pass_through _ _ _ _ _ _ _ Hf Hnodup) as (H1 & _ & _).
  destruct (H1 _ _ Hin Hunknown) as [Hget Hwarn].
  destruct (apply_defaults_keeps _ _ _ _ Hd) as [H2 H3].
  exists (o_data st2). repeat split.
  - rewrite H2; [done|]. unfold dict_has. by rewrite Hget.
  - by apply H3.
Qed.

Lemma unknown_fields_pass_through_witness :
  ∃ data,
    v_data (ValidationResult true
              (VDict [("naics_code", VStr "541511"); ("note", VInt 7)]) []
              ["Unknown field 'root.note' - will be passed through"])
    = VDict data
    ∧ dict_get "note" data = Some (VInt 7)
    ∧ ("Unknown field '" +:+ "root" +:+ "." +:+ "note" +:+ "' - will be passed through")
      ∈ v_warnings (ValidationResult true
                      (VDict [("naics_code", VStr "541511"); ("note", VInt 7)]) []
                      ["Unknown field 'root.note' - will be passed through"]).
Proof.
  apply (unknown_fields_pass_through Samples.plain_runtime
           [("naics_code", VInt 541511); ("note", VInt 7)] Samples.naics_schema
           (VDict [("naics_code", VDict [("type", VStr "string")])]) "root").
  - reflexivity.
  - reflexivity.
  - apply (bool_decide_unpack (NoDup ["naics_code"; "note"])). by vm_compute.
  - apply elem_of_cons. right. apply list_elem_of_here.
  - reflexivity.
Defined.

(** *** Defaults *)

Lemma validate_fields_all_unknown rt vf entries (props : dict) path st :
  (∀ k v, (k, v) ∈ entries → dict_has k props = false) →
  ∃ st', validate_fields rt vf entries (VDict props) path st = Ok st'
         ∧ field_path_var st' = field_path_var st
         ∧ ∀ k, dict_has k (o_data st') = true →
                dict_has k (o_data st) = true ∨ dict_has k entries = true.
Proof.
  revert st. induction entries as [|[k0 v0] rest IH]; intros st Hall; cbn [validate_fields].
  { exists st. repeat split. intros k Hk. by left. }
  cbn [py_contains]. rewrite (Hall k0 v0) by apply list_elem_of_here.
  cbn [mbind pyresult_bind negb].
  edestruct IH as (st' & -> & Hpath & Hkeys).
  { intros k v Hin. apply (Hall k v). by apply list_elem_of_further. }
  exists st'. split; [done|]. split; [done|].
  intros k Hk. destruct (Hkeys k Hk) as [H|H].
  - cbn in H. unfold dict_has in *. rewrite dict_get_set in H. cbn.
    destruct (String.eqb k k0); [by right|by left].
  - right. unfold dict_has in *. cbn. by destruct (String.eqb k k0).
Qed.

Lemma apply_defaults_unbound rt declared st k fs :
  field_path_var st = None →
  (k, VDict fs) ∈ declared →
  dict_has k (o_data st) = false →
  dict_has "default" fs = true →
  ∃ e, apply_defaults rt declared st = Raise e.
Proof.
  intros Hpath Hin Hk Hdefault.
  induction declared as [|[k0 fs0] rest IH]; [by apply elem_of_nil in Hin|].
  cbn [apply_defaults].
  apply elem_of_cons in Hin as [[= <- <-]|Hin].
  - rewrite Hk. cbn [py_contains]. rewrite Hdefault. cbn [mbind pyresult_bind negb].
    unfold dict_has in Hdefault. cbn [py_getitem].
    destruct (dict_get "default" fs); [|done]. cbn [mbind pyresult_bind].
    rewrite Hpath. by eexists.
  - destruct (dict_has k0 (o_data st)); [by apply IH|].
    destruct (py_contains fs0 (VStr "default")) as [has|e]; [|by eexists].
    cbn [mbind pyresult_bind]. destruct has; cbn [negb]; [|by apply IH].
    destruct (py_getitem (py_repr rt) fs0 (VStr "default")); [|by eexists].
    cbn [mbind pyresult_bind]. rewrite Hpath. by eexists.
Qed.

(** X17.  Defaults need a declared field in the document: when the
    document holds none of the declared fields and the schema declares a
    typed field with a default, no default is applied; the validation is
    aborted instead and the result is invalid, with empty data and a single
    error that starts with [Validation error]. *)
Theorem defaults_need_a_declared_field (rt : runtime) (doc input_schema props : dict)
    (field_name : string) (field_schema : dict) :
  dict_get "properties" input_schema = Some (VDict props) →
  dict_get "_wrapper_key" input_schema = None →
  (field_name, VDict field_schema) ∈ props →
  typed (VDict field_schema) = true →
  dict_has "default" field_schema = true →
  (∀ k v, (k, v) ∈ doc → dict_has k props = false) →
  ∃ reason,
    validate_input rt (VDict doc) (VDict input_schema)
    = ValidationResult false (VDict []) ["Validation error: " +:+ reason] [].
Proof.
  intros Hp Hw Hin Htyped Hdefault Hdoc.
  assert (Hn : _normalize_schema (VDict input_schema) = Ok (VDict input_schema)).
  { unfold _normalize_schema. cbn [py_get]. rewrite Hp. cbn [mbind pyresult_bind].
    destruct props as [|[k1 wv] [|]]; try done.
    apply list_elem_of_singleton in Hin as [= <- <-].
    by rewrite (typed_not_wrapper _ Htyped). }
  assert (Htruthy : truthy (VDict props) = true).
  { destruct props; [by apply elem_of_nil in Hin|done]. }
  assert (Hraise : ∃ e, _validate_object_recursive rt (VDict doc) (VDict input_schema) "root"
                        = Raise e).
  { unfold _validate_object_recursive, validate_object. cbn [py_get]. rewrite Hp.
    cbn [mbind pyresult_bind].
    destruct (py_iter _) as [required_list|e]; [|by eexists].
    cbn [mbind pyresult_bind].
    destruct (check_required rt required_list _ _ _) as [st|e] eqn:Hr; [|by eexists].
    cbn [mbind pyresult_bind].
    apply check_required_keeps in Hr as (Hdata & _ & Hpath). cbn in Hdata, Hpath.
    destruct (validate_fields_all_unknown rt (_validate_field_recursive rt) doc props "root"
                st Hdoc) as (st1 & -> & Hpath1 & Hkeys).
    cbn [mbind pyresult_bind py_items].
    destruct (apply_defaults_unbound rt props st1 field_name field_schema) as (e & ->);
      try done.
    - by rewrite Hpath1.
    - destruct (dict_has field_name (o_data st1)) eqn:Hhas; [|done].
      destruct (Hkeys _ Hhas) as [H|H].
      + by rewrite Hdata in H.
      + unfold dict_has in H. destruct (dict_get field_name doc) as [v|] eqn:Hg; [|done].
        assert (Hv : ∃ v', (field_name, v') ∈ doc).
        { clear -Hg. induction doc as [|[k0 v0] doc IH]; [done|]. cbn in Hg.
          destruct (String.eqb_spec field_name k0) as [->|Hne].
          - exists v0. apply list_elem_of_here.
          - destruct (IH Hg) as (v' & Hv'). exists v'. by apply list_elem_of_further. }
        destruct Hv as (v' & Hv'). specialize (Hdoc _ _ Hv').
        by rewrite (dict_has_elem _ _ _ Hin) in Hdoc.
    - by eexists. }
  destruct Hraise as (e & Hraise).
  exists (exn_msg e). unfold validate_input, validate_input_body.
  rewrite Hn. cbn [mbind pyresult_bind py_get]. rewrite Hw, Hp.
  cbn [truthy mbind pyresult_bind]. cbn [truthy] in Htruthy. rewrite Htruthy. cbn [negb].
  by rewrite Hraise.
Qed.

Lemma defaults_need_a_declared_field_witness :
  ∃ reason,
    validate_input Samples.plain_runtime (VDict [])
      (VDict [("properties",
               VDict [("limit", VDict [("type", VStr "integer"); ("default", VInt 10)])])])
    = ValidationResult false (VDict []) ["Validation error: " +:+ reason] [].
Proof.
  apply (defaults_need_a_declared_field Samples.plain_runtime [] _
           [("limit", VDict [("type", VStr "integer"); ("default", VInt 10)])]
           "limit" [("type", VStr "integer"); ("default", VInt 10)]).
  - reflexivity.
  - reflexivity.
  - apply list_elem_of_here.
  - reflexivity.
  - reflexivity.
  - by intros k v ?%elem_of_nil.
Defined.

End ObjectFacts.

(** ** The data of a failed validation *)

Section DataFacts.
Import PyStr Py SchemaValidator.

Lemma dict_get_fresh k (d : dict) : k ∉ d.*1 → dict_get k d = None.
Proof.
  induction d as [|[k0 v0] d IH]; [done|]. cbn. intros [Hne Hk]%not_elem_of_cons.
  destruct (String.eqb_spec k k0); [done|]. by apply IH.
Qed.

Lemma no_default_declared field_schema :
  py_contains field_schema (VStr "default") = Ok false → declared_default field_schema = None.
Proof.
  destruct field_schema as [| | | | | |entries]; cbn; try done.
  unfold dict_has. by destruct (dict_get "default" entries).
Qed.

Lemma default_declared rt field_schema default_value :
  py_getitem (py_repr rt) field_schema (VStr "default") = Ok default_value →
  declared_default field_schema = Some default_value.
Proof.
  destruct field_schema as [| | | | | |entries]; cbn; try done.
  destruct (dict_get "default" entries); [by intros [= ->]|done].
Qed.

(** The data after the loop over the document. *)
Lemma validate_fields_data rt entries declared path st st' :
  validate_fields rt (_validate_field_recursive rt) entries (VDict declared) path st = Ok st' →
  NoDup entries.*1 →
  ∀ k, dict_get k (o_data st')
       = match dict_get k entries with
         | Some v =>
             match dict_get k declared with
             | None => Some v
             | Some field_schema =>
                 let field_result :=
                   _validate_field_recursive rt k v field_schema (qualify path k) in
                 if valid field_result then Some (value field_result)
                 else dict_get k (o_data st)
             end
         | None => dict_get k (o_data st)
         end.
Proof.
  revert st. induction entries as [|[k0 v0] rest IH]; intros st; cbn [validate_fields].
  { by intros [= <-] _ k. }
  cbn [py_contains mbind pyresult_bind fmap list_fmap fst].
  intros H [Hfresh Hnodup]%NoDup_cons k.
  apply dict_get_fresh in Hfresh.
  cbn [dict_get]. unfold dict_has in H.
  destruct (dict_get k0 declared) as [field_schema|] eqn:Hdecl; cbn [negb] in H.
  - cbn [py_getitem] in H. rewrite Hdecl in H. cbn [mbind pyresult_bind] in H.
    cbv zeta in H. rewrite (IH _ H Hnodup k).
    destruct (String.eqb_spec k k0) as [->|Hne].
    + rewrite Hfresh, Hdecl. cbv zeta.
      destruct (valid _); cbn [o_data]; [|done].
      by rewrite dict_get_set, String.eqb_refl.
    + destruct (valid (_validate_field_recursive rt k0 v0 field_schema (qualify path k0)));
        cbn [o_data]; [|done].
      rewrite dict_get_set. by destruct (String.eqb_spec k k0).
  - rewrite (IH _ H Hnodup k). cbn [o_data].
    destruct (String.eqb_spec k k0) as [->|Hne].
    + by rewrite Hfresh, Hdecl, dict_get_set, String.eqb_refl.
    + rewrite dict_get_set. by destruct (String.eqb_spec k k0).
Qed.

(** The data after the loop over the properties. *)
Lemma apply_defaults_data rt remaining st st' :
  apply_defaults rt remaining st = Ok st' →
  NoDup remaining.*1 →
  ∀ k, dict_get k (o_data st')
       = match dict_get k (o_data st) with
         | Some v => Some v
         | None =>
             match dict_get k remaining with
             | Some field_schema => declared_default field_schema
             | None => None
             end
         end.
Proof.
  revert st. induction remaining as [|[k0 field_schema] rest IH]; intros st;
    cbn [apply_defaults].
  { intros [= <-] _ k. by destruct (dict_get k (o_data st)). }
  cbn [fmap list_fmap fst]. intros H [Hfresh Hnodup]%NoDup_cons k.
  apply dict_get_fresh in Hfresh. cbn [dict_get].
  unfold dict_has in H.
  destruct (dict_get k0 (o_data st)) as [held|] eqn:Hheld.
  { rewrite (IH _ H Hnodup k).
    destruct (String.eqb_spec k k0) as [->|Hne]; [by rewrite Hheld|done]. }
  destruct (py_contains field_schema (VStr "default")) as [has|e] eqn:Hhas; [|done].
  cbn [mbind pyresult_bind] in H. destruct has; cbn [negb] in H.
  - destruct (py_getitem (py_repr rt) field_schema (VStr "default"))
      as [default_value|e] eqn:Hget; [|done].
    cbn [mbind pyresult_bind] in H. destruct (field_path_var st); [|done].
    rewrite (IH _ H Hnodup k). cbn [o_data]. rewrite dict_get_set.
    destruct (String.eqb_spec k k0) as [->|Hne]; [|done].
    by rewrite Hheld, (default_declared _ _ _ Hget).
  - rewrite (IH _ H Hnodup k).
    destruct (String.eqb_spec k k0) as [->|Hne]; [|done].
    by rewrite Hheld, Hfresh, (no_default_declared _ Hhas).
Qed.

(** The data of an object validation, key by key. *)
Lemma validate_object_data rt data schema path r :
  _validate_object_recursive rt data schema path = Ok r →
  ∃ doc declared d,
    data = VDict doc
    ∧ py_get schema "properties" (VDict []) = Ok (VDict declared)
    ∧ v_data r = VDict d
    ∧ (NoDup doc.*1 → NoDup declared.*1 →
       ∀ k, dict_get k d = expected_entry rt doc declared path k).
Proof.
  unfold _validate_object_recursive, validate_object.
  destruct (py_get schema "properties" (VDict [])) as [properties|e]; [|done].
  cbn [mbind pyresult_bind].
  destruct (py_get schema "required" (VList [])) as [required|e]; [|done].
  cbn [mbind pyresult_bind].
  destruct (py_iter required) as [required_list|e]; [|done].
  cbn [mbind pyresult_bind].
  destruct (check_required rt required_list data path _) as [st|e] eqn:Hr; [|done].
  cbn [mbind pyresult_bind]. apply check_required_keeps in Hr as (Hdata & _ & _).
  cbn in Hdata.
  destruct data as [| | | | | |doc]; try done.
  destruct (validate_fields _ _ _ _ _ _) as [st1|e] eqn:Hf; [|done].
  cbn [mbind pyresult_bind].
  destruct (py_items properties) as [declared|e] eqn:Hi; [|done].
  cbn [mbind pyresult_bind].
  destruct (apply_defaults rt declared st1) as [st2|e] eqn:Hd; [|done].
  cbn [mbind pyresult_bind]. intros [= <-]. cbn [v_data].
  destruct properties as [| | | | | |declared']; try done.
  injection Hi as ->.
  exists doc, declared, (o_data st2). do 3 (split; [done|]).
  intros Hdoc Hdeclared k.
  rewrite (apply_defaults_data _ _ _ _ Hd Hdeclared k).
  rewrite (validate_fields_data _ _ _ _ _ _ Hf Hdoc k).
  rewrite Hdata. unfold expected_entry. cbn [dict_get].
  destruct (dict_get k doc) as [v|], (dict_get k declared) as [field_schema|]; try done.
  cbv zeta. by destruct (valid _).
Qed.

(** C5, amended.  When [validate_input] returns [valid = false], either
    the validation was aborted by an exception and the data is empty, or
    the result is that of the object validation on the document (unwrapped
    if the schema is a wrapper), handed back as it is: under each key of
    the document that the schema does not declare its data holds the raw
    value, under each declared key of the document whose field validated
    the converted value, under each other declared key (one absent from the
    document, or one whose field failed) the declared default if there is
    one, and nothing under any other key.  So the fields that passed are
    kept converted beside the ones that failed. *)
Theorem failed_validation_data (rt : runtime) (user_input input_schema : pyval) :
  v_valid (validate_input rt user_input input_schema) = false →
  let r := validate_input rt user_input input_schema in
  (∃ e, validate_input_body rt user_input input_schema = Raise e
        ∧ r = ValidationResult false (VDict []) ["Validation error: " +:+ exn_msg e] [])
  ∨ (∃ normalized_schema wrapper_key doc declared d,
        _normalize_schema input_schema = Ok normalized_schema
        ∧ py_get normalized_schema "_wrapper_key" VNone = Ok wrapper_key
        ∧ validation_data_of rt user_input wrapper_key = Ok (VDict doc)
        ∧ py_get normalized_schema "properties" (VDict []) = Ok (VDict declared)
        ∧ _validate_object_recursive rt (VDict doc) normalized_schema "root" = Ok r
        ∧ v_data r = VDict d
        ∧ (NoDup doc.*1 → NoDup declared.*1 →
           ∀ k, dict_get k d = expected_entry rt doc declared "root" k)).
Proof.
  cbv zeta. unfold validate_input.
  destruct (validate_input_body rt user_input input_schema) as [r|e] eqn:Hb.
  2:{ intros _. left. by exists e. }
  intros Hv. right. unfold validate_input_body in Hb.
  destruct (_normalize_schema input_schema) as [normalized|e] eqn:Hn; [|done].
  cbn [mbind pyresult_bind] in Hb.
  destruct (py_get normalized "_wrapper_key" VNone) as [wrapper_key|e] eqn:Hk; [|done].
  cbn [mbind pyresult_bind] in Hb.
  fold (validation_data_of rt user_input wrapper_key) in Hb.
  destruct (validation_data_of rt user_input wrapper_key) as [validation_data|e] eqn:Hd;
    [|done].
  cbn [mbind pyresult_bind] in Hb.
  destruct (py_get normalized "properties" VNone) as [props|e]; [|done].
  cbn [mbind pyresult_bind] in Hb.
  destruct (negb (truthy props)).
  { injection Hb as <-. done. }
  destruct (_validate_object_recursive rt validation_data normalized "root")
    as [vr|e] eqn:Hvr; [|done].
  cbn [mbind pyresult_bind] in Hb.
  destruct (truthy wrapper_key && v_valid vr) eqn:Hw.
  { apply andb_true_iff in Hw as [_ Hw].
    destruct (wrap_under rt wrapper_key (v_data vr)); [|done].
    cbn in Hb. injection Hb as <-. cbn in Hv. congruence. }
  injection Hb as <-.
  destruct (validate_object_data rt _ _ _ _ Hvr) as (doc & declared & d & -> & H1 & H2 & H3).
  by exists normalized, wrapper_key, doc, declared, d.
Qed.

(** C5, at a document of which one field converts and the other does
    not: the validation fails and the data holds the converted field. *)
Lemma failed_validation_keeps_converted_values :
  validate_input Samples.plain_runtime Samples.half_valid_input Samples.two_integers
  = ValidationResult false (VDict [("a", VInt 5)])
      ["Field 'b': Cannot convert 'x' to integer"] [].
Proof. by vm_compute. Qed.

Lemma failed_validation_data_witness :
  let r := validate_input Samples.plain_runtime Samples.half_valid_input Samples.two_integers in
  (∃ e, validate_input_body Samples.plain_runtime Samples.half_valid_input
          Samples.two_integers = Raise e
        ∧ r = ValidationResult false (VDict []) ["Validation error: " +:+ exn_msg e] [])
  ∨ (∃ normalized_schema wrapper_key doc declared d,
        _normalize_schema Samples.two_integers = Ok normalized_schema
        ∧ py_get normalized_schema "_wrapper_key" VNone = Ok wrapper_key
        ∧ validation_data_of Samples.plain_runtime Samples.half_valid_input wrapper_key
          = Ok (VDict doc)
        ∧ py_get normalized_schema "properties" (VDict []) = Ok (VDict declared)
        ∧ _validate_object_recursive Samples.plain_runtime (VDict doc) normalized_schema
            "root" = Ok r
        ∧ v_data r = VDict d
        ∧ (NoDup doc.*1 → NoDup declared.*1 →
           ∀ k, dict_get k d
                = expected_entry Samples.plain_runtime doc declared "root" k)).
Proof.
  apply (failed_validation_data Samples.plain_runtime Samples.half_valid_input
           Samples.two_integers).
  reflexivity.
Defined.

(** A field that fails takes its declared default: the data of the failed
    validation holds a value under the key of the failed field. *)
Example failed_field_takes_its_default :
  validate_input Samples.plain_runtime (VDict [("a", VStr "x")])
    (VDict [("properties",
             VDict [("a", VDict [("type", VStr "integer"); ("default", VInt 0)])])])
  = ValidationResult false (VDict [("a", VInt 0)])
      ["Field 'a': Cannot convert 'x' to integer"]
      ["Applied default value for 'a': 0"].
Proof. by vm_compute. Qed.

End DataFacts.

Section ConsistencyFacts.
Import PyStr Py SchemaValidator.

(** Induction on a value, with the property at hand for the items of a
    list and for the values of a dictionary. *)
Lemma pyval_nested_ind (P : pyval → Prop) :
  P VNone → (∀ b, P (VBool b)) → (∀ n, P (VInt n)) → (∀ x, P (VFloat x)) →
  (∀ s, P (VStr s)) →
  (∀ items, Forall P items → P (VList items)) →
  (∀ entries, Forall (fun kv => P kv.2) entries → P (VDict entries)) →
  ∀ v, P v.
Proof.
  intros HN HB HI HF HS HL HD. fix IH 1. intros [|b|n|x|s|items|entries].
  - exact HN.
  - apply HB.
  - apply HI.
  - apply HF.
  - apply HS.
  - apply HL. induction items as [|item items IHitems]; constructor; [apply IH|exact IHitems].
  - apply HD. induction entries as [|[k v] entries IHentries]; constructor;
      [apply IH|exact IHentries].
Qed.

Lemma consistent_add_error msg r : consistent (add_error msg r).
Proof. unfold consistent. cbn. split; [done|]. by destruct (errors r). Qed.

Lemma consistent_field_exception path r e : consistent (field_exception path r e).
Proof. apply consistent_add_error. Qed.

Lemma consistent_constraints rt name v schema r :
  consistent r → consistent (_validate_constraints rt name v schema r).1.
Proof.
  intros Hr.
  destruct (appends_errors_validate_constraints rt name v schema r) as (more & ->).
  unfold consistent in *. cbn. destruct more as [|m more].
  - by rewrite andb_true_r, app_nil_r.
  - rewrite andb_false_r. split; [done|]. by destruct (errors r).
Qed.

Lemma consistent_validate_simple rt name v t schema path r :
  consistent r → consistent (validate_simple rt name v t schema path r).
Proof.
  intros Hr. unfold validate_simple.
  assert (Hc : ∀ r0, consistent r0 →
    consistent match _validate_constraints rt name (value r0) schema r0 with
               | (result, None) => result
               | (result, Some e) => field_exception path result e
               end).
  { intros r0 Hr0. pose proof (consistent_constraints rt name (value r0) schema r0 Hr0) as H.
    destruct (_validate_constraints _ _ _ _ _) as [r1 [e|]];
      [apply consistent_field_exception|exact H]. }
  destruct v; try by apply Hc.
  all: destruct (_convert_type _ _ _) as [cv|e]; cbn [mbind pyresult_bind];
    [by apply Hc|apply consistent_field_exception].
Qed.

Lemma consistent_union_step rt name v schema st t :
  consistent (u_result st) →
  match union_step rt name v schema st t with
  | inl (st', _) => consistent (u_result st')
  | inr _ => True
  end.
Proof.
  intros Hst. unfold union_step.
  assert (Hcaught : ∀ r e, consistent r →
    match (if catchable e
           then inl (UnionState r false
                       (conversion_errors st ++
                        ["Cannot convert to " +:+ py_str rt t +:+ ": " +:+ exn_msg e]),
                     false)
           else inr (r, e)) : union_state * bool + field_result * exn with
    | inl (st', _) => consistent (u_result st')
    | inr _ => True
    end).
  { intros r e Hr. by destruct (catchable e). }
  assert (Hrest : ∀ r0, consistent r0 →
    match
      match _validate_constraints rt name (value r0) (dict_set "type" t schema) r0 with
      | (result, Some e) =>
          if catchable e
          then inl (UnionState result false
                      (conversion_errors st ++
                       ["Cannot convert to " +:+ py_str rt t +:+ ": " +:+ exn_msg e]),
                    false)
          else inr (result, e)
      | (result, None) =>
          if valid result then
            inl (UnionState
                   (FieldResult (valid result) (value result) (errors result)
                      (warnings result ++
                       ["Field '" +:+ name +:+ "' validated as " +:+ py_str rt t]))
                   true (conversion_errors st),
                 true)
          else
            inl (UnionState
                   (FieldResult true (value result) [] (warnings result))
                   false
                   (conversion_errors st ++
                    ["Type " +:+ py_str rt t +:+ " failed constraints: "
                     +:+ str_of_list rt (errors result)]),
                 false)
      end : union_state * bool + field_result * exn
    with
    | inl (st', _) => consistent (u_result st')
    | inr _ => True
    end).
  { intros r0 Hr0.
    pose proof (consistent_constraints rt name (value r0) (dict_set "type" t schema) r0 Hr0)
      as H.
    destruct (_validate_constraints _ _ _ _ _) as [r1 [e|]]; cbn [fst] in H.
    - by apply Hcaught.
    - destruct (valid r1) eqn:Hv; cbn; [|done]. unfold consistent in *. cbn. by rewrite Hv in H. }
  destruct v; try by apply Hrest.
  all: destruct (_convert_type _ _ _) as [cv|e]; cbn [mbind pyresult_bind];
    [by apply Hrest|by apply Hcaught].
Qed.

Lemma consistent_union_loop rt name v schema union st :
  consistent (u_result st) →
  match union_loop rt name v schema union st with
  | inl st' => consistent (u_result st')
  | inr _ => True
  end.
Proof.
  revert st. induction union as [|t rest IH]; intros st Hst; [done|].
  cbn [union_loop]. pose proof (consistent_union_step rt name v schema st t Hst) as H.
  destruct (union_step _ _ _ _ _ _) as [[st' [|]]|abort]; [done|by apply IH|done].
Qed.

Lemma consistent_validate_union rt name v schema union path r :
  consistent r → consistent (validate_union rt name v schema union path r).
Proof.
  intros Hr. unfold validate_union.
  pose proof (consistent_union_loop rt name v schema union (UnionState r false []) Hr) as H.
  destruct (union_loop _ _ _ _ _ _) as [st|[r' e]].
  - destruct (conversion_successful st); [done|apply consistent_add_error].
  - apply consistent_field_exception.
Qed.

Lemma consistent_check_required rt required data path st st' :
  consistent_state st →
  check_required rt required data path st = Ok st' → consistent_state st'.
Proof.
  revert st. induction required as [|f rest IH]; intros st Hst; cbn.
  { by intros [= <-]. }
  destruct (py_contains data f) as [present|e]; [|done]. cbn [mbind pyresult_bind].
  apply IH. destruct present; [done|]. unfold consistent_state. cbn.
  split; [done|]. by destruct (o_errors st).
Qed.

Lemma consistent_validate_fields rt vf entries properties path st st' :
  (∀ k v schema p, (k, v) ∈ entries → consistent (vf k v schema p)) →
  consistent_state st →
  validate_fields rt vf entries properties path st = Ok st' → consistent_state st'.
Proof.
  revert st. induction entries as [|[k0 v0] rest IH]; intros st Hvf Hst; cbn [validate_fields].
  { by intros [= <-]. }
  assert (Hrest : ∀ k v schema p, (k, v) ∈ rest → consistent (vf k v schema p)).
  { intros k v schema p Hin. apply Hvf. by apply list_elem_of_further. }
  destruct (py_contains properties (VStr k0)) as [known|e]; [|done].
  cbn [mbind pyresult_bind]. destruct known; cbn [negb].
  - destruct (py_getitem (py_repr rt) properties (VStr k0)) as [field_schema|e]; [|done].
    cbn [mbind pyresult_bind]. cbv zeta.
    pose proof (Hvf k0 v0 field_schema (qualify path k0) (list_elem_of_here _ _)) as Hc.
    apply IH; [done|].
    destruct (valid _) eqn:Hv; [done|].
    unfold consistent_state, consistent in *. cbn. split; [done|].
    intros [_ He]%app_eq_nil. rewrite Hv in Hc. by apply Hc in He.
  - by apply IH.
Qed.

Lemma consistent_apply_defaults rt declared st st' :
  consistent_state st → apply_defaults rt declared st = Ok st' → consistent_state st'.
Proof.
  revert st. induction declared as [|[k0 fs] rest IH]; intros st Hst; cbn [apply_defaults].
  { by intros [= <-]. }
  destruct (dict_has k0 (o_data st)); [by apply IH|].
  destruct (py_contains fs (VStr "default")) as [has|e]; [|done].
  cbn [mbind pyresult_bind]. destruct has; cbn [negb]; [|by apply IH].
  destruct (py_getitem (py_repr rt) fs (VStr "default")) as [dv|e]; [|done].
  cbn [mbind pyresult_bind]. destruct (field_path_var st); [|done].
  by apply IH.
Qed.

Lemma consistent_validate_object rt vf data schema path r :
  (∀ entries k v schema p, data = VDict entries → (k, v) ∈ entries →
     consistent (vf k v schema p)) →
  validate_object rt vf data schema path = Ok r → consistent_result r.
Proof.
  intros Hvf. unfold validate_object.
  destruct (py_get schema "properties" (VDict [])) as [properties|e]; [|done].
  cbn [mbind pyresult_bind].
  destruct (py_get schema "required" (VList [])) as [required|e]; [|done].
  cbn [mbind pyresult_bind].
  destruct (py_iter required) as [required_list|e]; [|done].
  cbn [mbind pyresult_bind].
  destruct (check_required rt required_list data path _) as [st|e] eqn:Hr; [|done].
  cbn [mbind pyresult_bind].
  apply consistent_check_required in Hr; [|done].
  destruct data as [| | | | | |doc]; try done.
  destruct (validate_fields _ _ _ _ _ _) as [st1|e] eqn:Hf; [|done].
  cbn [mbind pyresult_bind].
  apply consistent_validate_fields in Hf; [|by intros; eapply Hvf|done].
  destruct (py_items properties) as [declared|e]; [|done].
  cbn [mbind pyresult_bind].
  destruct (apply_defaults rt declared st1) as [st2|e] eqn:Hd; [|done].
  cbn [mbind pyresult_bind]. intros [= <-].
  by apply consistent_apply_defaults in Hd.
Qed.

Lemma consistent_validate_items rt vf items i items_schema path r validated :
  Forall (fun item => ∀ schema p vr,
            validate_object rt vf item schema p = Ok vr → consistent_result vr) items →
  consistent r →
  match validate_items rt vf items i items_schema path r validated with
  | inl (r', _) => consistent r'
  | inr _ => True
  end.
Proof.
  revert i r validated. induction items as [|item rest IH]; intros i r validated Hall Hr;
    [done|].
  apply Forall_cons in Hall as [Hitem Hrest]. cbn [validate_items].
  destruct (validate_object _ _ item _ _) as [vr|e] eqn:Hvr; [|done].
  apply Hitem in Hvr.
  destruct (v_valid vr) eqn:Hv; apply IH; try done.
  unfold consistent, consistent_result in *. cbn. split; [done|].
  intros [_ He]%app_eq_nil. rewrite Hv in Hvr. by apply Hvr in He.
Qed.

(** Both validations, by induction on the value. *)
Lemma consistent_validation rt v :
  (∀ name schema path, consistent (_validate_field_recursive rt name v schema path))
  ∧ (∀ schema path r, _validate_object_recursive rt v schema path = Ok r →
       consistent_result r).
Proof.
  induction v as [|b|n|x|s|items IH|entries IH] using pyval_nested_ind.
  1-5: split;
    [ intros name [| | | | | |schema_entries] path;
      cbn -[validate_union validate_simple field_exception];
      try apply consistent_field_exception;
      destruct (dict_get "type" schema_entries) as [[| | | | | |]|];
      first [ by apply consistent_validate_union | by apply consistent_validate_simple ]
    | intros schema path r; unfold _validate_object_recursive;
      apply consistent_validate_object; by intros entries ] .
  - split.
    + intros name [| | | | | |schema_entries] path;
        cbn -[py_eq py_get validate_items validate_union validate_simple field_exception];
        try apply consistent_field_exception.
      destruct (dict_get "type" schema_entries) as [t|].
      2:{ by apply consistent_validate_simple. }
      assert (Harray :
        consistent
          (if py_eq t (VStr "array") then
             match py_get (match dict_get "items" schema_entries with
                           | Some s => s
                           | None => VDict []
                           end) "type" VNone with
             | Raise e => field_exception path (FieldResult true (VList items) [] []) e
             | Ok items_type =>
                 if py_eq items_type (VStr "object") then
                   match validate_items rt (_validate_field_recursive rt) items 0
                           (match dict_get "items" schema_entries with
                            | Some s => s
                            | None => VDict []
                            end) path (FieldResult true (VList items) [] []) [] with
                   | inl (result, validated_items) =>
                       if valid result then set_value (VList validated_items) result
                       else result
                   | inr (result, e) => field_exception path result e
                   end
                 else FieldResult true (VList items) [] []
             end
           else validate_simple rt name (VList items) t schema_entries path
                  (FieldResult true (VList items) [] []))).
      { destruct (py_eq t (VStr "array")); [|by apply consistent_validate_simple].
        destruct (py_get _ "type" VNone) as [items_type|e];
          [|apply consistent_field_exception].
        destruct (py_eq items_type (VStr "object")); [|done].
        pose proof (consistent_validate_items rt (_validate_field_recursive rt) items 0
                      (match dict_get "items" schema_entries with
                       | Some s => s
                       | None => VDict []
                       end) path (FieldResult true (VList items) [] []) []) as H.
        destruct (validate_items _ _ _ _ _ _ _ _) as [[r' validated]|[r' e]];
          [|apply consistent_field_exception].
        assert (Hr' : consistent r').
        { apply H; [|done]. eapply Forall_impl; [exact IH|].
          intros item [_ Hitem] schema p vr. apply Hitem. }
        by destruct (valid r'). }
      destruct t; first [ by apply consistent_validate_union | exact Harray ].
    + intros schema path r. unfold _validate_object_recursive.
      apply consistent_validate_object. by intros entries.
  - assert (Hobject : ∀ schema path r,
              _validate_object_recursive rt (VDict entries) schema path = Ok r →
              consistent_result r).
    { intros schema path r. unfold _validate_object_recursive.
      apply consistent_validate_object. intros entries' k v schema' p [= <-] Hin.
      rewrite Forall_forall in IH. by destruct (IH _ Hin) as [Hfield _]. }
    split; [|exact Hobject].
    intros name [| | | | | |schema_entries] path;
      cbn -[py_eq validate_object validate_union validate_simple field_exception];
      try apply consistent_field_exception.
    destruct (dict_get "type" schema_entries) as [t|].
    2:{ by apply consistent_validate_simple. }
    assert (Hnested :
      consistent
        (if py_eq t (VStr "object") then
           match validate_object rt (_validate_field_recursive rt) (VDict entries)
                   (VDict schema_entries) path with
           | Ok nested_result =>
               FieldResult (v_valid nested_result) (v_data nested_result)
                 (v_errors nested_result) (v_warnings nested_result)
           | Raise e => field_exception path (FieldResult true (VDict entries) [] []) e
           end
         else validate_simple rt name (VDict entries) t schema_entries path
                (FieldResult true (VDict entries) [] []))).
    { destruct (py_eq t (VStr "object")); [|by apply consistent_validate_simple].
      destruct (validate_object _ _ _ _ _) as [nested|e] eqn:Hn;
        [|apply consistent_field_exception].
      by apply Hobject in Hn. }
    destruct t; first [ by apply consistent_validate_union | exact Hnested ].
Qed.

(** X18.  A result is valid exactly when it lists no error: this holds of
    the result of [validate_input] for every input and schema, and of the
    result of every field validation. *)
Theorem valid_iff_no_errors (rt : runtime) (user_input input_schema : pyval)
    (field_name : string) (value field_schema : pyval) (field_path : string) :
  (v_valid (validate_input rt user_input input_schema) = true
   ↔ v_errors (validate_input rt user_input input_schema) = [])
  ∧ (valid (_validate_field_recursive rt field_name value field_schema field_path) = true
     ↔ errors (_validate_field_recursive rt field_name value field_schema field_path) = []).
Proof.
  split; [|by apply consistent_validation].
  unfold validate_input.
  destruct (validate_input_body rt user_input input_schema) as [r|e] eqn:Hb; [|done].
  unfold validate_input_body in Hb.
  destruct (_normalize_schema input_schema) as [normalized|e]; [|done].
  cbn [mbind pyresult_bind] in Hb.
  destruct (py_get normalized "_wrapper_key" VNone) as [wrapper_key|e]; [|done].
  cbn [mbind pyresult_bind] in Hb.
  match type of Hb with mbind _ ?x = _ => destruct x as [validation_data|e]; [|done] end.
  cbn [mbind pyresult_bind] in Hb.
  destruct (py_get normalized "properties" VNone) as [props|e]; [|done].
  cbn [mbind pyresult_bind] in Hb.
  destruct (negb (truthy props)).
  { by injection Hb as <-. }
  destruct (_validate_object_recursive rt validation_data normalized "root")
    as [vr|e] eqn:Hvr; [|done].
  cbn [mbind pyresult_bind] in Hb.
  apply (consistent_validation rt validation_data) in Hvr.
  destruct (truthy wrapper_key && v_valid vr).
  - destruct (wrap_under rt wrapper_key (v_data vr)); [|done].
    cbn in Hb. by injection Hb as <-.
  - by injection Hb as <-.
Qed.

End ConsistencyFacts.

Section FieldFacts.
Import PyStr Py SchemaValidator.

(** X19.  The two field validations agree away from unions and nesting:
    when the declared type is no union, and the value is no dictionary
    under ["object"] and no list under ["array"], [_validate_field_recursive]
    called with the field's name as its path gives what [_validate_field]
    gives. *)
Theorem field_validations_agree (rt : runtime) (field_name : string) (value : pyval)
    (schema_entries : dict) :
  is_list (declared_type schema_entries) = false →
  (is_dict value = true → py_eq (declared_type schema_entries) (VStr "object") = false) →
  (is_list value = true → py_eq (declared_type schema_entries) (VStr "array") = false) →
  _validate_field_recursive rt field_name value (VDict schema_entries) field_name
  = _validate_field rt field_name value (VDict schema_entries).
Proof.
  unfold _validate_field, declared_type. intros Hunion Hobject Harray.
  destruct value; cbn -[py_eq validate_simple validate_object validate_items py_get];
    destruct (dict_get "type" schema_entries) as [t|]; try done.
  all: destruct t; try done.
  all: first [ rewrite (Hobject eq_refl) | rewrite (Harray eq_refl) ]; done.
Qed.

Lemma field_validations_agree_witness :
  _validate_field_recursive Samples.plain_runtime "age" (VStr "42")
    (VDict [("type", VStr "integer"); ("minimum", VInt 18)]) "age"
  = _validate_field Samples.plain_runtime "age" (VStr "42")
      (VDict [("type", VStr "integer"); ("minimum", VInt 18)]).
Proof.
  apply field_validations_agree; [reflexivity|done|done].
Defined.

(** X20.  A valid field carries the converted value: when [_validate_field]
    accepts a value other than [None], the value of the result is the
    conversion of the given value to the declared type, and the result has
    no error and no warning; when it rejects it after a failed conversion,
    the value of the result is the given value. *)
Theorem valid_field_is_converted (rt : runtime) (field_name : string) (value : pyval)
    (schema_entries : dict) :
  value ≠ VNone →
  let result := _validate_field rt field_name value (VDict schema_entries) in
  match _convert_type rt value (declared_type schema_entries) with
  | Ok converted =>
      SchemaValidator.value result = converted ∧ warnings result = []
      ∧ (valid result = true → errors result = [])
  | Raise e =>
      result = FieldResult false value ["Field '" +:+ field_name +:+ "': " +:+ exn_msg e] []
  end.
Proof.
  intros Hv. cbv zeta. unfold _validate_field, validate_simple. fold (declared_type schema_entries).
  assert (E : match value with
              | VNone => Ok (FieldResult true value [] [])
              | _ => converted_value ← _convert_type rt value (declared_type schema_entries);
                     Ok (set_value converted_value (FieldResult true value [] []))
              end
              = (converted_value ← _convert_type rt value (declared_type schema_entries);
                 Ok (set_value converted_value (FieldResult true value [] [])))).
  { by destruct value. }
  rewrite E. clear E.
  destruct (_convert_type rt value (declared_type schema_entries)) as [converted|e];
    cbn [mbind pyresult_bind]; [|done].
  cbn [SchemaValidator.value set_value].
  destruct (appends_errors_validate_constraints rt field_name converted schema_entries
              (FieldResult true converted [] [])) as (more & H).
  destruct (_validate_constraints _ _ _ _ _) as [r [e|]]; cbn [fst] in H; subst r.
  - cbn. repeat split; try done.
  - cbn. repeat split; try done. by destruct more.
Qed.

Lemma valid_field_is_converted_witness :
  let result := _validate_field Samples.plain_runtime "age" (VStr "x")
                  (VDict [("type", VStr "integer")]) in
  result = FieldResult false (VStr "x") ["Field 'age': Cannot convert 'x' to integer"] [].
Proof.
  apply (valid_field_is_converted Samples.plain_runtime "age" (VStr "x")
           [("type", VStr "integer")]). done.
Defined.

End FieldFacts.

(** ** More on the downloader *)

Section DownloadFacts.
Import PyStr Py GitHubDownloader.

(** X21.  A download reports success exactly when the file was fetched
    and saved: the status of the result is ["success"] if and only if the
    connection and the creation of the target directory succeeded, the
    repository returned the content of [Tools/<tool>.py], and the content
    was written to the path that [pathlib] gives for [<tool>.py] joined to
    the target directory; the result then names that path and the size of
    the file, and nothing is logged.  Every other result is an error with a
    status and a message only. *)
Theorem download_succeeds_iff_fetched (repo : repository) (tool_name target_dir : string) :
  let result := (download_tool_from_github repo tool_name target_dir).1 in
  let tool_file_path := join_path repo target_dir (tool_name +:+ ".py") in
  (dict_get "status" result = Some (VStr "success")
   ↔ connect repo = None ∧ make_target_dir repo target_dir = None
     ∧ ∃ content file_size,
         get_contents repo (tools_folder +:+ "/" +:+ tool_name +:+ ".py") = Ok content
         ∧ save_tool repo tool_file_path content = Ok file_size
         ∧ dict_get "file_path" result = Some (VStr tool_file_path)
         ∧ dict_get "file_size" result = Some (VInt file_size)
         ∧ (download_tool_from_github repo tool_name target_dir).2 = [])
  ∧ (dict_get "status" result = Some (VStr "success")
     ∨ ∃ error_msg, result = error_result error_msg).
Proof.
  cbv zeta. unfold download_tool_from_github.
  destruct (connect repo) as [e|].
  { split; [|right; by eexists]. split; [done|]. by intros [? _]. }
  destruct (make_target_dir repo target_dir) as [e|].
  { split; [|right; by eexists]. split; [done|]. by intros (_ & ? & _). }
  destruct (get_contents repo _) as [content|e] eqn:Hc; cbn [mbind pyresult_bind].
  - destruct (save_tool repo _ content) as [size|e] eqn:Hs.
    + split; [|by left]. split; [|done]. intros _. repeat split; try done.
      by exists content, size.
    + split.
      * split; [by destruct (contains "404" (exn_msg e))|].
        intros (_ & _ & content' & size' & [= <-] & Hs' & _). congruence.
      * right. destruct (contains "404" (exn_msg e)); by eexists.
  - split.
    + split; [by destruct (contains "404" (exn_msg e))|].
      by intros (_ & _ & content' & size' & ? & _).
    + right. destruct (contains "404" (exn_msg e)); by eexists.
Qed.

(** X22.  A suggested name is an available tool: every name that
    [download_tool_from_github] logs as a suggestion is one that
    [list_available_tools] returns for the same repository. *)
Theorem suggestions_are_available (repo : repository) (tool_name target_dir : string)
    (similar_tool : string) :
  Suggestion similar_tool ∈ (download_tool_from_github repo tool_name target_dir).2 →
  similar_tool ∈ list_available_tools repo.
Proof.
  unfold download_tool_from_github, list_available_tools.
  destruct (connect repo) as [e|]; [by intros ?%elem_of_nil|].
  destruct (make_target_dir repo target_dir) as [e|]; [by intros ?%elem_of_nil|].
  match goal with |- context [match ?f with Ok _ => _ | Raise _ => _ end] =>
    destruct f as [size|e] end; [by intros ?%elem_of_nil|].
  destruct (contains "404" (exn_msg e)); [|by intros ?%elem_of_nil].
  unfold suggest. cbn [snd].
  destruct (list_folder repo tools_folder) as [all_files|e']; [|by intros ?%elem_of_nil].
  destruct (similar_tools tool_name (available_tools all_files)) as [|t ts] eqn:Hs;
    [by intros ?%elem_of_nil|].
  intros [?|Hin]%elem_of_cons; [done|].
  apply list_elem_of_fmap in Hin as (t' & [= <-] & Hin).
  apply (subseteq_take 5) in Hin. rewrite <- Hs in Hin.
  by apply list_elem_of_filter in Hin as [_ ?].
Qed.

Lemma suggestions_are_available_witness :
  "NAICSExcelTool" ∈ list_available_tools Samples.one_tool_repository.
Proof.
  apply (suggestions_are_available Samples.one_tool_repository "naics" "/tmp/sandbox/tools").
  vm_compute. apply list_elem_of_further, list_elem_of_here.
Defined.

End DownloadFacts.

(** ** More on the environment manager *)

Section EnvironmentFacts.
Import PyStr Py Pipeline.

Lemma rmtree_subseteq root (X : gset string) path : path ∈ rmtree root X → path ∈ X.
Proof. unfold rmtree. by intros [_ ?]%elem_of_filter. Qed.

Lemma rmtree_outside root (X : gset string) path :
  inside root path = false → path ∈ rmtree root X ↔ path ∈ X.
Proof. intros H. unfold rmtree. rewrite elem_of_filter. tauto. Qed.

Lemma rmtree_inside root (X : gset string) path :
  inside root path = true → path ∉ rmtree root X.
Proof. intros H. unfold rmtree. rewrite elem_of_filter. intros [? _]. congruence. Qed.

Lemma inside_refl root : inside root root = true.
Proof. unfold inside. by rewrite String.eqb_refl. Qed.

Lemma outside_ne root path : inside root path = false → path ≠ root.
Proof. intros H ->. by rewrite inside_refl in H. Qed.

Lemma remove_with_retries_effect raises root attempt remaining m :
  let m' := remove_with_retries raises root attempt remaining m in
  active_environments m' = active_environments m
  ∧ (disk m' = disk m ∨ disk m' = rmtree root (disk m))
  ∧ ∃ n, atexit m' = atexit m ++ replicate n root.
Proof.
  revert attempt m. induction remaining as [|k IH]; intros attempt m; cbv zeta.
  - cbn. split; [done|]. split; [by left|]. exists 0%nat. by rewrite app_nil_r.
  - cbn [remove_with_retries].
    assert (Hstay : ∀ ev, active_environments (emit ev m) = active_environments m
              ∧ (disk (emit ev m) = disk m ∨ disk (emit ev m) = rmtree root (disk m))
              ∧ ∃ n, atexit (emit ev m) = atexit m ++ replicate n root).
    { intros ev. cbn. split; [done|]. split; [by left|]. exists 0%nat. by rewrite app_nil_r. }
    destruct (raises attempt) as [c|].
    + destruct c; try apply Hstay.
      destruct (attempt <? max_attempts - 1)%nat.
      * destruct (IH (S attempt) (emit Slept (emit (RmtreeFailed root attempt) m)))
          as (Ha & Hd & n & Hx).
        rewrite Ha. split; [done|]. split; [exact Hd|]. exists n. exact Hx.
      * match goal with |- context [remove_with_retries raises root (S attempt) k ?m1] =>
          destruct (IH (S attempt) m1) as (Ha & Hd & n & Hx) end.
        rewrite Ha. split; [done|]. split; [exact Hd|]. exists (S n).
        rewrite Hx. cbn. by rewrite <- app_assoc.
    + cbn. split; [done|]. split; [by right|]. exists 0%nat. by rewrite app_nil_r.
Qed.

Lemma cleanup_with_effect raises root m :
  let m' := cleanup_with raises root m in
  (active_environments m' = active_environments m
   ∨ active_environments m' = delete root (active_environments m))
  ∧ (disk m' = disk m ∨ disk m' = rmtree root (disk m))
  ∧ ∃ n, atexit m' = atexit m ++ replicate n root.
Proof.
  cbv zeta. unfold cleanup_with. cbv zeta.
  destruct (is_empty root || _).
  - cbn. split; [by left|]. split; [by left|]. exists 0%nat. by rewrite app_nil_r.
  - match goal with |- context [remove_with_retries raises root 0 max_attempts ?m1] =>
      destruct (remove_with_retries_effect raises root 0 max_attempts m1)
        as (Ha & Hd & n & Hx) end.
    rewrite Ha. split; [by right|]. split; [exact Hd|]. exists n. exact Hx.
Qed.

Lemma cleanup_with_untracks raises root m :
  let m' := cleanup_with raises root m in
  if negb (is_empty root) && bool_decide (root ∈ disk m)
  then active_environments m' !! root = None
  else disk m' = disk m ∧ active_environments m' = active_environments m
       ∧ atexit m' = atexit m.
Proof.
  cbv zeta. unfold cleanup_with. cbv zeta. cbn [emit disk].
  destruct (is_empty root); cbn [orb negb andb]; [done|].
  destruct (bool_decide (root ∈ disk m)); cbn [negb]; [|done].
  match goal with |- context [remove_with_retries raises _ 0 max_attempts ?m1] =>
    destruct (remove_with_retries_effect raises root 0 max_attempts m1) as (Ha & _) end.
  rewrite Ha. cbn. apply lookup_delete_eq.
Qed.

(** How the retries end: the tree is gone, or the directory stays with
    its removal registered, or it stays because [shutil.rmtree] raised an
    exception that is no [OSError]. *)
Lemma remove_with_retries_cases raises root m :
  let m' := remove_with_retries raises root 0 max_attempts m in
  disk m' = rmtree root (disk m)
  ∨ (disk m' = disk m ∧ root ∈ atexit m')
  ∨ (disk m' = disk m ∧ ∃ attempt c, raises attempt = Some c ∧ c ≠ OSError).
Proof.
  assert (Habort : ∀ attempt remaining m0 c,
            raises attempt = Some c → c ≠ OSError →
            let m' := remove_with_retries raises root attempt (S remaining) m0 in
            disk m' = rmtree root (disk m0)
            ∨ (disk m' = disk m0 ∧ root ∈ atexit m')
            ∨ (disk m' = disk m0 ∧ ∃ attempt c, raises attempt = Some c ∧ c ≠ OSError)).
  { intros attempt remaining m0 c H Hc. cbv zeta.
    rewrite (remove_with_retries_aborts raises root attempt remaining m0 c H Hc).
    right. right. split; [done|]. by exists attempt, c. }
  cbv zeta. unfold max_attempts.
  destruct (raises 0%nat) as [c0|] eqn:H0;
    [|cbn [remove_with_retries]; rewrite H0; by left].
  destruct (decide (c0 = OSError)) as [->|Hc0]; [|by apply (Habort 0%nat 2%nat m c0)].
  cbn [remove_with_retries]. rewrite H0. cbn.
  destruct (raises 1%nat) as [c1|] eqn:H1; [|by left].
  destruct (decide (c1 = OSError)) as [->|Hc1].
  2:{ right. right. split; [by destruct c1|]. by exists 1%nat, c1. }
  cbn. destruct (raises 2%nat) as [c2|] eqn:H2; [|by left].
  destruct (decide (c2 = OSError)) as [->|Hc2].
  2:{ right. right. split; [by destruct c2|]. by exists 2%nat, c2. }
  cbn. right. left. split; [done|]. apply elem_of_app. right. apply list_elem_of_here.
Qed.

Lemma cleanup_environment_cases w root m :
  root ≠ "" → root ∈ disk m →
  let m' := cleanup_environment w root m in
  disk m' = rmtree root (disk m)
  ∨ (disk m' = disk m ∧ root ∈ atexit m')
  ∨ (disk m' = disk m
     ∧ ∃ attempt e, rmtree_raises w root attempt = Some e ∧ exn_cls e ≠ OSError).
Proof.
  intros Hne Hin. cbv zeta. unfold cleanup_environment, cleanup_with. cbv zeta.
  assert (is_empty root = false) as -> by by destruct root.
  cbn [orb emit disk]. rewrite bool_decide_eq_true_2 by done. cbn [negb].
  match goal with |- context [remove_with_retries ?r root 0 max_attempts ?m1] =>
    destruct (remove_with_retries_cases r root m1) as [H|[H|(H & attempt & c & Hr & Hc)]] end.
  - by left.
  - by right; left.
  - right. right. split; [done|].
    destruct (rmtree_raises w root attempt) as [e|] eqn:He; [|done].
    injection Hr as <-. by exists attempt, e.
Qed.

(** X23.  Cleaning up a sandbox touches that sandbox only, and untracks
    it only if its directory exists.  After [cleanup_environment] on a
    directory, any path outside it is on disk, tracked, or registered for
    removal at exit exactly as it was before.  If the directory was on
    disk it is no longer tracked, and either it is gone with everything
    inside it, or it is still there with its removal registered at exit,
    or it is still there because [shutil.rmtree] raised an exception that
    is no [OSError].  For the empty path or a directory that is not on disk
    nothing changes, so that a tracking entry whose directory is gone
    stays. *)
Theorem cleanup_environment_touches_one_sandbox (w : world) (temp_base_dir other : string)
    (m : machine) :
  inside temp_base_dir other = false →
  let m' := cleanup_environment w temp_base_dir m in
  ((other ∈ disk m' ↔ other ∈ disk m)
   ∧ active_environments m' !! other = active_environments m !! other
   ∧ (other ∈ atexit m' ↔ other ∈ atexit m))
  ∧ (if negb (is_empty temp_base_dir) && bool_decide (temp_base_dir ∈ disk m)
     then active_environments m' !! temp_base_dir = None
          ∧ ((∀ path, inside temp_base_dir path = true → path ∉ disk m')
             ∨ (temp_base_dir ∈ disk m' ∧ temp_base_dir ∈ atexit m')
             ∨ (temp_base_dir ∈ disk m'
                ∧ ∃ attempt e, rmtree_raises w temp_base_dir attempt = Some e
                               ∧ exn_cls e ≠ OSError))
     else disk m' = disk m ∧ active_environments m' = active_environments m
          ∧ atexit m' = atexit m).
Proof.
  intros Hout. cbv zeta. split.
  - destruct (cleanup_with_effect
                (fun attempt => exn_cls <$> rmtree_raises w temp_base_dir attempt)
                temp_base_dir m) as (Ha & Hd & n & Hx).
    unfold cleanup_environment. split; [|split].
    + destruct Hd as [-> | ->]; [done|]. by apply rmtree_outside.
    + destruct Ha as [-> | ->]; [done|]. apply lookup_delete_ne.
      intros E. by apply (outside_ne _ _ Hout).
    + rewrite Hx, elem_of_app. split; [|by left].
      intros [H|H]; [done|]. apply elem_of_replicate in H as [H _].
      by apply outside_ne in Hout.
  - pose proof (cleanup_with_untracks
                  (fun attempt => exn_cls <$> rmtree_raises w temp_base_dir attempt)
                  temp_base_dir m) as Hu. cbv zeta in Hu.
    fold (cleanup_environment w temp_base_dir m) in Hu.
    destruct (is_empty temp_base_dir) eqn:He; cbn [negb andb] in *; [exact Hu|].
    destruct (bool_decide (temp_base_dir ∈ disk m)) eqn:Hd; [|exact Hu].
    split; [exact Hu|]. apply bool_decide_eq_true in Hd.
    assert (Hne : temp_base_dir ≠ "") by (by intros ->).
    destruct (cleanup_environment_cases w temp_base_dir m Hne Hd)
      as [H|[[H Hx]|[H Hx]]]; rewrite H.
    + left. intros path Hp. by apply rmtree_inside.
    + right. left. by split.
    + right. right. by split.
Qed.

Lemma cleanup_environment_touches_one_sandbox_witness :
  let m := Machine {[Samples.calm_root; Samples.calm_tool_file; "/tmp/other"]}
                   {[Samples.calm_root := Samples.calm_env]} ["/tmp/other"] [] in
  let m' := cleanup_environment Samples.calm_world Samples.calm_root m in
  (("/tmp/other" ∈ disk m' ↔ "/tmp/other" ∈ disk m)
   ∧ active_environments m' !! "/tmp/other" = active_environments m !! "/tmp/other"
   ∧ ("/tmp/other" ∈ atexit m' ↔ "/tmp/other" ∈ atexit m))
  ∧ (if negb (is_empty Samples.calm_root) && bool_decide (Samples.calm_root ∈ disk m)
     then active_environments m' !! Samples.calm_root = None
          ∧ ((∀ path, inside Samples.calm_root path = true → path ∉ disk m')
             ∨ (Samples.calm_root ∈ disk m' ∧ Samples.calm_root ∈ atexit m')
             ∨ (Samples.calm_root ∈ disk m'
                ∧ ∃ attempt e,
                    rmtree_raises Samples.calm_world Samples.calm_root attempt = Some e
                    ∧ exn_cls e ≠ OSError))
     else disk m' = disk m ∧ active_environments m' = active_environments m
          ∧ atexit m' = atexit m).
Proof.
  intros m.
  apply (cleanup_environment_touches_one_sandbox Samples.calm_world Samples.calm_root
           "/tmp/other" m). reflexivity.
Defined.

Lemma cleanup_environment_monotone w dir m x :
  let m' := cleanup_environment w dir m in
  (x ∈ disk m' → x ∈ disk m)
  ∧ (active_environments m !! x = None → active_environments m' !! x = None)
  ∧ (x ∈ atexit m → x ∈ atexit m').
Proof.
  cbv zeta. unfold cleanup_environment.
  destruct (cleanup_with_effect (fun attempt => exn_cls <$> rmtree_raises w dir attempt)
              dir m) as (Ha & Hd & n & Hx).
  split; [|split].
  - destruct Hd as [-> | ->]; [done|]. apply rmtree_subseteq.
  - destruct Ha as [-> | ->]; [done|]. intros H.
    destruct (decide (dir = x)) as [->|Hne]; [apply lookup_delete_eq|].
    by rewrite lookup_delete_ne.
  - rewrite Hx, elem_of_app. by left.
Qed.

Lemma cleanup_each_monotone w dirs m x :
  let m' := fold_left (fun m temp_dir => cleanup_environment w temp_dir m) dirs m in
  (x ∈ disk m' → x ∈ disk m)
  ∧ (active_environments m !! x = None → active_environments m' !! x = None)
  ∧ (x ∈ atexit m → x ∈ atexit m').
Proof.
  revert m. induction dirs as [|dir rest IH]; intros m; [done|].
  cbn [fold_left]. cbv zeta.
  destruct (cleanup_environment_monotone w dir m x) as (H1 & H2 & H3).
  destruct (IH (cleanup_environment w dir m)) as (H1' & H2' & H3').
  split; [|split]; auto.
Qed.

(** A directory that is still tracked once every key was visited has not
    been found on disk at its turn. *)
Lemma cleanup_each_tracked w dirs m dir :
  let m' := fold_left (fun m temp_dir => cleanup_environment w temp_dir m) dirs m in
  is_Some (active_environments m' !! dir) →
  is_Some (active_environments m !! dir) ∧ (dir ∈ dirs → dir = "" ∨ dir ∉ disk m').
Proof.
  revert m. induction dirs as [|d rest IH]; intros m; cbv zeta.
  { intros H. split; [done|]. by intros ?%elem_of_nil. }
  cbn [fold_left]. intros H.
  destruct (IH (cleanup_environment w d m) H) as [Htracked Hrest].
  assert (Hbefore : is_Some (active_environments m !! dir)).
  { destruct (active_environments m !! dir) eqn:E; [done|].
    apply (cleanup_environment_monotone w d m dir) in E. rewrite E in Htracked.
    by destruct Htracked. }
  split; [done|]. intros [->|Hin]%elem_of_cons; [|by apply Hrest].
  pose proof (cleanup_with_untracks
                (fun attempt => exn_cls <$> rmtree_raises w d attempt) d m) as Hu.
  cbv zeta in Hu. fold (cleanup_environment w d m) in Hu.
  destruct (is_empty d) eqn:He; [left; by destruct d|]. right.
  cbn [negb andb] in Hu. destruct (bool_decide (d ∈ disk m)) eqn:Hd.
  - rewrite Hu in Htracked. by destruct Htracked.
  - apply bool_decide_eq_false in Hd. intros Hin. apply Hd.
    apply (cleanup_environment_monotone w d m d).
    by apply (cleanup_each_monotone w rest (cleanup_environment w d m) d).
Qed.

(** A directory of the list on which [shutil.rmtree] raises nothing but
    [OSError] ends up absent or registered for removal at exit. *)
Lemma cleanup_each_settles w dirs m dir :
  dir ∈ dirs → dir ≠ "" →
  (∀ attempt e, rmtree_raises w dir attempt = Some e → exn_cls e = OSError) →
  let m' := fold_left (fun m temp_dir => cleanup_environment w temp_dir m) dirs m in
  dir ∉ disk m' ∨ dir ∈ atexit m'.
Proof.
  intros Hin Hne Hos. revert m Hin.
  induction dirs as [|d rest IH]; intros m Hin; [by apply elem_of_nil in Hin|].
  cbn [fold_left]. cbv zeta.
  destruct (decide (d = dir)) as [->|Hd].
  - destruct (cleanup_each_monotone w rest (cleanup_environment w dir m) dir)
      as (H1 & _ & H3).
    destruct (cleanup_environment_outcome w dir m Hne) as [H|[H|(attempt & e & Hr & Hc)]].
    + left. auto.
    + right. auto.
    + by apply Hos in Hr.
  - apply elem_of_cons in Hin as [->|Hin]; [done|]. by apply IH.
Qed.

(** X24.  After [cleanup_all_environments] no tracked sandbox has its
    directory on disk: a sandbox that is still tracked was tracked before
    and its directory is not on disk (or it is tracked under the empty
    path, which is never cleaned up), in whatever order the tracking
    dictionary lists its keys.  A tracked directory on which
    [shutil.rmtree] raises nothing but [OSError] is, afterwards, gone or
    registered for removal at exit. *)
Theorem cleanup_all_environments_settles (w : world)
    (keys : gmap string env_info → list string) (m : machine) (temp_base_dir : string) :
  lists_keys keys →
  let m' := cleanup_all_environments w keys m in
  (is_Some (active_environments m' !! temp_base_dir) →
   is_Some (active_environments m !! temp_base_dir)
   ∧ (temp_base_dir = "" ∨ temp_base_dir ∉ disk m'))
  ∧ (is_Some (active_environments m !! temp_base_dir) → temp_base_dir ≠ "" →
     (∀ attempt e, rmtree_raises w temp_base_dir attempt = Some e → exn_cls e = OSError) →
     temp_base_dir ∉ disk m' ∨ temp_base_dir ∈ atexit m').
Proof.
  intros Hkeys. cbv zeta. unfold cleanup_all_environments.
  assert (Hin : is_Some (active_environments m !! temp_base_dir) →
                temp_base_dir ∈ keys (active_environments m)).
  { intros H. rewrite (Hkeys (active_environments m)).
    by apply elem_of_elements, elem_of_dom. }
  split.
  - intros H.
    destruct (cleanup_each_tracked w (keys (active_environments m)) m temp_base_dir H)
      as [Hbefore Hgone].
    split; [done|]. by apply Hgone, Hin.
  - intros H Hne Hos. apply cleanup_each_settles; auto.
Qed.

Lemma cleanup_all_environments_settles_witness :
  let m := Machine {[Samples.calm_root]} {[Samples.calm_root := Samples.calm_env]} [] [] in
  let m' := cleanup_all_environments Samples.calm_world (fun envs => elements (dom envs)) m in
  (is_Some (active_environments m' !! Samples.calm_root) →
   is_Some (active_environments m !! Samples.calm_root)
   ∧ (Samples.calm_root = "" ∨ Samples.calm_root ∉ disk m'))
  ∧ (is_Some (active_environments m !! Samples.calm_root) → Samples.calm_root ≠ "" →
     (∀ attempt e, rmtree_raises Samples.calm_world Samples.calm_root attempt = Some e
                   → exn_cls e = OSError) →
     Samples.calm_root ∉ disk m' ∨ Samples.calm_root ∈ atexit m').
Proof.
  intros m.
  apply (cleanup_all_environments_settles Samples.calm_world
           (fun envs => elements (dom envs)) m Samples.calm_root).
  by intros envs.
Defined.

(** *** Creating a sandbox *)

Lemma subprocess_run_ok timeout child p :
  subprocess_run timeout child = Ok p → child = Ok p ∧ duration p ≤ timeout.
Proof.
  unfold subprocess_run. destruct child as [p0|e]; cbn [mbind pyresult_bind]; [|done].
  destruct (Z.ltb_spec timeout (duration p0)); [done|]. by intros [= <-].
Qed.

Lemma require_success_ok p what u : require_success p what = Ok u → returncode p = 0.
Proof. unfold require_success. by destruct (Z.eqb_spec (returncode p) 0). Qed.

Lemma created_environment_facts w tool_name m m' env_info :
  create_isolated_environment w tool_name m = (Ok env_info, m') →
  (∃ venv python pip,
      venv_process w = Ok venv ∧ returncode venv = 0 ∧ duration venv ≤ 120
      ∧ python_version_process w = Ok python ∧ returncode python = 0 ∧ duration python ≤ 30
      ∧ pip_version_process w = Ok pip ∧ returncode pip = 0 ∧ duration pip ≤ 30)
  ∧ active_environments m' !! temp_base_dir env_info = Some env_info
  ∧ disk m' = disk m ∪ {[temp_base_dir env_info]}
  ∧ atexit m' = atexit m
  ∧ working_dir env_info = temp_base_dir env_info
  ∧ tools_dir env_info = path_join (temp_base_dir env_info) "tools"
  ∧ temp_files_dir env_info = path_join (temp_base_dir env_info) "temp_files".
Proof.
  unfold create_isolated_environment.
  destruct (mkdtemp_error w); [done|]. cbv zeta.
  match goal with |- context [match ?b with Ok _ => _ | Raise _ => _ end] =>
    destruct b as [env|e] eqn:Hb end; [|done].
  intros [= <- <-].
  destruct (subprocess_run 120 (venv_process w)) as [venv|] eqn:H1;
    cbn [mbind pyresult_bind] in Hb; [|done].
  destruct (require_success venv _) as [[]|] eqn:H2; cbn [mbind pyresult_bind] in Hb; [|done].
  destruct (subprocess_run 30 (python_version_process w)) as [python|] eqn:H3;
    cbn [mbind pyresult_bind] in Hb; [|done].
  destruct (require_success python _) as [[]|] eqn:H4; cbn [mbind pyresult_bind] in Hb;
    [|done].
  destruct (subprocess_run 30 (pip_version_process w)) as [pip|] eqn:H5;
    cbn [mbind pyresult_bind] in Hb; [|done].
  destruct (require_success pip _) as [[]|] eqn:H6; cbn [mbind pyresult_bind] in Hb; [|done].
  destruct (mkdir_error w); cbn [mbind pyresult_bind] in Hb; [done|].
  injection Hb as <-.
  apply subprocess_run_ok in H1 as [H1 H1'], H3 as [H3 H3'], H5 as [H5 H5'].
  apply require_success_ok in H2, H4, H6.
  split; [by exists venv, python, pip|]. cbn.
  split; [apply lookup_insert_eq|]. done.
Qed.

Lemma failed_creation_facts w tool_name m m' e :
  create_isolated_environment w tool_name m = (Raise e, m') →
  exn_cls e = PlainException
  ∧ (∃ reason, exn_msg e = "Failed to create isolated environment: " +:+ reason)
  ∧ (∀ dir, is_Some (active_environments m' !! dir) → is_Some (active_environments m !! dir))
  ∧ (∀ dir, dir ∈ disk m' → dir ∈ disk m ∨ dir ∈ atexit m').
Proof.
  unfold create_isolated_environment.
  destruct (mkdtemp_error w) as [e0|].
  { intros [= <- <-]. split; [done|]. split; [by eexists|]. split; [done|]. by left. }
  cbv zeta.
  match goal with |- context [match ?b with Ok _ => _ | Raise _ => _ end] =>
    destruct b as [env|e0] eqn:Hb end; [done|].
  intros [= <- <-]. split; [done|]. split; [by eexists|].
  set (root := path_join (tmpdir w) _).
  match goal with |- context [cleanup_new_environment w root ?m0] => set (m1 := m0) end.
  pose proof (cleanup_new_environment_outcome w root m1 (path_join_nonempty _ _)) as Hout.
  cbv zeta in Hout. unfold cleanup_new_environment in *.
  match type of Hout with context [cleanup_with ?r root m1] =>
    destruct (cleanup_with_effect r root m1) as (Ha & Hd & n & Hx) end.
  split.
  - intros dir. destruct Ha as [-> | ->]; [done|].
    destruct (decide (root = dir)) as [->|Hne]; [by rewrite lookup_delete_eq; intros [? ?]|].
    by rewrite lookup_delete_ne.
  - intros dir Hdir. destruct (decide (dir = root)) as [->|Hne].
    + destruct Hout as [Hout|Hout]; [done|by right].
    + left. assert (Hin : dir ∈ disk m1).
      { destruct Hd as [Hd|Hd]; rewrite Hd in Hdir; [done|].
        by apply rmtree_subseteq in Hdir. }
      subst m1. cbn in Hin. apply elem_of_union in Hin as [Hin|Hin]; [done|].
      by apply elem_of_singleton in Hin.
Qed.

(** X25.  A sandbox is handed out only after every check passed, and a
    failed creation leaves nothing behind.  When
    [create_isolated_environment] returns, the interpreter that created the
    virtual environment exited with 0 within 120 seconds, the version
    checks of its Python and of its pip exited with 0 within 30 seconds
    each, the new directory is on disk and the returned record is tracked
    under it, with its working directories inside it.  When it raises, the
    exception is a plain [Exception] whose message starts with the failure
    notice, no sandbox has become tracked, and every directory on disk was
    there before or is registered for removal at exit. *)
Theorem create_isolated_environment_outcome (w : world) (tool_name : string) (m : machine) :
  match create_isolated_environment w tool_name m with
  | (Ok env_info, m') =>
      (∃ venv python pip,
          venv_process w = Ok venv ∧ returncode venv = 0 ∧ duration venv ≤ 120
          ∧ python_version_process w = Ok python ∧ returncode python = 0
          ∧ duration python ≤ 30
          ∧ pip_version_process w = Ok pip ∧ returncode pip = 0 ∧ duration pip ≤ 30)
      ∧ active_environments m' !! temp_base_dir env_info = Some env_info
      ∧ disk m' = disk m ∪ {[temp_base_dir env_info]}
      ∧ atexit m' = atexit m
      ∧ working_dir env_info = temp_base_dir env_info
      ∧ tools_dir env_info = path_join (temp_base_dir env_info) "tools"
      ∧ temp_files_dir env_info = path_join (temp_base_dir env_info) "temp_files"
  | (Raise e, m') =>
      exn_cls e = PlainException
      ∧ (∃ reason, exn_msg e = "Failed to create isolated environment: " +:+ reason)
      ∧ (∀ dir, is_Some (active_environments m' !! dir)
                → is_Some (active_environments m !! dir))
      ∧ (∀ dir, dir ∈ disk m' → dir ∈ disk m ∨ dir ∈ atexit m')
  end.
Proof.
  destruct (create_isolated_environment w tool_name m) as [[env_info|e] m'] eqn:Hc.
  - by apply (created_environment_facts w tool_name m).
  - by apply (failed_creation_facts w tool_name m).
Qed.

End EnvironmentFacts.

(** ** More on the pipeline *)

Section InstallFacts.
Import PyStr Py Pipeline.

Lemma install_each_spec w deps installed failed errors m :
  ∃ errs,
    install_each w deps (installed, failed, errors) m
    = (installed ++ filter (fun p => pip_succeeds w p = true) deps,
       failed ++ filter (fun p => pip_succeeds w p = false) deps,
       errors ++ errs,
       Machine (disk m) (active_environments m) (atexit m)
               (journal m ++ map PipInstall deps))
    ∧ length errs = length (filter (fun p => pip_succeeds w p = false) deps).
Proof.
  revert installed failed errors m.
  induction deps as [|package rest IH]; intros installed failed errors m.
  - exists []. cbn. rewrite !app_nil_r. by destruct m.
  - cbn [install_each]. cbv zeta.
    destruct (pip_succeeds w package) eqn:Hp.
    + rewrite (filter_cons_True (fun p => pip_succeeds w p = true)) by done.
      rewrite (filter_cons_False (fun p => pip_succeeds w p = false)) by congruence.
      unfold pip_succeeds in Hp.
      destruct (subprocess_run install_timeout (pip_install w package)) as [result|e];
        [|done].
      rewrite Hp.
      destruct (IH (installed ++ [package]) failed errors (emit (PipInstall package) m))
        as (errs & -> & Hlen).
      exists errs. cbn. by rewrite <- !app_assoc.
    + rewrite (filter_cons_False (fun p => pip_succeeds w p = true)) by congruence.
      rewrite (filter_cons_True (fun p => pip_succeeds w p = false)) by done.
      unfold pip_succeeds in Hp.
      assert (H : ∃ msg,
        match subprocess_run install_timeout (pip_install w package) with
        | Ok result =>
            if returncode result =? 0 then ((installed ++ [package])%list, failed, errors)
            else (installed, (failed ++ [package])%list,
                  (errors ++ [package +:+ ": " +:+ stderr result])%list)
        | Raise e =>
            match exn_cls e with
            | TimeoutExpired =>
                (installed, (failed ++ [package])%list,
                 (errors ++ [package +:+ ": Installation timeout"])%list)
            | _ =>
                (installed, (failed ++ [package])%list,
                 (errors ++ [package +:+ ": " +:+ exn_msg e])%list)
            end
        end = (installed, failed ++ [package], errors ++ [msg])).
      { destruct (subprocess_run install_timeout (pip_install w package)) as [result|e].
        - rewrite Hp. by eexists.
        - destruct (exn_cls e); by eexists. }
      destruct H as (msg & ->).
      destruct (IH installed (failed ++ [package]) (errors ++ [msg])
                  (emit (PipInstall package) m)) as (errs & -> & Hlen).
      exists (msg :: errs). cbn. rewrite <- !app_assoc. by rewrite Hlen.
Qed.

(** X26.  Every dependency is accounted for once: [_install_dependencies]
    runs [pip install] for each package in order, whether or not an earlier
    one failed; the installed packages are those whose installation exits
    with 0 before the timeout, the failed ones are the others, each with
    one error; and the outcome is a failure only when there are
    dependencies and none of them installed. *)
Theorem install_dependencies_outcome (w : world) (dependencies : list string) (m : machine) :
  let results := (_install_dependencies w dependencies m).1 in
  let m' := (_install_dependencies w dependencies m).2 in
  installed results = filter (fun p => pip_succeeds w p = true) dependencies
  ∧ failed results = filter (fun p => pip_succeeds w p = false) dependencies
  ∧ length (install_errors results) = length (failed results)
  ∧ (success results = false
     ↔ dependencies ≠ [] ∧ ∀ p, p ∈ dependencies → pip_succeeds w p = false)
  ∧ journal m' = journal m ++ map PipInstall dependencies.
Proof.
  cbv zeta. unfold _install_dependencies.
  destruct (install_each_spec w dependencies [] [] [] m) as (errs & -> & Hlen).
  cbn [app]. set (ok := filter (fun p => pip_succeeds w p = true) dependencies).
  set (ko := filter (fun p => pip_succeeds w p = false) dependencies) in *.
  assert (Hok : ok = [] ↔ ∀ p, p ∈ dependencies → pip_succeeds w p = false).
  { subst ok. split.
    - intros H p Hp. destruct (pip_succeeds w p) eqn:E; [|done].
      assert (Hin : p ∈ filter (fun p => pip_succeeds w p = true) dependencies)
        by by apply list_elem_of_filter.
      rewrite H in Hin. by apply elem_of_nil in Hin.
    - clear. induction dependencies as [|d rest IH]; intros H; [done|].
      rewrite filter_cons_False.
      + apply IH. intros p Hp. by apply H, list_elem_of_further.
      + rewrite (H d) by apply list_elem_of_here. done. }
  assert (Hko : ko ≠ [] → dependencies ≠ []).
  { subst ko. by intros H ->. }
  assert (Hall : dependencies ≠ [] →
                 (∀ p, p ∈ dependencies → pip_succeeds w p = false) → ko ≠ []).
  { subst ko. destruct dependencies as [|d rest]; [done|]. intros _ H.
    rewrite filter_cons, decide_True; [done|]. apply H, list_elem_of_here. }
  destruct ko as [|k ko'] eqn:Eko, ok as [|o ok'] eqn:Eok; cbn; repeat split; try done.
  - intros [Hne H]. by apply Hall in H.
  - intros [_ H]. by apply Hok in H.
  - by apply Hko.
  - by apply Hok.
  - intros [_ H]. by apply Hok in H.
Qed.

End InstallFacts.

Section ExecuteFacts.
Import PyStr Py Pipeline.

Lemma filter_pip_succeeds_nil w deps :
  filter (fun p => pip_succeeds w p = true) deps = [] ↔ existsb (pip_succeeds w) deps = false.
Proof.
  induction deps as [|d rest IH]; [done|]. cbn [existsb].
  destruct (pip_succeeds w d) eqn:Hd.
  - rewrite filter_cons_True by done. done.
  - rewrite filter_cons_False by congruence. done.
Qed.

Lemma filter_pip_fails_nil w deps :
  filter (fun p => pip_succeeds w p = false) deps = [] →
  deps = [] ∨ existsb (pip_succeeds w) deps = true.
Proof.
  destruct deps as [|d rest]; [by left|]. right. cbn [existsb].
  destruct (pip_succeeds w d) eqn:Hd; [done|].
  by rewrite filter_cons_True in H.
Qed.

(** The events of steps 4 to 8, in full. *)
Lemma run_in_environment_journal w tool_name vr env m :
  let m' := (run_in_environment w tool_name vr env m).2 in
  journal m' = journal m
  ∨ ∃ path deps,
      deps = DependencyParser.extract_dependencies_from_file (lib w) (files w) path
      ∧ journal m' = journal m ++ Extracted path deps :: map PipInstall deps
                     ++ (if reaches_launch w deps then [Launched path] else []).
Proof.
  cbv zeta. unfold run_in_environment.
  destruct (setup_blueprint w env) as [ok msg].
  destruct ok; cbn [negb]; [|by left].
  destruct (negb (py_eq _ _)); [by left|].
  destruct (text_of _) as [path|e]; [|by left].
  cbv zeta. right.
  set (deps := DependencyParser.extract_dependencies_from_file _ _ _).
  exists path, deps. split; [done|]. destruct deps as [|d deps'] eqn:Edeps.
  - cbn. repeat case_match; cbn; by rewrite <- app_assoc.
  - rewrite <- Edeps. unfold _install_dependencies.
    destruct (install_each_spec w deps [] [] [] (emit (Extracted path deps) m))
      as (errs & -> & Hlen).
    cbn [app].
    pose proof (filter_pip_succeeds_nil w deps) as Hok.
    pose proof (filter_pip_fails_nil w deps) as Hko.
    assert (Hr : reaches_launch w deps = existsb (pip_succeeds w) deps) by by rewrite Edeps.
    rewrite Hr.
    destruct (filter (fun p => pip_succeeds w p = false) deps) as [|k ko],
             (filter (fun p => pip_succeeds w p = true) deps) as [|o ok].
    + destruct Hko as [Hko|Hko]; [done|congruence|]. rewrite Hko.
      repeat case_match; cbn; by rewrite <- !app_assoc.
    + destruct (existsb (pip_succeeds w) deps) eqn:He;
        [|destruct Hok as [_ Hok]; by specialize (Hok eq_refl)].
      repeat case_match; cbn; by rewrite <- !app_assoc.
    + destruct Hok as [Hok _]. rewrite (Hok eq_refl). cbn. by rewrite app_nil_r, <- !app_assoc.
    + destruct (existsb (pip_succeeds w) deps) eqn:He;
        [|destruct Hok as [_ Hok]; by specialize (Hok eq_refl)].
      repeat case_match; cbn; by rewrite <- !app_assoc.
Qed.

(** The journal of a call, and what it says of steps 6 and 7. *)
Lemma execute_tool_steps w tool_name user_input m :
  journal m = [] →
  let m' := (execute_tool w tool_name user_input m).2 in
  (∀ e, step_event e = true → e ∉ journal m')
  ∨ ∃ path deps,
      deps = DependencyParser.extract_dependencies_from_file (lib w) (files w) path
      ∧ ∀ e, step_event e = true →
             (e ∈ journal m'
              ↔ e ∈ Extracted path deps :: map PipInstall deps
                    ++ (if reaches_launch w deps then [Launched path] else [])).
Proof.
  intros Hm. cbv zeta. unfold execute_tool.
  pose proof (before_environment_cases w tool_name user_input m) as Hb.
  rewrite Hm in Hb.
  assert (Hstep : ∀ e, step_event e = true → housekeeping e = false) by by intros [].
  destruct (before_environment w tool_name user_input m) as [[[response|[vr env]]|exc] m1].
  - left. destruct Hb as (evs & E & Hq). cbn [snd]. rewrite E. cbn.
    intros e He. by apply (not_in_housekeeping e evs), Hstep.
  - destruct Hb as (_ & _ & Hj & _).
    pose proof (run_in_environment_journal w tool_name vr env m1) as Hr. cbv zeta in Hr.
    destruct (run_in_environment w tool_name vr env m1) as [outcome m2].
    cbn [snd] in *.
    destruct (cleanup_environment_journal w (temp_base_dir env) m2) as (evs' & Hj3 & Hq').
    rewrite Hj3. rewrite Hj in Hr.
    assert (Hc : ∀ e, step_event e = true → e ∉ CleanupCalled (temp_base_dir env) :: evs').
    { intros e He. apply (not_in_housekeeping e (_ :: evs')); [done|by apply Hstep]. }
    assert (Hcreated : ∀ e, step_event e = true → e ∉ [] ++ [Created (temp_base_dir env)]).
    { intros e He [->|Hin%elem_of_nil]%elem_of_cons; done. }
    destruct Hr as [Hr | (path & deps & Hdeps & Hr)]; rewrite Hr.
    + left. intros e He Hin.
      apply elem_of_app in Hin as [Hin|Hin]; [by apply Hcreated in Hin|by apply Hc in Hin].
    + right. exists path, deps. split; [done|]. intros e He. split.
      * intros Hin. apply elem_of_app in Hin as [Hin|Hin]; [|by apply Hc in Hin].
        apply elem_of_app in Hin as [Hin|Hin]; [by apply Hcreated in Hin|done].
      * intros Hin. apply elem_of_app. left. apply elem_of_app. by right.
  - left. destruct Hb as (evs & E & Hq). cbn [snd]. rewrite E. cbn.
    intros e He. by apply (not_in_housekeeping e evs), Hstep.
Qed.

(** X27.  The tool is run exactly when a dependency installs: in a call
    of [execute_tool] that installs dependencies, step 7, the execution of
    the tool, is reached if and only if [pip install] succeeded for at
    least one of them, whatever happened to the others. *)
Theorem launch_iff_a_dependency_installs (w : world) (tool_name : string)
    (user_input : pyval) (m : machine) (package : string) :
  journal m = [] →
  let m' := (execute_tool w tool_name user_input m).2 in
  PipInstall package ∈ journal m' →
  (∃ tool_file_path, Launched tool_file_path ∈ journal m')
  ↔ (∃ installed, PipInstall installed ∈ journal m' ∧ pip_succeeds w installed = true).
Proof.
  intros Hm. cbv zeta. intros Hin.
  destruct (execute_tool_steps w tool_name user_input m Hm)
    as [Hnone | (path & deps & _ & H)].
  { by apply Hnone in Hin. }
  assert (Hpip : ∀ q, PipInstall q ∈ journal (execute_tool w tool_name user_input m).2
                      ↔ q ∈ deps).
  { intros q. rewrite (H (PipInstall q) eq_refl).
    rewrite elem_of_cons, elem_of_app, list_elem_of_fmap. split.
    - intros [?|[(q' & [= ->] & Hq)|Hl]]; [done|done|].
      destruct (reaches_launch w deps); [|by apply elem_of_nil in Hl].
      by apply list_elem_of_singleton in Hl.
    - intros Hq. right. left. by exists q. }
  assert (Hlaunch : ∀ x, Launched x ∈ journal (execute_tool w tool_name user_input m).2
                         ↔ x = path ∧ reaches_launch w deps = true).
  { intros x. rewrite (H (Launched x) eq_refl).
    rewrite elem_of_cons, elem_of_app, list_elem_of_fmap. split.
    - intros [?|[(q' & ? & _)|Hl]]; [done|done|].
      destruct (reaches_launch w deps); [|by apply elem_of_nil in Hl].
      by apply list_elem_of_singleton in Hl as [= ->].
    - intros [-> ->]. right. right. apply list_elem_of_here. }
  apply Hpip in Hin.
  assert (Hr : reaches_launch w deps = existsb (pip_succeeds w) deps).
  { destruct deps; [by apply elem_of_nil in Hin|done]. }
  split.
  - intros (x & [_ Hx]%Hlaunch). rewrite Hr in Hx.
    apply existsb_exists in Hx as (q & Hq%list_elem_of_In & Hok).
    exists q. split; [by apply Hpip|done].
  - intros (q & Hq%Hpip & Hok). exists path. apply Hlaunch. split; [done|].
    rewrite Hr. apply existsb_exists. exists q. split; [by apply list_elem_of_In|done].
Qed.

Lemma launch_iff_a_dependency_installs_witness :
  let m' := (execute_tool Samples.busy_world "NAICSExcelTool" Samples.naics_input
               Samples.empty_machine).2 in
  (∃ tool_file_path, Launched tool_file_path ∈ journal m')
  ↔ (∃ installed, PipInstall installed ∈ journal m'
                  ∧ pip_succeeds Samples.busy_world installed = true).
Proof.
  apply (launch_iff_a_dependency_installs Samples.busy_world "NAICSExcelTool"
           Samples.naics_input Samples.empty_machine "requests").
  - reflexivity.
  - vm_compute. do 3 apply list_elem_of_further. apply list_elem_of_here.
Defined.

(** X28.  A sandbox is created only for a known tool and a valid input: if
    a call of [execute_tool] creates a sandbox, the database returned
    details for the tool, and the input validated against the input schema
    of those details. *)
Theorem sandbox_only_after_validation (w : world) (tool_name : string)
    (user_input : pyval) (m : machine) (root : string) :
  journal m = [] →
  Created root ∈ journal (execute_tool w tool_name user_input m).2 →
  ∃ tool_details input_schema,
    get_tool_details w tool_name = Ok tool_details
    ∧ truthy tool_details = true
    ∧ py_get tool_details "input_schema" (VDict []) = Ok input_schema
    ∧ SchemaValidator.v_valid
        (SchemaValidator.validate_input (rt w) user_input input_schema) = true.
Proof.
  intros Hm. unfold execute_tool, before_environment.
  assert (Hno : Created root ∉ journal m) by (rewrite Hm; apply not_elem_of_nil).
  destruct (get_tool_details w tool_name) as [details|e]; [|done].
  destruct (truthy details) eqn:Ht; cbn [negb]; [|done].
  destruct (description_preview w details) as [[]|e]; cbn [mbind pyresult_bind]; [|done].
  destruct (py_get details "input_schema" (VDict [])) as [schema|e] eqn:Hs; [|done].
  destruct (SchemaValidator.v_valid _) eqn:Hv; cbn [negb]; [|done].
  intros _. by exists details, schema.
Qed.

Lemma sandbox_only_after_validation_witness :
  ∃ tool_details input_schema,
    get_tool_details Samples.calm_world "NAICSExcelTool" = Ok tool_details
    ∧ truthy tool_details = true
    ∧ py_get tool_details "input_schema" (VDict []) = Ok input_schema
    ∧ SchemaValidator.v_valid
        (SchemaValidator.validate_input (rt Samples.calm_world) Samples.naics_input
           input_schema) = true.
Proof.
  apply (sandbox_only_after_validation Samples.calm_world "NAICSExcelTool"
           Samples.naics_input Samples.empty_machine Samples.calm_root).
  - reflexivity.
  - vm_compute. apply list_elem_of_here.
Defined.

Lemma run_in_environment_response w tool_name vr env m :
  match (run_in_environment w tool_name vr env m).1 with
  | Ok response =>
      (∃ message details, response = _error_response w message details)
      ∨ (∃ result execution_info, response = success_response tool_name result execution_info)
  | Raise _ => True
  end.
Proof.
  unfold run_in_environment.
  destruct (setup_blueprint w env) as [ok msg].
  destruct ok; cbn [negb fst]; [|left; by eexists _, _].
  destruct (negb (py_eq _ _)); cbn [fst]; [left; by eexists _, _|].
  destruct (text_of _) as [path|e]; [|done].
  cbv zeta.
  destruct (match DependencyParser.extract_dependencies_from_file _ _ _ with
            | [] => _ | _ => _ end) as [install_result m1].
  destruct install_result as [[[|] ? ? ? ?]|]; cbn [fst].
  2:{ left. by eexists _, _. }
  all: destruct (negb (py_eq _ _)); cbn [fst];
    [left; by eexists _, _|right; by eexists _, _].
Qed.

(** X29.  Every response of [execute_tool] is an envelope: either the
    error envelope of [_error_response], with its status, message, details
    and timestamp, or the success record with the tool's name and result,
    the execution information and the success message. *)
Theorem execute_tool_response_shape (w : world) (tool_name : string) (user_input : pyval)
    (m : machine) :
  let response := (execute_tool w tool_name user_input m).1 in
  (∃ message details, response = _error_response w message details)
  ∨ (∃ result execution_info, response = success_response tool_name result execution_info).
Proof.
  cbv zeta. unfold execute_tool.
  assert (Hb : match (before_environment w tool_name user_input m).1 with
               | Ok (inl response) => ∃ message details,
                   response = _error_response w message details
               | _ => True
               end).
  { unfold before_environment.
    destruct (get_tool_details w tool_name) as [details|e]; [|done].
    destruct (negb (truthy details)); [by eexists _, _|].
    destruct (mbind _ _) as [schema|e]; [|done].
    destruct (negb _); [by eexists _, _|].
    by destruct (create_isolated_environment w tool_name m) as [[env|e] m']. }
  destruct (before_environment w tool_name user_input m) as [[[response|[vr env]]|e] m1];
    cbn [fst] in *.
  - by left.
  - pose proof (run_in_environment_response w tool_name vr env m1) as Hr.
    destruct (run_in_environment w tool_name vr env m1) as [[response|e] m2]; cbn [fst] in *.
    + exact Hr.
    + left. by eexists _, _.
  - left. by eexists _, _.
Qed.


(** *** The output of the tool *)

Lemma last_json_line_found w lines v :
  last_json_line w lines = Ok v →
  v = VNone
  ∨ ∃ line, line ∈ lines ∧ startswith "{" (strip line) = true
            ∧ json_loads (rt w) (strip line) = Ok v.
Proof.
  induction lines as [|line rest IH]; cbn [last_json_line].
  { intros [= <-]. by left. }
  destruct (startswith "{" (strip line)) eqn:Hs.
  - destruct (json_loads (rt w) (strip line)) as [v'|e] eqn:Hj.
    + intros [= <-]. right. exists line. split; [apply list_elem_of_here|done].
    + destruct (exn_cls e); try done.
      intros H. destruct (IH H) as [?|(l & Hl & ?)]; [by left|].
      right. exists l. split; [by apply list_elem_of_further|done].
  - intros H. destruct (IH H) as [?|(l & Hl & ?)]; [by left|].
    right. exists l. split; [by apply list_elem_of_further|done].
Qed.

(** X30.  The tool succeeds only with an exit code of 0 and JSON on its
    standard output: when [_execute_tool_in_environment] reports success,
    the launcher was written, the child exited with 0 before the timeout,
    and the result is what [json.loads] made of a line of the stripped
    output that starts with a brace, or else of the stripped output as a
    whole. *)
Theorem execution_succeeds_only_on_json (w : world) :
  dict_get "status" (_execute_tool_in_environment w) = Some (VStr "success") →
  write_script w = None
  ∧ ∃ child result text,
      tool_process w = Ok child
      ∧ returncode child = 0
      ∧ duration child ≤ launch_timeout
      ∧ _execute_tool_in_environment w
        = [ ("status", VStr "success"); ("result", result);
            ("stdout", VStr (stdout child)); ("execution_time", VStr "completed") ]
      ∧ json_loads (rt w) text = Ok result
      ∧ (text = strip (stdout child)
         ∨ ∃ line, line ∈ split_on newline (strip (stdout child))
                   ∧ text = strip line ∧ startswith "{" text = true).
Proof.
  unfold _execute_tool_in_environment.
  destruct (write_script w); [done|].
  destruct (subprocess_run launch_timeout (tool_process w)) as [child|e] eqn:Hrun.
  2:{ by destruct (exn_cls e). }
  unfold subprocess_run in Hrun.
  destruct (tool_process w) as [child0|e]; cbn [mbind pyresult_bind] in Hrun; [|done].
  destruct (Z.ltb_spec launch_timeout (duration child0)); [done|]. injection Hrun as ->.
  destruct (Z.eqb_spec (returncode child) 0) as [Hcode|]; cbn [negb]; [|done].
  destruct (last_json_line w (rev (split_on newline (strip (stdout child)))))
    as [json_output|e] eqn:Hlast; cbn [mbind pyresult_bind].
  2:{ by destruct (exn_cls e). }
  assert (Hparsed : ∀ parsed,
    (match json_output with
     | VNone => json_loads (rt w) (strip (stdout child))
     | _ => Ok json_output
     end) = Ok parsed →
    ∃ text, json_loads (rt w) text = Ok parsed
            ∧ (text = strip (stdout child)
               ∨ ∃ line, line ∈ split_on newline (strip (stdout child))
                         ∧ text = strip line ∧ startswith "{" text = true)).
  { intros parsed Hp.
    destruct (last_json_line_found w _ _ Hlast) as [-> | (line & Hline & Hs & Hj)].
    { exists (strip (stdout child)). split; [done|by left]. }
    destruct json_output;
      first [ exists (strip (stdout child)); split; [done|by left]
            | injection Hp as <-; exists (strip line); split; [done|]; right; exists line;
              split; [by apply list_elem_of_In, in_rev, list_elem_of_In|done] ]. }
  destruct (match json_output with VNone => _ | _ => _ end) as [parsed|e] eqn:Hp.
  - intros _. split; [done|]. destruct (Hparsed parsed eq_refl) as (text & Hj & Hfrom).
    by exists child, parsed, text.
  - by destruct (exn_cls e).
Qed.

Lemma execution_succeeds_only_on_json_witness :
  write_script Samples.calm_world = None
  ∧ ∃ child result text,
      tool_process Samples.calm_world = Ok child
      ∧ returncode child = 0
      ∧ duration child ≤ launch_timeout
      ∧ _execute_tool_in_environment Samples.calm_world
        = [ ("status", VStr "success"); ("result", result);
            ("stdout", VStr (stdout child)); ("execution_time", VStr "completed") ]
      ∧ json_loads (rt Samples.calm_world) text = Ok result
      ∧ (text = strip (stdout child)
         ∨ ∃ line, line ∈ split_on newline (strip (stdout child))
                   ∧ text = strip line ∧ startswith "{" text = true).
Proof.
  apply (execution_succeeds_only_on_json Samples.calm_world). reflexivity.
Defined.

End ExecuteFacts.

(** ** Step 6 of the pipeline *)

Section ExtractionFacts.
Import PyStr Py DependencyParser Pipeline.

(** What the extraction returns, case by case. *)
Lemma extract_dependencies_cases lib fs file_path :
  let dependencies := extract_dependencies_from_file lib fs file_path in
  match fs file_path with
  | None | Some (Raise _) => dependencies = []
  | Some (Ok content) =>
      match first_declaration lib content with
      | None => dependencies = []
      | Some first_match =>
          match literal_eval lib (strip first_match) with
          | Ok dependencies_raw => dependencies = _parse_dependencies lib dependencies_raw
          | Raise e =>
              if falls_back e
              then dependencies
                   = _parse_dependencies lib
                       (PSeq (map PStr (_manual_parse_dependencies (strip first_match))))
              else dependencies = []
          end
      end
  end.
Proof.
  cbv zeta. rewrite extract_dependencies_total.
  destruct (fs file_path) as [[content|e]|]; [|done..].
  rewrite find_dependencies_variable_declaration.
  destruct (first_declaration lib content) as [first_match|]; [|done].
  unfold eval_first_match, falls_back.
  destruct (literal_eval lib (strip first_match)) as [raw|e]; [done|].
  by destruct (exn_cls e).
Qed.

(** C10, amended.  [extract_dependencies_from_file] returns a list on
    every path: the empty list when the file does not exist, when reading
    it fails, when no [dependencies] variable is found and when
    [ast.literal_eval] raises an exception other than [ValueError] and
    [SyntaxError]; after one of these two the manual splitter takes over
    and the names it finds are cleaned and returned.  Step 6 of the
    pipeline cannot fail on the extraction: once the tool file is there,
    the packages that are installed are exactly the extracted ones, and
    after an empty extraction no package is installed and the tool is
    launched. *)
Theorem extraction_never_fails (w : world) (tool_name : string) (user_input : pyval)
    (m : machine) (tool_file_path : string) (dependencies : list string) :
  journal m = [] →
  let m' := (execute_tool w tool_name user_input m).2 in
  Extracted tool_file_path dependencies ∈ journal m' →
  dependencies = extract_dependencies_from_file (lib w) (files w) tool_file_path
  ∧ (∀ package, PipInstall package ∈ journal m' ↔ package ∈ dependencies)
  ∧ (dependencies = [] → Launched tool_file_path ∈ journal m')
  ∧ match files w tool_file_path with
    | None | Some (Raise _) => dependencies = []
    | Some (Ok content) =>
        match first_declaration (lib w) content with
        | None => dependencies = []
        | Some first_match =>
            match literal_eval (lib w) (strip first_match) with
            | Ok dependencies_raw =>
                dependencies = _parse_dependencies (lib w) dependencies_raw
            | Raise e =>
                if falls_back e
                then dependencies
                     = _parse_dependencies (lib w)
                         (PSeq (map PStr (_manual_parse_dependencies (strip first_match))))
                else dependencies = []
            end
        end
    end.
Proof.
  intros Hm. cbv zeta. intros Hin.
  destruct (execute_tool_steps w tool_name user_input m Hm)
    as [Hnone | (path & deps & Hdeps & H)].
  { by apply Hnone in Hin. }
  assert (Hhere : tool_file_path = path ∧ dependencies = deps).
  { apply (H (Extracted tool_file_path dependencies) eq_refl) in Hin.
    apply elem_of_cons in Hin as [[= -> ->]|Hin]; [done|].
    apply elem_of_app in Hin as [Hin|Hin].
    - by apply list_elem_of_fmap in Hin as (? & ? & _).
    - destruct (reaches_launch w deps); [|by apply elem_of_nil in Hin].
      by apply list_elem_of_singleton in Hin. }
  destruct Hhere as [-> ->].
  split; [exact Hdeps|]. split; [|split].
  - intros package. rewrite (H (PipInstall package) eq_refl).
    rewrite elem_of_cons, elem_of_app, list_elem_of_fmap. split.
    + intros [?|[(q & [= ->] & Hq)|Hl]]; [done|done|].
      destruct (reaches_launch w deps); [|by apply elem_of_nil in Hl].
      by apply list_elem_of_singleton in Hl.
    + intros Hq. right. left. by exists package.
  - intros ->. apply (H (Launched path) eq_refl). cbn.
    apply list_elem_of_further, list_elem_of_here.
  - rewrite Hdeps. apply extract_dependencies_cases.
Qed.

Lemma extraction_never_fails_witness :
  let m' := (execute_tool Samples.busy_world "NAICSExcelTool" Samples.naics_input
               Samples.empty_machine).2 in
  let dependencies := ["opencv-python"; "requests"] in
  dependencies
  = extract_dependencies_from_file (lib Samples.busy_world) (files Samples.busy_world)
      Samples.calm_tool_file
  ∧ (∀ package, PipInstall package ∈ journal m' ↔ package ∈ dependencies)
  ∧ (dependencies = [] → Launched Samples.calm_tool_file ∈ journal m')
  ∧ match files Samples.busy_world Samples.calm_tool_file with
    | None | Some (Raise _) => dependencies = []
    | Some (Ok content) =>
        match first_declaration (lib Samples.busy_world) content with
        | None => dependencies = []
        | Some first_match =>
            match literal_eval (lib Samples.busy_world) (strip first_match) with
            | Ok dependencies_raw =>
                dependencies = _parse_dependencies (lib Samples.busy_world) dependencies_raw
            | Raise e =>
                if falls_back e
                then dependencies
                     = _parse_dependencies (lib Samples.busy_world)
                         (PSeq (map PStr (_manual_parse_dependencies (strip first_match))))
                else dependencies = []
            end
        end
    end.
Proof.
  apply (extraction_never_fails Samples.busy_world "NAICSExcelTool" Samples.naics_input
           Samples.empty_machine Samples.calm_tool_file ["opencv-python"; "requests"]).
  - reflexivity.
  - vm_compute. apply list_elem_of_further, list_elem_of_here.
Defined.

(** C10, at a tool file whose declaration [ast.literal_eval] rejects: the
    list of bare names [[pandas, cv2>=4.5]] raises [ValueError], yet the
    extraction is not empty, and the pipeline installs both packages
    before it launches the tool. *)
Lemma unparseable_declaration_is_installed :
  literal_eval Samples.bare_library (strip Samples.bare_text)
  = Raise (Exn ValueError "malformed node or string")
  ∧ extract_dependencies_from_file Samples.bare_library Samples.bare_files "tool.py"
    = ["opencv-python"; "pandas"]
  ∧ journal (execute_tool Samples.bare_world "NAICSExcelTool" Samples.naics_input
               Samples.empty_machine).2
    = [ Created Samples.calm_root;
        Extracted Samples.calm_tool_file ["opencv-python"; "pandas"];
        PipInstall "opencv-python"; PipInstall "pandas";
        Launched Samples.calm_tool_file;
        CleanupCalled Samples.calm_root; Removed Samples.calm_root ].
Proof. split; [|split]; by vm_compute. Qed.

End ExtractionFacts.
